(** * Exam-score predictor: the observation store, the validation boundary
      and the prediction route of [app.py], embedded in Rocq.

    Python floats are IEEE 754 binary64 values; they are modelled by the
    standard library's [spec_float] at precision 53 and maximal exponent
    1024, so every comparison and every rounding of the source is the one
    the interpreter performs.  Dictionaries are [gmap]s keyed by strings
    where the source only looks keys up, and Python values of unknown type
    ([Any]) are the inductive [pyval]. *)

From Stdlib Require Import ZArith List Bool Lia.
From Stdlib Require Import Sorting.Sorted Structures.OrderedTypeEx.
From Corelib Require Import SpecFloat.
From stdpp Require Import gmap strings.

Local Open Scope string_scope.
Local Open Scope Z_scope.

(** ** Binary64 arithmetic *)

Module F.

Definition prec : Z := 53.
Definition emax : Z := 1024.

Abbreviation float := spec_float.

Definition add : float -> float -> float := SFadd prec emax.
Definition sub : float -> float -> float := SFsub prec emax.
Definition mul : float -> float -> float := SFmul prec emax.
Definition div : float -> float -> float := SFdiv prec emax.
Definition ltb : float -> float -> bool := SFltb.
Definition leb : float -> float -> bool := SFleb.

(** [float(z)] for a Python [int] that is in range: the nearest binary64
    value, ties to even. *)
Definition of_Z (z : Z) : float := binary_normalize prec emax z 0 false.

(** A decimal literal [n / 10^k], as the parser reads it when both [n] and
    [10^k] are exact binary64 values (one correctly rounded division). *)
Definition dec (n : Z) (k : Z) : float := div (of_Z n) (of_Z (10 ^ k)).

Definition zero : float := S754_zero false.
Definition one : float := of_Z 1.
Definition nan : float := S754_nan.

Definition is_nan (x : float) : bool :=
  match x with S754_nan => true | _ => false end.

Definition is_zero (x : float) : bool :=
  match x with S754_zero _ => true | _ => false end.

(** Nearest integer to [n / d] for [0 <= n] and [0 < d], ties to even. *)
Definition rne_div (n d : Z) : Z :=
  let q := n / d in
  match 2 * (n mod d) ?= d with
  | Lt => q
  | Gt => q + 1
  | Eq => if Z.even q then q else q + 1
  end.

(** The builtin [round(x, ndigits)] on a float, for [0 <= ndigits]: the
    exact value of [x] is rounded half-even to [ndigits] decimals, and the
    decimal obtained is converted back to the nearest binary64 value.
    Zeros, infinities and NaN round to themselves. *)
Definition round (x : float) (ndigits : Z) : float :=
  match x with
  | S754_finite s m e =>
      let p := 10 ^ ndigits in
      let n := match e with
               | Zneg k => rne_div (Zpos m * p) (2 ^ Zpos k)
               | _ => Zpos m * 2 ^ e * p
               end in
      match n with
      | Zpos _ =>
          let '(q, e', l) := SFdiv_core_binary prec emax n 0 p 0 in
          binary_round_aux prec emax s q e' l
      | _ => S754_zero s
      end
  | _ => x
  end.

(** Neither NaN nor below zero (a zero of either sign counts). *)
Definition nonneg (x : float) : bool :=
  match x with
  | S754_zero _ | S754_infinity false | S754_finite false _ _ => true
  | _ => false
  end.

(** A zero or a finite number. *)
Definition finite (x : float) : bool :=
  match x with
  | S754_zero _ | S754_finite _ _ _ => true
  | _ => false
  end.

(** A number or an infinity of sign [s]. *)
Definition has_sign (s : bool) (x : float) : Prop :=
  match x with
  | S754_zero s' | S754_infinity s' | S754_finite s' _ _ => s' = s
  | S754_nan => False
  end.

End F.

Abbreviation float := spec_float.

(** ** The numpy routines the route calls on one-dimensional arrays *)

(** [np.sum] on a contiguous one-dimensional float64 array is the
    reduction [np.add.reduce]: the output starts at the identity [0.0] and
    receives numpy's pairwise sum of the array. *)

(** Fewer than eight elements: added left to right into [0.0]. *)
Definition sum_small (a : list float) : float := fold_left F.add a F.zero.

(** [r[j] += a[i + j]] for the [k] blocks of eight elements of [rest]. *)
Fixpoint add_blocks (k : nat) (r rest : list float) : list float :=
  match k with
  | O => r
  | S k' => add_blocks k' (zip_with F.add r (firstn 8 rest)) (skipn 8 rest)
  end.

(** From 8 to 128 elements: eight accumulators take the elements of the
    full blocks of eight, are added as a balanced tree, and the elements
    left over are added to the result one by one. *)
Definition sum_block (a : list float) : float :=
  let n := length a in
  let full := (n - n mod 8)%nat in
  match add_blocks (n / 8 - 1) (firstn 8 a) (skipn 8 (firstn full a)) with
  | [r0; r1; r2; r3; r4; r5; r6; r7] =>
      let res := F.add (F.add (F.add r0 r1) (F.add r2 r3))
                       (F.add (F.add r4 r5) (F.add r6 r7)) in
      fold_left F.add (skipn full a) res
  | _ => F.nan
  end.

(** More than 128 elements: the array is cut in two near its middle, at a
    multiple of eight, and the sums of the halves are added.  Each half is
    shorter than the array, so a depth of [length a] is never used up. *)
Fixpoint pairwise_sum_rec (depth : nat) (a : list float) : float :=
  let n := length a in
  if (n <? 8)%nat then sum_small a
  else if (n <=? 128)%nat then sum_block a
  else
    match depth with
    | O => F.nan
    | S depth' =>
        let n2 := (n / 2 - (n / 2) mod 8)%nat in
        F.add (pairwise_sum_rec depth' (firstn n2 a))
              (pairwise_sum_rec depth' (skipn n2 a))
    end.

Definition pairwise_sum (a : list float) : float :=
  pairwise_sum_rec (length a) a.

(** Releases of numpy differ on the sign of the zero they start from; the
    results differ only for an array whose elements are all [-0.0]. *)
Definition np_sum (a : list float) : float := F.add F.zero (pairwise_sum a).

(** [np.mean]: the sum divided by the number of elements. *)
Definition np_mean (a : list float) : float :=
  F.div (np_sum a) (F.of_Z (Z.of_nat (length a))).

(** ** Python values, exceptions *)

(** A value of type [Any]: what the JSON decoder hands to a view, and what
    a view hands to [jsonify]. *)
#[local] Unset Elimination Schemes.
Inductive pyval : Type :=
| PNone
| PBool (b : bool)
| PInt (z : Z)
| PFloat (f : float)
| PStr (s : string)
| PList (l : list pyval)
| PDict (d : list (string * pyval)).
#[local] Set Elimination Schemes.

Inductive exn : Type :=
| TypeError
| ValueError
| OverflowError
| KeyError (k : string)
| ZeroDivisionError
| IntegrityError
| OperationalError
| LinAlgError
| AttributeError.

(** A computation that returns or raises. *)
Inductive result (A : Type) : Type :=
| Ret (a : A)
| Raise (e : exn).
Arguments Ret {A} a.
Arguments Raise {A} e.

#[global] Instance result_ret : MRet result := fun A a => Ret a.
#[global] Instance result_bind : MBind result := fun A B k m =>
  match m with
  | Ret a => k a
  | Raise e => Raise e
  end.

#[global] Instance float_eq_dec : EqDecision float.
Proof. solve_decision. Defined.
#[global] Instance exn_eq_dec : EqDecision exn.
Proof. solve_decision. Defined.
#[global] Instance result_eq_dec {A} `{EqDecision A} : EqDecision (result A).
Proof. solve_decision. Defined.

(** [d[k]] on a dict literal, and [d[k] = v] (the key keeps its place). *)
Fixpoint dict_get (k : string) (d : list (string * pyval)) : option pyval :=
  match d with
  | [] => None
  | (k', v) :: d' => if String.eqb k k' then Some v else dict_get k d'
  end.

Fixpoint dict_set (k : string) (v : pyval) (d : list (string * pyval))
  : list (string * pyval) :=
  match d with
  | [] => [(k, v)]
  | (k', v') :: d' =>
      if String.eqb k k' then (k, v) :: d' else (k', v') :: dict_set k v d'
  end.

Definition py_get (k : string) (v : pyval) : option pyval :=
  match v with
  | PDict d => dict_get k d
  | _ => None
  end.

(** [body["a"]["b"]...] *)
Fixpoint py_path (ks : list string) (v : pyval) : option pyval :=
  match ks with
  | [] => Some v
  | k :: ks' => match py_get k v with
                | Some v' => py_path ks' v'
                | None => None
                end
  end.

(** [data.get(k)] on the decoded request body. *)
Definition data_get (data : gmap string pyval) (k : string) : pyval :=
  default PNone (data !! k).

(** [bool(v)] *)
Definition py_bool (v : pyval) : bool :=
  match v with
  | PNone => false
  | PBool b => b
  | PInt z => negb (z =? 0)
  | PFloat f => negb (F.is_zero f)
  | PStr s => negb (String.eqb s EmptyString)
  | PList l => match l with [] => false | _ :: _ => true end
  | PDict d => match d with [] => false | _ :: _ => true end
  end.

(** [request.get_json(silent=True) or {}]; [json] is what the decoder
    returns, [None] for a body that is not JSON. *)
Definition get_json_or_empty (json : pyval) : pyval :=
  if py_bool json then json else PDict [].

(** The object whose method [get] the validators call: only a dict has
    one, and looking it up on a list, a string or a number raises
    [AttributeError]. *)
Definition request_dict (data : pyval) : result (gmap string pyval) :=
  match data with
  | PDict d => Ret (list_to_map d)
  | _ => Raise AttributeError
  end.

(** [parsed[k]] *)
Definition getitem (parsed : gmap string float) (k : string) : result float :=
  match parsed !! k with
  | Some v => Ret v
  | None => Raise (KeyError k)
  end.

(** [bool(errors)]: a dict is true when it has a key. *)
Definition dict_bool {V} (d : gmap string V) : bool :=
  negb (Nat.eqb (size d) 0).

(** [jsonify]'s view of a [Dict[str, str]]. *)
Definition str_dict (d : gmap string string) : pyval :=
  PDict (map (fun kv => (fst kv, PStr (snd kv))) (map_to_list d)).

(** ** Validation of a request body *)

Section App.

(** [float(s)] on a string: the interpreter's decimal parser, [None] where
    it raises [ValueError]. *)
Variable float_of_str : string -> option float.

(** The builtin [float(value)]. *)
Definition py_float (value : pyval) : result float :=
  match value with
  | PFloat f => Ret f
  | PInt z =>
      match F.of_Z z with
      | S754_infinity _ => Raise OverflowError
      | f => Ret f
      end
  | PBool b => Ret (if b then F.one else F.zero)
  | PStr s =>
      match float_of_str s with
      | Some f => Ret f
      | None => Raise ValueError
      end
  | PNone | PList _ | PDict _ => Raise TypeError
  end.

Definition parse_float (value : pyval) : result (option float) :=
  match py_float value with
  | Ret f => Ret (Some f)
  | Raise TypeError | Raise ValueError => Ret None
  | Raise e => Raise e
  end.

(** One field of a validator: the three-way branch
    [if v is None: errors[k] = .. elif <out of range>: errors[k] = ..
     else: parsed[k] = v]. *)
Definition check_field (k : string) (v : option float)
    (out_of_range : float -> bool) (not_a_number bad_range : string)
    (ep : gmap string string * gmap string float)
  : gmap string string * gmap string float :=
  let '(errors, parsed) := ep in
  match v with
  | None => (<[k := not_a_number]> errors, parsed)
  | Some x =>
      if out_of_range x then (<[k := bad_range]> errors, parsed)
      else (errors, <[k := x]> parsed)
  end.

(** [avg_glucose <= 0] *)
Definition bad_avg_glucose (x : float) : bool := F.leb x F.zero.
(** [glucose_sd < 0] *)
Definition bad_glucose_sd (x : float) : bool := F.ltb x F.zero.
(** [not 1 <= difficulty <= 10] *)
Definition bad_difficulty (x : float) : bool :=
  negb (F.leb (F.of_Z 1) x && F.leb x (F.of_Z 10)).
(** [not 0 <= score <= 100] *)
Definition bad_score (x : float) : bool :=
  negb (F.leb F.zero x && F.leb x (F.of_Z 100)).

Definition validate_predict (data : gmap string pyval)
  : result (gmap string string * gmap string float) :=
  let ep : gmap string string * gmap string float := (∅, ∅) in
  avg_glucose ← parse_float (data_get data "avg_glucose");
  let ep := check_field "avg_glucose" avg_glucose bad_avg_glucose
              "Average glucose must be a number."
              "Average glucose must be > 0." ep in
  glucose_sd ← parse_float (data_get data "glucose_sd");
  let ep := check_field "glucose_sd" glucose_sd bad_glucose_sd
              "Glucose SD must be a number."
              "Glucose SD must be >= 0." ep in
  difficulty ← parse_float (data_get data "difficulty");
  let ep := check_field "difficulty" difficulty bad_difficulty
              "Difficulty must be a number."
              "Difficulty must be between 1 and 10." ep in
  mret ep.

Definition validate_entry (data : gmap string pyval)
  : result (gmap string string * gmap string float) :=
  let ep : gmap string string * gmap string float := (∅, ∅) in
  avg_glucose ← parse_float (data_get data "avg_glucose");
  let ep := check_field "avg_glucose" avg_glucose bad_avg_glucose
              "Average glucose must be a number."
              "Average glucose must be > 0." ep in
  glucose_sd ← parse_float (data_get data "glucose_sd");
  let ep := check_field "glucose_sd" glucose_sd bad_glucose_sd
              "Glucose SD must be a number."
              "Glucose SD must be >= 0." ep in
  difficulty ← parse_float (data_get data "difficulty");
  let ep := check_field "difficulty" difficulty bad_difficulty
              "Difficulty must be a number."
              "Difficulty must be between 1 and 10." ep in
  score ← parse_float (data_get data "score");
  let ep := check_field "score" score bad_score
              "Score must be a number."
              "Score must be between 0 and 100." ep in
  mret ep.


(** ** The observation store: table [exam_entries] *)

(** One row of [exam_entries]; [rowid] is the column [id INTEGER PRIMARY KEY
    AUTOINCREMENT]. *)
Record row : Type := {
  rowid : Z;
  created_at : string;
  avg_glucose : float;
  glucose_sd : float;
  difficulty : float;
  score : float
}.

(** The database file: the table in insertion order, and the largest
    [rowid] the table has ever held ([sqlite_sequence]). *)
Record db : Type := {
  exam_entries : list row;
  sqlite_sequence : Z
}.

(** The range constraints, as comparisons that hold: [avg_glucose > 0],
    [glucose_sd >= 0], [1 <= difficulty <= 10], [0 <= score <= 100]. *)
Definition valid_row (r : row) : Prop :=
  F.ltb F.zero (avg_glucose r) = true
  /\ F.leb F.zero (glucose_sd r) = true
  /\ F.leb (F.of_Z 1) (difficulty r) && F.leb (difficulty r) (F.of_Z 10) = true
  /\ F.leb F.zero (score r) && F.leb (score r) (F.of_Z 100) = true.

(** Every stored observation is within its ranges. *)
Definition store_ok (st : db) : Prop := Forall valid_row (exam_entries st).

(** A fresh database after [init_db]. *)
Definition empty_db : db := {| exam_entries := []; sqlite_sequence := 0 |}.

Definition max_rowid (rows : list row) : Z :=
  fold_right (fun r m => Z.max (rowid r) m) 0 rows.

Definition int64_max : Z := 9223372036854775807.

(** A number stored in a [REAL] column, as it is read back: the record
    format keeps a real that is a whole number as an integer, so [-0.0]
    comes back as [0.0]; every other number comes back bit for bit. *)
Definition real_column (x : float) : float :=
  match x with
  | S754_zero _ => S754_zero false
  | _ => x
  end.

(** [INSERT INTO exam_entries (created_at, avg_glucose, glucose_sd,
    difficulty, score) VALUES (?, ?, ?, ?, ?)] followed by [commit]: a NaN
    is bound as NULL and breaks [NOT NULL]; the new [rowid] is one more
    than the largest ever used, and the insert fails once that is the
    largest 64-bit integer. *)
Definition insert_entry (now : string) (a s d sc : float) (st : db)
  : result (Z * db) :=
  if F.is_nan a || F.is_nan s || F.is_nan d || F.is_nan sc
  then Raise IntegrityError
  else
    let entry_id := Z.max (sqlite_sequence st) (max_rowid (exam_entries st)) + 1 in
    if int64_max <? entry_id then Raise OperationalError
    else
      let r := {| rowid := entry_id; created_at := now;
                  avg_glucose := real_column a; glucose_sd := real_column s;
                  difficulty := real_column d; score := real_column sc |} in
      Ret (entry_id,
           {| exam_entries := (exam_entries st ++ [r])%list;
              sqlite_sequence := entry_id |}).

(** [SELECT * FROM exam_entries WHERE id = ?], [fetchone()] *)
Definition select_by_id (entry_id : Z) (st : db) : option row :=
  find (fun r => rowid r =? entry_id) (exam_entries st).

(** The order of [ORDER BY created_at ASC, id ASC]: text compared byte by
    byte, then the integer key. *)
Definition row_leb (r1 r2 : row) : bool :=
  match String.compare (created_at r1) (created_at r2) with
  | Lt => true
  | Gt => false
  | Eq => rowid r1 <=? rowid r2
  end.

Definition row_le (r1 r2 : row) : Prop := row_leb r1 r2 = true.

Fixpoint order_insert (r : row) (rows : list row) : list row :=
  match rows with
  | [] => [r]
  | h :: t => if row_leb r h then r :: rows else h :: order_insert r t
  end.

Definition order_by (rows : list row) : list row :=
  fold_right order_insert [] rows.

(** [SELECT * FROM exam_entries ORDER BY created_at ASC, id ASC] *)
Definition fetch_entries (st : db) : list row := order_by (exam_entries st).

(** [dict(row)] keeps every column under its name. *)
Definition rows_to_dicts (rows : list row) : list row := rows.

Definition dict_of_row (r : row) : pyval :=
  PDict [("id", PInt (rowid r)); ("created_at", PStr (created_at r));
         ("avg_glucose", PFloat (avg_glucose r));
         ("glucose_sd", PFloat (glucose_sd r));
         ("difficulty", PFloat (difficulty r)); ("score", PFloat (score r))].

(** ** The routes *)

(** A view's return value: the body handed to [jsonify] and the status. *)
Definition response : Type := pyval * Z.

(** [GET /api/entries] *)
Definition get_entries (st : db) : response :=
  let entries := rows_to_dicts (fetch_entries st) in
  (PDict [("entries", PList (map dict_of_row entries))], 200).

(** [POST /api/entries]; [now] is what [now_iso()] reads from the clock.
    The result is the view's outcome and the database it leaves. *)
Definition add_entry (now : string) (data : gmap string pyval) (st : db)
  : result response * db :=
  match validate_entry data with
  | Raise e => (Raise e, st)
  | Ret (errors, parsed) =>
      if dict_bool errors then (Ret (PDict [("errors", str_dict errors)], 400), st)
      else
        let created_at := now in
        match (a ← getitem parsed "avg_glucose";
               s ← getitem parsed "glucose_sd";
               d ← getitem parsed "difficulty";
               sc ← getitem parsed "score";
               insert_entry created_at a s d sc st) with
        | Raise e => (Raise e, st)
        | Ret (entry_id, st') =>
            match select_by_id entry_id st' with
            | Some r => (Ret (dict_of_row r, 201), st')
            | None => (Raise TypeError, st')
            end
        end
  end.

(** [np.linalg.lstsq(x, y, rcond=None)[0].tolist()] for a design matrix of
    four columns: LAPACK's SVD-based solver, which returns the four
    coefficients or raises [LinAlgError]. *)
Variable lstsq : list (list float) -> list float -> result (float * float * float * float).

Definition design_row (entry : row) : list float :=
  [F.one; avg_glucose entry; glucose_sd entry; difficulty entry].

(** [x.dot(coeffs)]: numpy hands the matrix-vector product to the BLAS
    routine it is linked with, and the last bits of an entry depend on
    that routine.  [x_dot x coeffs i] is entry [i] of the product. *)
Variable x_dot : list (list float) -> float * float * float * float -> nat -> float.

(** [a ** 2] on an array *)
Definition square (a : float) : float := F.mul a a.

(** [np.sum((y - y_pred) ** 2)] *)
Definition ss_res_of (x : list (list float)) (y : list float)
    (c : float * float * float * float) : float :=
  let y_pred := map (x_dot x c) (seq 0 (length x)) in
  np_sum (map square (zip_with F.sub y y_pred)).

(** [np.sum((y - np.mean(y)) ** 2)] *)
Definition ss_tot_of (y : list float) : float :=
  let m := np_mean y in
  np_sum (map (fun yi => square (F.sub yi m)) y).

(** Python's [a / b] on floats. *)
Definition py_truediv (a b : float) : result float :=
  if F.is_zero b then Raise ZeroDivisionError else Ret (F.div a b).

(** The dict [model] as first built. *)
Definition initial_model (n : nat) : list (string * pyval) :=
  [("type", PStr "multivariate_linear_regression");
   ("coefficients",
     PDict [("intercept", PFloat F.zero); ("avg_glucose", PFloat F.zero);
            ("glucose_sd", PFloat F.zero); ("difficulty", PFloat F.zero)]);
   ("n_training_rows", PInt (Z.of_nat n));
   ("r2", PNone)].

Definition note_too_few : string :=
  "Not enough data for regression (need at least 3 rows). Returning mean score of existing entries.".
Definition note_no_data : string :=
  "No data yet. Returning 0 as a placeholder prediction until entries exist.".

Definition prediction (predicted : float) (model : list (string * pyval))
    (notes : list string) : response :=
  (PDict [("predicted_score", PFloat (F.round predicted 2));
          ("model", PDict model);
          ("notes", PList (map PStr notes))], 200).

(** [intercept + b_avg * parsed["avg_glucose"] + b_sd * parsed["glucose_sd"]
    + b_diff * parsed["difficulty"]], added left to right. *)
Definition linear_form (coeffs : float * float * float * float)
    (p_avg p_sd p_diff : float) : float :=
  let '(intercept, b_avg, b_sd, b_diff) := coeffs in
  F.add (F.add (F.add intercept (F.mul b_avg p_avg)) (F.mul b_sd p_sd))
        (F.mul b_diff p_diff).

(** [r2 = None; if ss_tot > 0: r2 = 1 - ss_res / ss_tot] *)
Definition r_squared (ss_res ss_tot : float) : result (option float) :=
  if F.ltb F.zero ss_tot
  then q ← py_truediv ss_res ss_tot; mret (Some (F.sub (F.of_Z 1) q))
  else mret None.

(** The dict assigned to [model["coefficients"]] after the fit. *)
Definition coefficients_dict (coeffs : float * float * float * float) : pyval :=
  let '(intercept, b_avg, b_sd, b_diff) := coeffs in
  PDict [("intercept", PFloat intercept); ("avg_glucose", PFloat b_avg);
         ("glucose_sd", PFloat b_sd); ("difficulty", PFloat b_diff)].

(** [None if r2 is None else round(r2, 4)] *)
Definition r2_slot (r2 : option float) : pyval :=
  match r2 with
  | None => PNone
  | Some r => PFloat (F.round r 4)
  end.

(** The body of [predict] once the input is validated and the history is
    read: strategy choice, fit and diagnostics. *)
Definition predict_entries (parsed : gmap string float) (entries : list row)
  : result response :=
  let notes : list string := [] in
  let model := initial_model (length entries) in
  if (length entries <? 3)%nat then
    let '(predicted, notes) :=
      match entries with
      | _ :: _ => (np_mean (map score entries), (notes ++ [note_too_few])%list)
      | [] => (F.zero, (notes ++ [note_no_data])%list)
      end in
    mret (prediction predicted model notes)
  else
    let x := map design_row entries in
    let y := map score entries in
    coeffs ← lstsq x y;
    p_avg ← getitem parsed "avg_glucose";
    p_sd ← getitem parsed "glucose_sd";
    p_diff ← getitem parsed "difficulty";
    let predicted := linear_form coeffs p_avg p_sd p_diff in
    let ss_res := ss_res_of x y coeffs in
    let ss_tot := ss_tot_of y in
    r2 ← r_squared ss_res ss_tot;
    let model := dict_set "coefficients" (coefficients_dict coeffs) model in
    let model := dict_set "r2" (r2_slot r2) model in
    mret (prediction predicted model notes).

(** [POST /api/predict], from the second line of the view on: [data] is a
    dict. *)
Definition predict (data : gmap string pyval) (st : db) : result response :=
  '(errors, parsed) ← validate_predict data;
  if dict_bool errors then mret (PDict [("errors", str_dict errors)], 400)
  else predict_entries parsed (rows_to_dicts (fetch_entries st)).

(** The two [POST] views from their first line, on whatever the decoder
    returned for the request body. *)
Definition predict_request (json : pyval) (st : db) : result response :=
  data ← request_dict (get_json_or_empty json);
  predict data st.

Definition add_entry_request (now : string) (json : pyval) (st : db)
  : result response * db :=
  match request_dict (get_json_or_empty json) with
  | Raise e => (Raise e, st)
  | Ret data => add_entry now data st
  end.

End App.


(** ** The fields of a request, and the databases the routes can produce *)

(** The keys [validate_entry] reads, in order; [validate_predict] reads the
    first three. *)
Definition entry_fields : list string :=
  ["avg_glucose"; "glucose_sd"; "difficulty"; "score"].

Definition predict_fields : list string :=
  ["avg_glucose"; "glucose_sd"; "difficulty"].

(** The range test a validator applies to the field [k]. *)
Definition out_of_range (k : string) (x : float) : bool :=
  if String.eqb k "avg_glucose" then bad_avg_glucose x
  else if String.eqb k "glucose_sd" then bad_glucose_sd x
  else if String.eqb k "difficulty" then bad_difficulty x
  else if String.eqb k "score" then bad_score x
  else false.

(** The message a validator stores for a field that is not a number. *)
Definition not_a_number (k : string) : string :=
  if String.eqb k "avg_glucose" then "Average glucose must be a number."
  else if String.eqb k "glucose_sd" then "Glucose SD must be a number."
  else if String.eqb k "difficulty" then "Difficulty must be a number."
  else "Score must be a number.".

(** What holds of the pair [(errors, parsed)] once the fields [ks] have
    been checked: a key is in one of the two dicts exactly when it has
    been checked, never in both, and a value in [parsed] is the parsed
    field, which passed its test. *)
Definition fields_checked (test : string -> float -> bool)
    (src : string -> result (option float)) (ks : list string)
    (ep : gmap string string * gmap string float) : Prop :=
  forall k,
    (is_Some (ep.1 !! k) \/ is_Some (ep.2 !! k) <-> In k ks)
    /\ ~ (is_Some (ep.1 !! k) /\ is_Some (ep.2 !! k))
    /\ forall x, ep.2 !! k = Some x -> src k = Ret (Some x) /\ test k x = false.

(** The databases reached from a fresh one by record requests, whatever
    their bodies and the clock readings. *)
Inductive reachable (float_of_str : string -> option float) : db -> Prop :=
| reachable_fresh : reachable float_of_str empty_db
| reachable_record now data st :
    reachable float_of_str st ->
    reachable float_of_str (add_entry float_of_str now data st).2.

(** The four columns of a row that a prediction computes with. *)
Definition columns (r : row) : float * float * float * float :=
  (avg_glucose r, glucose_sd r, difficulty r, score r).

(** ** Two decimals, and the scores a table holds *)

(** [hundredths x n]: [n] is the integer nearest to [100 * x], the even
    one of the two when [100 * x] is halfway between two integers.  For
    [x = m * 2^e] this compares [100 * m * 2^e] with [n], both multiplied
    by [2^-e] when [e] is negative. *)
Definition hundredths (x : float) (n : Z) : Prop :=
  match x with
  | S754_zero _ => n = 0
  | S754_finite false m e =>
      let num := 100 * Z.pos m * 2 ^ Z.max e 0 in
      let den := 2 ^ Z.max (- e) 0 in
      Z.abs (2 * (num - n * den)) <= den
      /\ (Z.abs (2 * (num - n * den)) = den -> Z.even n = true)
  | _ => False
  end.

(** A score as the table holds it: a binary64 number within [0, 100] that
    is not [-0.0], which a [REAL] column gives back as [0.0]. *)
Definition stored_score (s : float) : Prop :=
  valid_binary F.prec F.emax s = true
  /\ F.leb F.zero s && F.leb s (F.of_Z 100) = true
  /\ s <> S754_zero true.

(** ** Notions used in the proofs about rounding *)

(** The two bits a right shift keeps of what it drops: both clear when no
    bit has been lost. *)
Definition shr_flags (mrs : shr_record) : bool := shr_r mrs || shr_s mrs.

(** [k] shifts divide the mantissa by [2^k], and no bit is lost exactly
    when none was lost before and the mantissa is a multiple of [2^k]. *)
Definition shifted (k : Z) (x y : shr_record) : Prop :=
  0 <= shr_m y
  /\ shr_m y = shr_m x / 2 ^ k
  /\ (shr_flags y = false <-> shr_flags x = false /\ shr_m x mod 2 ^ k = 0).

Definition loc_exact (l : location) : bool :=
  match l with loc_Exact => true | _ => false end.

(** [x] is [0.0] or a positive float of negative exponent that is at most
    [25 * 2^t]: at most [100] for [t = 2], at most [200] for [t = 3]. *)
Definition below (t : Z) (x : float) : Prop :=
  x = S754_zero false
  \/ exists m e,
       x = S754_finite false m e /\ -1074 <= e < 0
       /\ Z.pos m <= 25 * 2 ^ (t - e).

(** The integer quotient [n / 100] rounded to binary64, as [round] computes
    it from the integer [n] of hundredths. *)
Definition round_core (n : Z) : float :=
  let '(q, e', l) := SFdiv_core_binary F.prec F.emax n 0 100 0 in
  binary_round_aux F.prec F.emax false q e' l.

(** ** Sample requests and databases *)

Module Sample.

(** A string parser that accepts nothing; the sample bodies carry numbers. *)
Definition float_of_str (s : string) : option float := None.

(** A solver that answers every system with the same coefficients. *)
Definition solver (c : float * float * float * float)
    (x : list (list float)) (y : list float)
  : result (float * float * float * float) := Ret c.

(** A matrix-vector product that adds the four products of a row from
    left to right. *)
Definition dot (x : list (list float)) (c : float * float * float * float)
    (i : nat) : float :=
  let '(c0, c1, c2, c3) := c in
  match x !! i with
  | Some [x0; x1; x2; x3] =>
      F.add (F.add (F.add (F.mul x0 c0) (F.mul x1 c1)) (F.mul x2 c2)) (F.mul x3 c3)
  | _ => F.nan
  end.

Definition entry (a s d sc : pyval) : gmap string pyval :=
  {[ "avg_glucose" := a; "glucose_sd" := s; "difficulty" := d; "score" := sc ]}.

Definition query (a s d : pyval) : gmap string pyval :=
  {[ "avg_glucose" := a; "glucose_sd" := s; "difficulty" := d ]}.

Definition record (now : string) (data : gmap string pyval) (st : db) : db :=
  (add_entry float_of_str now data st).2.

Definition stamp : string := "2024-05-01T09:00:00+00:00".
Definition stamp' : string := "2024-05-02T17:30:00+00:00".

(** Two readings of a local clock, forty minutes apart, across the end of
    daylight saving time: the later instant has the smaller text. *)
Definition stamp_edt : string := "2024-11-03T01:30:00-04:00".
Definition stamp_est : string := "2024-11-03T01:10:00-05:00".

(** The observations [(100,10,3,70)], [(150,30,8,90)], [(120,15,5,80)]. *)
Definition e1 : gmap string pyval := entry (PInt 100) (PInt 10) (PInt 3) (PInt 70).
Definition e2 : gmap string pyval := entry (PInt 150) (PInt 30) (PInt 8) (PInt 90).
Definition e3 : gmap string pyval := entry (PInt 120) (PInt 15) (PInt 5) (PInt 80).

(** The history they make, the first two rows stamped in the same
    instant. *)
Definition db1 : db := record stamp e1 empty_db.
Definition db2 : db := record stamp e2 db1.
Definition db3 : db := record stamp' e3 db2.

(** One row, and a second one whose score [90.125] makes the mean
    [80.0625]. *)
Definition e4 : gmap string pyval :=
  entry (PInt 150) (PInt 30) (PInt 8) (PFloat (F.dec 90125 3)).
Definition db_mean : db := record stamp e4 db1.

(** The same predictors, every score [88.6]. *)
Definition flat_db : db :=
  record stamp' (entry (PInt 120) (PInt 15) (PInt 5) (PFloat (F.dec 886 1)))
    (record stamp (entry (PInt 150) (PInt 30) (PInt 8) (PFloat (F.dec 886 1)))
       (record stamp (entry (PInt 100) (PInt 10) (PInt 3) (PFloat (F.dec 886 1)))
          empty_db)).

(** The query [(130, 20, 6)], and what validation stores for it. *)
Definition q1 : gmap string pyval := query (PInt 130) (PInt 20) (PInt 6).

Definition parsed_q1 : gmap string float :=
  <["difficulty" := F.of_Z 6]>
    (<["glucose_sd" := F.of_Z 20]> (<["avg_glucose" := F.of_Z 130]> ∅)).

(** A query whose [avg_glucose] is NaN (the JSON literal [NaN], or the
    string "nan"). *)
Definition q_nan : gmap string pyval := query (PFloat F.nan) (PInt 20) (PInt 6).

(** A query with a negative [avg_glucose] and an integer [glucose_sd] of
    four hundred digits. *)
Definition q_huge : gmap string pyval :=
  query (PInt (-5)) (PInt (10 ^ 400)) (PInt 6).

(** A record request whose score is out of range. *)
Definition bad_entry : gmap string pyval :=
  entry (PInt 100) (PInt 10) (PInt 3) (PInt 120).

(** A record request whose [glucose_sd] is [-0.0]. *)
Definition e_zero : gmap string pyval :=
  entry (PInt 120) (PFloat (S754_zero true)) (PInt 5) (PInt 80).

(** Coefficients [50, 1/3, 0.5, 2]. *)
Definition c2 : float * float * float * float :=
  (F.of_Z 50, F.div (F.of_Z 1) (F.of_Z 3), F.dec 5 1, F.of_Z 2).

(** Coefficients [50, 0.25, 0, 0]. *)
Definition c1 : float * float * float * float :=
  (F.of_Z 50, F.dec 25 2, F.zero, F.zero).

(** A solver that always fails. *)
Definition failing_solver (x : list (list float)) (y : list float)
  : result (float * float * float * float) := Raise LinAlgError.

(** A query with a negative [avg_glucose]. *)
Definition q_neg : gmap string pyval := query (PInt (-5)) (PInt 20) (PInt 6).

(** A record request whose [avg_glucose] is NaN. *)
Definition nan_entry : gmap string pyval :=
  entry (PFloat F.nan) (PInt 20) (PInt 6) (PInt 70).

(** What validation returns for [bad_entry]. *)
Definition bad_entry_errors : gmap string string :=
  <["score" := "Score must be between 0 and 100."]> ∅.

Definition bad_entry_parsed : gmap string float :=
  <["difficulty" := F.of_Z 3]>
    (<["glucose_sd" := F.of_Z 10]> (<["avg_glucose" := F.of_Z 100]> ∅)).

(** The two rows of [db2] under other keys and stamps. *)
Definition db2_moved : db :=
  {| exam_entries :=
       [ {| rowid := 5; created_at := stamp_est; avg_glucose := F.of_Z 100;
            glucose_sd := F.of_Z 10; difficulty := F.of_Z 3; score := F.of_Z 70 |};
         {| rowid := 8; created_at := stamp_edt; avg_glucose := F.of_Z 150;
            glucose_sd := F.of_Z 30; difficulty := F.of_Z 8; score := F.of_Z 90 |} ];
     sqlite_sequence := 8 |}.

End Sample.
(** * Properties *)

(** ** Rounding and the mean on sample values *)

Example round_2_675 : F.round (F.dec 2675 3) 2 = F.dec 267 2.
Proof. vm_compute. reflexivity. Qed.

Example round_tie_even : F.round (F.dec 125 3) 2 = F.dec 12 2.
Proof. vm_compute. reflexivity. Qed.

(** Eight equal elements go to the eight accumulators and their mean is
    exact; added one by one, as the first seven are, they would not be. *)
Example mean_of_eight :
  np_mean (repeat (F.dec 886 1) 8) = F.dec 886 1
  /\ F.div (fold_left F.add (repeat (F.dec 886 1) 8) F.zero) (F.of_Z 8)
     <> F.dec 886 1.
Proof. vm_compute. split; [reflexivity|discriminate]. Qed.

Example mean_of_thirteen_tenths :
  np_mean (repeat (F.dec 1 1) 13) <> F.dec 1 1
  /\ F.div (fold_left F.add (repeat (F.dec 1 1) 13) F.zero) (F.of_Z 13)
     = F.dec 1 1.
Proof. vm_compute. split; [discriminate|reflexivity]. Qed.

Example mean_of_three_tenths :
  np_mean [F.dec 1 1; F.dec 1 1; F.dec 1 1] = S754_finite false 7205759403792795 (-56)
  /\ F.dec 1 1 = S754_finite false 7205759403792794 (-56).
Proof. vm_compute. split; reflexivity. Qed.


Lemma Ret_inj {A} (a b : A) : Ret a = Ret b -> a = b.
Proof. intros H. injection H. trivial. Qed.

(** ** The validators *)

Lemma dict_bool_false {V} (d : gmap string V) :
  dict_bool d = false <-> d = ∅.
Proof.
  unfold dict_bool. rewrite negb_false_iff, Nat.eqb_eq.
  apply map_size_empty_iff.
Qed.

Lemma dict_bool_insert {V} (d : gmap string V) k v :
  dict_bool (<[k := v]> d) = true.
Proof.
  destruct (dict_bool (<[k := v]> d)) eqn:E; [reflexivity|].
  apply dict_bool_false in E. exfalso. exact (insert_non_empty d k v E).
Qed.

(** A field leaves [errors] empty only if [errors] was empty, the value
    parsed and it lies in range; it is then stored under its key. *)
Lemma check_field_accepts k v bad m1 m2 ep :
  (check_field k v bad m1 m2 ep).1 = ∅ ->
  ep.1 = ∅ /\ exists x, v = Some x /\ bad x = false
                 /\ (check_field k v bad m1 m2 ep).2 = <[k := x]> ep.2.
Proof.
  destruct ep as [errors parsed]. unfold check_field.
  destruct v as [x|]; simpl.
  - destruct (bad x) eqn:B; simpl; intros H.
    + exfalso. exact (insert_non_empty errors k m2 H).
    + split; [exact H|]. exists x. auto.
  - intros H. exfalso. exact (insert_non_empty errors k m1 H).
Qed.

(** Errors are never removed by a later field. *)
Lemma check_field_keeps_errors k v bad m1 m2 ep k' :
  k' <> k -> (check_field k v bad m1 m2 ep).1 !! k' = ep.1 !! k'.
Proof.
  intros Hne. destruct ep as [errors parsed]. unfold check_field.
  destruct v as [x|]; simpl; [destruct (bad x); simpl|];
    try reflexivity; apply lookup_insert_ne; congruence.
Qed.

Section Validators.

Variable float_of_str : string -> option float.

Lemma parse_float_inv value r :
  parse_float float_of_str value = Ret r ->
  match r with
  | Some x => py_float float_of_str value = Ret x
  | None => py_float float_of_str value = Raise TypeError
            \/ py_float float_of_str value = Raise ValueError
  end.
Proof.
  unfold parse_float. destruct (py_float float_of_str value) as [f|e].
  - intros [= <-]. reflexivity.
  - destruct e; intros [= <-]; auto.
Qed.

(** What an accepted prediction input looks like: the three fields parsed
    to floats that passed the range tests, stored under their names. *)
Lemma validate_predict_accepts data parsed :
  validate_predict float_of_str data = Ret (∅, parsed) ->
  exists a s d,
    parse_float float_of_str (data_get data "avg_glucose") = Ret (Some a)
    /\ parse_float float_of_str (data_get data "glucose_sd") = Ret (Some s)
    /\ parse_float float_of_str (data_get data "difficulty") = Ret (Some d)
    /\ bad_avg_glucose a = false /\ bad_glucose_sd s = false
    /\ bad_difficulty d = false
    /\ parsed = <["difficulty" := d]> (<["glucose_sd" := s]> (<["avg_glucose" := a]> ∅)).
Proof.
  unfold validate_predict.
  destruct (parse_float float_of_str (data_get data "avg_glucose")) as [va|]; [|discriminate].
  destruct (parse_float float_of_str (data_get data "glucose_sd")) as [vs|]; [|discriminate].
  destruct (parse_float float_of_str (data_get data "difficulty")) as [vd|]; [|discriminate].
  cbn [mbind result_bind mret result_ret].
  intros H. apply Ret_inj in H. pose proof (f_equal fst H) as He. pose proof (f_equal snd H) as Hp.
  cbn [fst snd] in He, Hp.
  apply check_field_accepts in He as He3. destruct He3 as (He2 & d & -> & Bd & Pd).
  apply check_field_accepts in He2 as He2'. destruct He2' as (He1 & s & -> & Bs & Ps).
  apply check_field_accepts in He1 as He1'. destruct He1' as (_ & a & -> & Ba & Pa).
  exists a, s, d. repeat split; auto.
  rewrite <- Hp, Pd, Ps, Pa. reflexivity.
Qed.

Lemma validate_entry_accepts data parsed :
  validate_entry float_of_str data = Ret (∅, parsed) ->
  exists a s d sc,
    parse_float float_of_str (data_get data "avg_glucose") = Ret (Some a)
    /\ parse_float float_of_str (data_get data "glucose_sd") = Ret (Some s)
    /\ parse_float float_of_str (data_get data "difficulty") = Ret (Some d)
    /\ parse_float float_of_str (data_get data "score") = Ret (Some sc)
    /\ bad_avg_glucose a = false /\ bad_glucose_sd s = false
    /\ bad_difficulty d = false /\ bad_score sc = false
    /\ parsed = <["score" := sc]> (<["difficulty" := d]>
                  (<["glucose_sd" := s]> (<["avg_glucose" := a]> ∅))).
Proof.
  unfold validate_entry.
  destruct (parse_float float_of_str (data_get data "avg_glucose")) as [va|]; [|discriminate].
  destruct (parse_float float_of_str (data_get data "glucose_sd")) as [vs|]; [|discriminate].
  destruct (parse_float float_of_str (data_get data "difficulty")) as [vd|]; [|discriminate].
  destruct (parse_float float_of_str (data_get data "score")) as [vsc|]; [|discriminate].
  cbn [mbind result_bind mret result_ret].
  intros H. apply Ret_inj in H. pose proof (f_equal fst H) as He. pose proof (f_equal snd H) as Hp.
  cbn [fst snd] in He, Hp.
  apply check_field_accepts in He as He4. destruct He4 as (He3 & sc & -> & Bsc & Psc).
  apply check_field_accepts in He3 as He3'. destruct He3' as (He2 & d & -> & Bd & Pd).
  apply check_field_accepts in He2 as He2'. destruct He2' as (He1 & s & -> & Bs & Ps).
  apply check_field_accepts in He1 as He1'. destruct He1' as (_ & a & -> & Ba & Pa).
  exists a, s, d, sc. repeat split; auto.
  rewrite <- Hp, Psc, Pd, Ps, Pa. reflexivity.
Qed.

End Validators.

(** ** The prediction route *)

(** The guard [ss_tot > 0] keeps the division away from a zero divisor. *)
Lemma r_squared_returns ss_res ss_tot :
  r_squared ss_res ss_tot =
  Ret (if F.ltb F.zero ss_tot
       then Some (F.sub (F.of_Z 1) (F.div ss_res ss_tot))
       else None).
Proof.
  unfold r_squared, py_truediv.
  destruct ss_tot as [s| s | |s m e]; try (destruct s); reflexivity.
Qed.

Lemma getitem_accepted (a s d : float) :
  let parsed : gmap string float :=
    <["difficulty" := d]> (<["glucose_sd" := s]> (<["avg_glucose" := a]> ∅)) in
  getitem parsed "avg_glucose" = Ret a
  /\ getitem parsed "glucose_sd" = Ret s
  /\ getitem parsed "difficulty" = Ret d.
Proof.
  intros parsed. unfold getitem, parsed.
  repeat split; simplify_map_eq; reflexivity.
Qed.

(** The mean of one score and of two, written out. *)
Lemma np_mean_one s1 :
  np_mean [s1] = F.div (F.add F.zero (F.add F.zero s1)) (F.of_Z 1).
Proof. reflexivity. Qed.

Lemma np_mean_two s1 s2 :
  np_mean [s1; s2]
  = F.div (F.add F.zero (F.add (F.add F.zero s1) s2)) (F.of_Z 2).
Proof. reflexivity. Qed.

Section Predictor.

Variable float_of_str : string -> option float.
Variable lstsq : list (list float) -> list float -> result (float * float * float * float).
Variable x_dot : list (list float) -> float * float * float * float -> nat -> float.

(** Size of the history and the model it is reported in. *)
Lemma initial_model_rows n :
  dict_get "n_training_rows" (initial_model n) = Some (PInt (Z.of_nat n)).
Proof. reflexivity. Qed.

Lemma predict_entries_empty parsed :
  predict_entries lstsq x_dot parsed [] =
  Ret (prediction F.zero (initial_model 0) [note_no_data]).
Proof. reflexivity. Qed.

Lemma predict_entries_mean parsed entries :
  (0 < length entries < 3)%nat ->
  predict_entries lstsq x_dot parsed entries =
  Ret (prediction (np_mean (map score entries))
         (initial_model (length entries)) [note_too_few]).
Proof.
  intros [Hpos Hlt]. unfold predict_entries.
  apply Nat.ltb_lt in Hlt. rewrite Hlt.
  destruct entries as [|e es]; [simpl in Hpos; lia|]. reflexivity.
Qed.

(** The regression branch, when the solver returns: nothing else in it can
    raise. *)
Lemma predict_entries_fit parsed entries coeffs p_avg p_sd p_diff :
  (3 <= length entries)%nat ->
  lstsq (map design_row entries) (map score entries) = Ret coeffs ->
  getitem parsed "avg_glucose" = Ret p_avg ->
  getitem parsed "glucose_sd" = Ret p_sd ->
  getitem parsed "difficulty" = Ret p_diff ->
  predict_entries lstsq x_dot parsed entries =
  Ret (prediction (linear_form coeffs p_avg p_sd p_diff)
         (dict_set "r2"
            (r2_slot (if F.ltb F.zero (ss_tot_of (map score entries))
                      then Some (F.sub (F.of_Z 1)
                                   (F.div (ss_res_of x_dot (map design_row entries)
                                             (map score entries) coeffs)
                                          (ss_tot_of (map score entries))))
                      else None))
            (dict_set "coefficients" (coefficients_dict coeffs)
               (initial_model (length entries))))
         []).
Proof.
  intros Hlen Hfit Ha Hs Hd. unfold predict_entries.
  assert (Hge : (length entries <? 3)%nat = false) by (apply Nat.ltb_ge; lia).
  rewrite Hge, Hfit. cbn [mbind result_bind].
  rewrite Ha, Hs, Hd. cbn [mbind result_bind].
  rewrite r_squared_returns. reflexivity.
Qed.

(** If the solver raises, so does the route. *)
Lemma predict_entries_solver_raises parsed entries e :
  (3 <= length entries)%nat ->
  lstsq (map design_row entries) (map score entries) = Raise e ->
  predict_entries lstsq x_dot parsed entries = Raise e.
Proof.
  intros Hlen Hfit. unfold predict_entries.
  assert (Hge : (length entries <? 3)%nat = false) by (apply Nat.ltb_ge; lia).
  rewrite Hge, Hfit. reflexivity.
Qed.

(** An accepted input reaches the predictor with the history in the order
    of the store's snapshot. *)
Lemma predict_accepted data parsed st :
  validate_predict float_of_str data = Ret (∅, parsed) ->
  predict float_of_str lstsq x_dot data st =
  predict_entries lstsq x_dot parsed (rows_to_dicts (fetch_entries st)).
Proof.
  intros Hv. unfold predict. rewrite Hv. reflexivity.
Qed.

End Predictor.

(** ** Signs and NaN in binary64 arithmetic *)

Module FloatFacts.
Import F.

Lemma has_sign_not_nan s x : has_sign s x -> F.is_nan x = false.
Proof. destruct x; simpl; tauto. Qed.

Lemma has_sign_nonneg x : has_sign false x -> nonneg x = true.
Proof. destruct x as [s|s| |s m e]; simpl; try tauto; intros ->; reflexivity. Qed.

Lemma nonneg_not_nan x : nonneg x = true -> F.is_nan x = false.
Proof. destruct x; simpl; congruence. Qed.

Lemma finite_not_nan x : finite x = true -> F.is_nan x = false.
Proof. destruct x; simpl; congruence. Qed.

(** *** Rounding keeps the sign it is given *)

Lemma shr_1_nonneg mrs : 0 <= shr_m mrs -> 0 <= shr_m (shr_1 mrs).
Proof.
  destruct mrs as [m r s]. destruct m as [|p|p]; simpl; try lia.
  destruct p; simpl; lia.
Qed.

Lemma iter_shr_1_nonneg p : forall mrs,
  0 <= shr_m mrs -> 0 <= shr_m (SpecFloat.iter_pos shr_1 p mrs).
Proof.
  induction p as [p IH|p IH|]; intros mrs H; simpl.
  - apply IH, IH, shr_1_nonneg, H.
  - apply IH, IH, H.
  - apply shr_1_nonneg, H.
Qed.

Lemma shr_record_of_loc_m m l : shr_m (shr_record_of_loc m l) = m.
Proof. destruct l as [|[]]; reflexivity. Qed.

Lemma shr_fexp_nonneg m e l :
  0 <= m -> 0 <= shr_m (shr_fexp F.prec F.emax m e l).1.
Proof.
  intros H. unfold shr_fexp, shr.
  destruct (fexp F.prec F.emax (Zdigits2 m + e) - e) as [|p|p]; simpl;
    rewrite ?shr_record_of_loc_m; try exact H.
  apply iter_shr_1_nonneg. rewrite shr_record_of_loc_m. exact H.
Qed.

Lemma round_nearest_even_nonneg m l : 0 <= m -> 0 <= round_nearest_even m l.
Proof.
  intros H. unfold round_nearest_even.
  destruct l as [|[]]; try destruct (Z.even m); lia.
Qed.

Lemma binary_round_aux_sign s m e l :
  0 <= m -> has_sign s (binary_round_aux F.prec F.emax s m e l).
Proof.
  intros H. unfold binary_round_aux.
  pose proof (shr_fexp_nonneg m e l H) as H1.
  destruct (shr_fexp F.prec F.emax m e l) as [mrs' e'].
  pose proof (shr_fexp_nonneg _ e' loc_Exact
                (round_nearest_even_nonneg _ (loc_of_shr_record mrs') H1)) as H2.
  destruct (shr_fexp F.prec F.emax _ e' loc_Exact) as [mrs'' e''].
  simpl in H2. destruct (shr_m mrs'') as [|p|p]; simpl; try reflexivity; [|lia].
  destruct (e'' <=? F.emax - F.prec); reflexivity.
Qed.

Lemma binary_round_sign s m e :
  has_sign s (binary_round F.prec F.emax s m e).
Proof.
  unfold binary_round. destruct (shl_align _ _ _) as [mz ez].
  apply binary_round_aux_sign. lia.
Qed.

Lemma binary_normalize_not_nan m e :
  F.is_nan (binary_normalize F.prec F.emax m e false) = false.
Proof.
  destruct m as [|p|p]; simpl; [reflexivity| |];
    eapply has_sign_not_nan, binary_round_sign.
Qed.

(** *** The four operations *)

Lemma add_nonneg x y :
  nonneg x = true -> nonneg y = true -> nonneg (F.add x y) = true.
Proof.
  destruct x as [sx|sx| |sx mx ex]; destruct y as [sy|sy| |sy my ey];
    simpl; try discriminate;
    try (destruct sx; try discriminate); try (destruct sy; try discriminate);
    try reflexivity.
  intros _ _. apply has_sign_nonneg.
  unfold F.add, SFadd, cond_Zopp.
  match goal with
  | |- has_sign _ (binary_normalize _ _ (Z.pos ?a + Z.pos ?b) _ _) =>
      change (Z.pos a + Z.pos b) with (Z.pos (a + b))
  end.
  apply binary_round_sign.
Qed.

Lemma sub_not_nan x y :
  finite x = true -> F.is_nan y = false -> F.is_nan (F.sub x y) = false.
Proof.
  destruct x as [sx|sx| |sx mx ex]; destruct y as [sy|sy| |sy my ey];
    simpl; try discriminate; intros _ _;
    try (destruct sx, sy; reflexivity); try reflexivity.
  apply binary_normalize_not_nan.
Qed.

Lemma square_nonneg x : F.is_nan x = false -> nonneg (square x) = true.
Proof.
  destruct x as [s|s| |s m e]; simpl; try discriminate; intros _;
    try (destruct s; reflexivity).
  apply has_sign_nonneg. unfold square, F.mul, SFmul.
  replace (xorb s s) with false by (destruct s; reflexivity).
  apply binary_round_aux_sign. lia.
Qed.

Lemma div_nonneg x m e :
  nonneg x = true -> nonneg (F.div x (S754_finite false m e)) = true.
Proof.
  destruct x as [sx|sx| |sx mx ex]; simpl; try discriminate;
    try (destruct sx; try discriminate; reflexivity).
  destruct sx; [discriminate|]. intros _.
  apply has_sign_nonneg. unfold F.div, SFdiv.
  destruct (SFdiv_core_binary F.prec F.emax (Z.pos mx) ex (Z.pos m) e)
    as [[mz ez] lz] eqn:E.
  apply binary_round_aux_sign.
  unfold SFdiv_core_binary in E.
  match type of E with
  | (let '(q, r) := Z.div_eucl ?a ?b in _) = _ =>
      assert (Ha : 0 <= a); [|pose proof (Z_div_mod a b ltac:(lia)) as Hdm;
                              destruct (Z.div_eucl a b) as [q r]]
  end.
  - destruct (ex - e - _) as [|p|p]; try lia.
    rewrite Z.shiftl_mul_pow2 by lia. apply Z.mul_nonneg_nonneg; lia.
  - injection E as <- _ _. destruct Hdm as [Heq Hr]. nia.
Qed.

(** *** Sums of numbers that are not negative *)

Lemma fold_add_nonneg a : forall acc,
  nonneg acc = true -> Forall (fun x => nonneg x = true) a ->
  nonneg (fold_left F.add a acc) = true.
Proof.
  induction a as [|x a IH]; intros acc Hacc Hall; simpl; [exact Hacc|].
  apply Forall_cons_1 in Hall as [Hx Ha]. apply IH; [|exact Ha].
  apply add_nonneg; assumption.
Qed.

Lemma zip_add_nonneg r : forall b,
  Forall (fun x => nonneg x = true) r -> Forall (fun x => nonneg x = true) b ->
  Forall (fun x => nonneg x = true) (zip_with F.add r b).
Proof.
  induction r as [|x r IH]; intros [|y b] Hr Hb; simpl; try constructor.
  - apply Forall_cons_1 in Hr as [Hx _]. apply Forall_cons_1 in Hb as [Hy _].
    apply add_nonneg; assumption.
  - apply Forall_cons_1 in Hr as [_ Hr]. apply Forall_cons_1 in Hb as [_ Hb].
    apply IH; assumption.
Qed.

Lemma add_blocks_nonneg k : forall r rest,
  Forall (fun x => nonneg x = true) r -> Forall (fun x => nonneg x = true) rest ->
  Forall (fun x => nonneg x = true) (add_blocks k r rest).
Proof.
  induction k as [|k IH]; intros r rest Hr Hrest; simpl; [exact Hr|].
  apply IH.
  - apply zip_add_nonneg; [exact Hr|]. apply Forall_take, Hrest.
  - apply Forall_drop, Hrest.
Qed.

(** The eight accumulators stay eight. *)
Lemma add_blocks_length k : forall r rest,
  length r = 8%nat -> length rest = (8 * k)%nat ->
  length (add_blocks k r rest) = 8%nat.
Proof.
  induction k as [|k IH]; intros r rest Hr Hrest; simpl; [exact Hr|].
  apply IH.
  - rewrite length_zip_with, Hr, length_take, Hrest. lia.
  - rewrite length_drop, Hrest. lia.
Qed.

Lemma sum_block_accumulators a :
  (8 <= length a)%nat ->
  length (add_blocks (length a / 8 - 1) (firstn 8 a)
            (skipn 8 (firstn (length a - length a mod 8) a))) = 8%nat.
Proof.
  intros Hn. pose proof (Nat.div_mod_eq (length a) 8) as Hdm.
  assert (Hq : (1 <= length a / 8)%nat).
  { destruct (length a / 8)%nat eqn:E; [|lia].
    pose proof (Nat.mod_upper_bound (length a) 8). lia. }
  apply add_blocks_length.
  - rewrite length_take. lia.
  - rewrite length_drop, length_take. lia.
Qed.

Lemma sum_block_nonneg a :
  (8 <= length a)%nat -> Forall (fun x => nonneg x = true) a ->
  nonneg (sum_block a) = true.
Proof.
  intros Hn Hall. unfold sum_block.
  pose proof (sum_block_accumulators a Hn) as Hlen.
  assert (Hr : Forall (fun x => nonneg x = true)
                 (add_blocks (length a / 8 - 1) (firstn 8 a)
                    (skipn 8 (firstn (length a - length a mod 8) a)))).
  { apply add_blocks_nonneg; [apply Forall_take, Hall|].
    apply Forall_drop, Forall_take, Hall. }
  destruct (add_blocks _ _ _) as [|r0 [|r1 [|r2 [|r3 [|r4 [|r5 [|r6 [|r7 [|r8 r]]]]]]]]];
    try discriminate Hlen.
  repeat match goal with
         | H : Forall _ (_ :: _) |- _ => apply Forall_cons_1 in H as [? H]
         end.
  apply fold_add_nonneg; [|apply Forall_drop, Hall].
  repeat apply add_nonneg; assumption.
Qed.

Lemma pairwise_sum_rec_nonneg depth : forall a,
  (length a <= depth)%nat -> Forall (fun x => nonneg x = true) a ->
  nonneg (pairwise_sum_rec depth a) = true.
Proof.
  induction depth as [|depth IH]; intros a Hd Hall.
  - destruct a; [reflexivity|simpl in Hd; lia].
  - cbn [pairwise_sum_rec].
    destruct (length a <? 8)%nat eqn:H8.
    + apply fold_add_nonneg; [reflexivity|exact Hall].
    + apply Nat.ltb_ge in H8.
      destruct (length a <=? 128)%nat eqn:H128.
      * apply sum_block_nonneg; assumption.
      * apply Nat.leb_gt in H128.
        pose proof (Nat.div_mod_eq (length a) 2) as Hdm.
        pose proof (Nat.mod_upper_bound (length a) 2 ltac:(lia)) as Hm2.
        pose proof (Nat.mod_upper_bound (length a / 2) 8 ltac:(lia)) as Hm8.
        apply add_nonneg; apply IH.
        -- rewrite length_take. lia.
        -- apply Forall_take, Hall.
        -- rewrite length_drop. lia.
        -- apply Forall_drop, Hall.
Qed.

Lemma np_sum_nonneg a : Forall (fun x => nonneg x = true) a -> nonneg (np_sum a) = true.
Proof.
  intros Hall. unfold np_sum, pairwise_sum.
  apply add_nonneg; [reflexivity|].
  apply pairwise_sum_rec_nonneg; [lia|exact Hall].
Qed.

(** *** Integers below [2^53] convert exactly *)

Lemma digits2_pos_iter p k :
  digits2_pos (Pos.iter xO p k) = (digits2_pos p + k)%positive.
Proof.
  induction k as [|k IH] using Pos.peano_ind.
  - simpl. rewrite Pos.add_1_r. reflexivity.
  - rewrite Pos.iter_succ. simpl. rewrite IH, Pos.add_succ_r. reflexivity.
Qed.

Lemma digits2_pos_le_53 p :
  Z.pos p < 2 ^ 53 -> Z.pos (digits2_pos p) <= 53.
Proof.
  intros H.
  assert (Hs : forall q, digits2_pos q = Pos.size q)
    by (intros q; induction q as [q IH|q IH|]; simpl; rewrite ?IH; reflexivity).
  rewrite Hs. pose proof (Pos.size_le p) as Hle.
  apply Pos2Z.pos_le_pos in Hle. rewrite Pos2Z.inj_pow in Hle.
  change (Z.pos p~0) with (2 * Z.pos p) in Hle.
  assert (Hlt : 2 ^ Z.pos (Pos.size p) < 2 ^ 54).
  { change (2 ^ 54) with (2 * 2 ^ 53). lia. }
  apply Z.pow_lt_mono_r_iff in Hlt; lia.
Qed.

Lemma shr_fexp_canonical m e :
  digits2_pos m = 53%positive -> -1074 <= e ->
  shr_fexp F.prec F.emax (Z.pos m) e loc_Exact
  = ({| shr_m := Z.pos m; shr_r := false; shr_s := false |}, e).
Proof.
  intros Hd He. unfold shr_fexp, Zdigits2, fexp, emin, F.prec, F.emax.
  rewrite Hd.
  replace (Z.max (53 + e - 53) (3 - 1024 - 53) - e) with 0 by lia.
  reflexivity.
Qed.

(** A mantissa of 53 bits with an exponent in range is already rounded. *)
Lemma binary_round_aux_canonical s m e :
  digits2_pos m = 53%positive -> -1074 <= e <= 971 ->
  binary_round_aux F.prec F.emax s (Z.pos m) e loc_Exact = S754_finite s m e.
Proof.
  intros Hd [Hlo Hhi]. unfold binary_round_aux.
  rewrite (shr_fexp_canonical m e Hd Hlo).
  cbn [shr_m shr_r shr_s loc_of_shr_record round_nearest_even].
  rewrite (shr_fexp_canonical m e Hd Hlo). cbn [shr_m].
  assert (Hle : (e <=? F.emax - F.prec) = true)
    by (apply Z.leb_le; unfold F.emax, F.prec; lia).
  rewrite Hle. reflexivity.
Qed.

Lemma of_Z_finite z :
  0 < z < 2 ^ 53 -> exists m e, F.of_Z z = S754_finite false m e.
Proof.
  intros [Hpos Hlt]. destruct z as [|p|p]; try lia.
  pose proof (digits2_pos_le_53 p Hlt) as Hd.
  unfold F.of_Z, binary_normalize, binary_round, shl_align, fexp, emin,
    F.prec, F.emax.
  replace (Z.max (Z.pos (digits2_pos p) + 0 - 53) (3 - 1024 - 53) - 0)
    with (Z.pos (digits2_pos p) - 53) by lia.
  replace (Z.max (Z.pos (digits2_pos p) + 0 - 53) (3 - 1024 - 53))
    with (Z.pos (digits2_pos p) - 53) by lia.
  destruct (Z.pos (digits2_pos p) - 53) as [|k|k] eqn:E; try lia.
  - eexists _, _. apply binary_round_aux_canonical; [|lia].
    apply Pos2Z.inj. lia.
  - eexists _, _. apply binary_round_aux_canonical; [|lia].
    rewrite digits2_pos_iter. apply Pos2Z.inj. rewrite Pos2Z.inj_add. lia.
Qed.

End FloatFacts.

(** ** Rounding to nearest in binary64: bounds and exact cases *)

Module RoundFacts.
Import F FloatFacts.

(** *** The number of bits of a mantissa *)

Lemma digits2_pos_size q : digits2_pos q = Pos.size q.
Proof. induction q as [q IH|q IH|]; simpl; rewrite ?IH; reflexivity. Qed.

Lemma Zdigits2_bounds p :
  2 ^ (Z.pos (digits2_pos p) - 1) <= Z.pos p < 2 ^ Z.pos (digits2_pos p).
Proof.
  rewrite digits2_pos_size. split.
  - pose proof (Pos.size_le p) as Hle.
    apply Pos2Z.pos_le_pos in Hle. rewrite Pos2Z.inj_pow in Hle.
    change (Z.pos p~0) with (2 * Z.pos p) in Hle.
    replace (Z.pos (Pos.size p)) with (Z.pos (Pos.size p) - 1 + 1) in Hle by lia.
    rewrite Z.pow_add_r in Hle by lia. lia.
  - pose proof (Pos.size_gt p) as Hgt.
    apply Pos2Z.pos_lt_pos in Hgt. rewrite Pos2Z.inj_pow in Hgt. exact Hgt.
Qed.

Lemma Zdigits2_le m j : 0 <= j -> 0 <= m < 2 ^ j -> Zdigits2 m <= j.
Proof.
  intros Hj [H0 Hlt]. destruct m as [|p|p]; simpl; try lia.
  pose proof (Zdigits2_bounds p) as [Hlo _].
  destruct (Z_le_gt_dec (Z.pos (digits2_pos p)) j) as [|Hgt]; [assumption|].
  assert (2 ^ j <= 2 ^ (Z.pos (digits2_pos p) - 1))
    by (apply Z.pow_le_mono_r; lia).
  lia.
Qed.

Lemma Zdigits2_unique p d :
  2 ^ (d - 1) <= Z.pos p < 2 ^ d -> Z.pos (digits2_pos p) = d.
Proof.
  intros [Hlo Hhi]. pose proof (Zdigits2_bounds p) as [Hlo' Hhi'].
  assert (Hd : 0 < d).
  { destruct (Z_lt_le_dec 0 d); [assumption|].
    assert (2 ^ d <= 2 ^ 0) by (apply Z.pow_le_mono_r; lia). simpl in *. lia. }
  destruct (Z.lt_trichotomy (Z.pos (digits2_pos p)) d) as [Hlt|[Heq|Hgt]];
    [|exact Heq|].
  - assert (2 ^ Z.pos (digits2_pos p) <= 2 ^ (d - 1))
      by (apply Z.pow_le_mono_r; lia). lia.
  - assert (2 ^ d <= 2 ^ (Z.pos (digits2_pos p) - 1))
      by (apply Z.pow_le_mono_r; lia). lia.
Qed.

Lemma pos_iter_xO m d : Z.pos (Pos.iter xO m d) = Z.pos m * 2 ^ Z.pos d.
Proof.
  induction d as [|d IH] using Pos.peano_ind.
  - simpl. lia.
  - rewrite Pos.iter_succ, Pos2Z.inj_succ, Z.pow_succ_r by lia.
    change (Z.pos (Pos.iter xO m d)~0) with (2 * Z.pos (Pos.iter xO m d)).
    rewrite IH. lia.
Qed.

(** [shl_align] keeps the value and does not raise the exponent. *)
Lemma shl_align_spec m e e' :
  let '(m', e'') := shl_align m e e' in
  e'' = Z.min e e' /\ Z.pos m' = Z.pos m * 2 ^ (e - e'').
Proof.
  unfold shl_align. destruct (e' - e) as [|d|d] eqn:E.
  - split; [lia|]. replace (e - e) with 0 by lia. simpl. lia.
  - split; [lia|]. replace (e - e) with 0 by lia. simpl. lia.
  - split; [lia|]. rewrite pos_iter_xO. f_equal. f_equal. lia.
Qed.

(** *** Shifting right *)

Lemma shr_1_spec mrs :
  0 <= shr_m mrs ->
  shr_m (shr_1 mrs) = shr_m mrs / 2
  /\ (shr_flags (shr_1 mrs) = false <-> shr_flags mrs = false /\ shr_m mrs mod 2 = 0).
Proof.
  destruct mrs as [m r s]. unfold shr_flags. simpl. intros Hm.
  destruct m as [|[p|p|]|p]; simpl; try lia.
  - split; [reflexivity|]. rewrite Zmod_0_l. destruct (r || s); intuition.
  - split; [rewrite Pos2Z.inj_xI; apply Z.div_unique with 1; lia|].
    rewrite Pos2Z.inj_xI.
    replace ((2 * Z.pos p + 1) mod 2) with 1
      by (apply Z.mod_unique with (Z.pos p); lia).
    intuition; discriminate.
  - split; [rewrite Pos2Z.inj_xO; apply Z.div_unique with 0; lia|].
    rewrite Pos2Z.inj_xO.
    replace ((2 * Z.pos p) mod 2) with 0
      by (apply Z.mod_unique with (Z.pos p); lia).
    destruct (r || s); intuition.
  - split; [reflexivity|]. intuition; discriminate.
Qed.

Lemma shifted_1 x : 0 <= shr_m x -> shifted 1 x (shr_1 x).
Proof.
  intros H. destruct (shr_1_spec x H) as [Hm Hf].
  split; [rewrite Hm; apply Z.div_pos; lia|]. split; assumption.
Qed.

Lemma shifted_comp k1 k2 x y z :
  0 <= k1 -> 0 <= k2 -> 0 <= shr_m x ->
  shifted k1 x y -> shifted k2 y z -> shifted (k1 + k2) x z.
Proof.
  intros Hk1 Hk2 Hx (Hy0 & Hy & Hfy) (Hz0 & Hz & Hfz).
  assert (P1 : 0 < 2 ^ k1) by (apply Z.pow_pos_nonneg; lia).
  assert (P2 : 0 < 2 ^ k2) by (apply Z.pow_pos_nonneg; lia).
  split; [exact Hz0|]. split.
  - rewrite Hz, Hy, Z.div_div, Z.pow_add_r by lia. reflexivity.
  - rewrite Hfz, Hfy, Hy. rewrite Z.pow_add_r by lia.
    split.
    + intros [[Hf H1] H2]. split; [exact Hf|].
      apply Z.mod_divide in H1 as [a Ha]; [|lia].
      rewrite Ha, Z.div_mul in H2 by lia.
      apply Z.mod_divide in H2 as [b Hb]; [|lia].
      apply Z.mod_divide; [lia|]. exists b. rewrite Ha, Hb. ring.
    + intros [Hf H]. apply Z.mod_divide in H as [b Hb]; [|lia].
      assert (Hx' : shr_m x = b * 2 ^ k2 * 2 ^ k1) by (rewrite Hb; ring).
      split; [split; [exact Hf|]|].
      * rewrite Hx'. apply Z.mod_mul. lia.
      * rewrite Hx', Z.div_mul by lia. apply Z.mod_mul. lia.
Qed.

Lemma iter_shr_1_shifted p : forall x,
  0 <= shr_m x -> shifted (Z.pos p) x (SpecFloat.iter_pos shr_1 p x).
Proof.
  induction p as [p IH|p IH|]; intros x Hx; simpl.
  - pose proof (shifted_1 x Hx) as S1.
    assert (H1 : 0 <= shr_m (shr_1 x)) by apply S1.
    pose proof (IH _ H1) as S2.
    assert (H2 : 0 <= shr_m (SpecFloat.iter_pos shr_1 p (shr_1 x))) by apply S2.
    pose proof (IH _ H2) as S3.
    replace (Z.pos p~1) with (1 + Z.pos p + Z.pos p) by lia.
    eapply shifted_comp; [lia|lia|exact Hx| |exact S3].
    eapply shifted_comp; [lia|lia|exact Hx|exact S1|exact S2].
  - pose proof (IH _ Hx) as S1.
    assert (H1 : 0 <= shr_m (SpecFloat.iter_pos shr_1 p x)) by apply S1.
    pose proof (IH _ H1) as S2.
    replace (Z.pos p~0) with (Z.pos p + Z.pos p) by lia.
    eapply shifted_comp; [lia|lia|exact Hx|exact S1|exact S2].
  - apply shifted_1, Hx.
Qed.

Lemma flags_of_loc m l : shr_flags (shr_record_of_loc m l) = negb (loc_exact l).
Proof. destruct l as [|[]]; reflexivity. Qed.

Lemma loc_exact_of_flags mrs : loc_exact (loc_of_shr_record mrs) = negb (shr_flags mrs).
Proof. destruct mrs as [m [] []]; reflexivity. Qed.

(** What [shr_fexp] does to a mantissa that is not negative. *)
Lemma shr_fexp_spec m e l :
  0 <= m ->
  exists mrs e' p,
    shr_fexp prec emax m e l = (mrs, e')
    /\ p = Z.max 0 (fexp prec emax (Zdigits2 m + e) - e)
    /\ e' = e + p
    /\ 0 <= shr_m mrs
    /\ shr_m mrs = m / 2 ^ p
    /\ (shr_flags mrs = false <-> loc_exact l = true /\ m mod 2 ^ p = 0).
Proof.
  intros Hm. unfold shr_fexp, shr.
  destruct (fexp prec emax (Zdigits2 m + e) - e) as [|p|p] eqn:E.
  - eexists _, _, 0. split; [reflexivity|].
    change (2 ^ 0) with 1.
    rewrite shr_record_of_loc_m, flags_of_loc, Z.div_1_r, Z.mod_1_r, negb_false_iff.
    split; [lia|]. split; [lia|]. split; [exact Hm|]. split; [reflexivity|]. tauto.
  - pose proof (iter_shr_1_shifted p (shr_record_of_loc m l)) as S.
    unfold shifted in S. rewrite shr_record_of_loc_m, flags_of_loc in S.
    destruct (S Hm) as (H0 & Hd & Hf).
    eexists _, _, (Z.pos p). split; [reflexivity|].
    split; [lia|]. split; [reflexivity|]. split; [exact H0|]. split; [exact Hd|].
    rewrite Hf, negb_false_iff. reflexivity.
  - eexists _, _, 0. split; [reflexivity|].
    change (2 ^ 0) with 1.
    rewrite shr_record_of_loc_m, flags_of_loc, Z.div_1_r, Z.mod_1_r, negb_false_iff.
    split; [lia|]. split; [lia|]. split; [exact Hm|]. split; [reflexivity|]. tauto.
Qed.

Lemma round_nearest_even_bounds m l :
  m <= round_nearest_even m l <= m + 1
  /\ (loc_exact l = true -> round_nearest_even m l = m).
Proof.
  unfold round_nearest_even. destruct l as [|[]]; simpl;
    try destruct (Z.even m); split; try lia; try discriminate; reflexivity.
Qed.


Lemma fexp_eq d : fexp prec emax d = Z.max (d - 53) (-1074).
Proof. reflexivity. Qed.

Lemma pow2_split a b : 0 <= a -> 0 <= b -> 2 ^ (a + b) = 2 ^ a * 2 ^ b.
Proof. intros. apply Z.pow_add_r; assumption. Qed.

Lemma pow2_pos a : 0 <= a -> 0 < 2 ^ a.
Proof. intros. apply Z.pow_pos_nonneg; lia. Qed.

(** Rounding to nearest does not step over a bound that is itself a
    float: if the number rounded is at most [C * 2^t] with [C] of at most
    53 bits, so is the result. *)
Lemma binary_round_aux_below mx ex lx C c t :
  0 <= mx -> 0 < C < 2 ^ c -> 0 <= c <= 53 -> -1074 <= t <= 971 -> ex <= t ->
  mx + (if loc_exact lx then 0 else 1) <= C * 2 ^ (t - ex) ->
  binary_round_aux prec emax false mx ex lx = S754_zero false
  \/ exists m e,
       binary_round_aux prec emax false mx ex lx = S754_finite false m e
       /\ -1074 <= e /\ ex <= e
       /\ e <= Z.max (Z.max ex (c + t - 53)) (-1074)
       /\ Z.pos m <= C * 2 ^ (t - e).
Proof.
  intros Hmx HC Hc Ht Hex Hle. unfold binary_round_aux.
  destruct (shr_fexp_spec mx ex lx Hmx)
    as (mrs1 & e1 & p1 & E1 & Hp1 & He1 & H1pos & Hm1 & Hf1).
  rewrite E1. rewrite fexp_eq in Hp1.
  (* the first shift *)
  assert (Hdx : Zdigits2 mx <= c + t - ex).
  { apply Zdigits2_le; [lia|]. split; [exact Hmx|].
    replace (c + t - ex) with (c + (t - ex)) by lia.
    rewrite pow2_split by lia.
    assert (0 < 2 ^ (t - ex)) by (apply pow2_pos; lia).
    destruct (loc_exact lx); nia. }
  assert (Hp1' : 0 <= p1 <= t - ex) by lia.
  assert (HK : 2 ^ (t - ex) = 2 ^ (t - e1) * 2 ^ p1).
  { rewrite <- pow2_split by lia. f_equal. lia. }
  pose proof (pow2_pos p1 ltac:(lia)) as HP1.
  pose proof (pow2_pos (t - e1) ltac:(lia)) as HT1.
  set (K' := C * 2 ^ (t - e1)) in *.
  pose proof (round_nearest_even_bounds (shr_m mrs1) (loc_of_shr_record mrs1))
    as [[Hlo Hhi] Hex1].
  rewrite loc_exact_of_flags in Hex1.
  set (m2 := round_nearest_even (shr_m mrs1) (loc_of_shr_record mrs1)) in *.
  assert (Hm2 : 0 <= m2 <= K').
  { split; [lia|].
    pose proof (Z_div_mod_eq_full mx (2 ^ p1)) as Hdm.
    pose proof (Z.mod_pos_bound mx (2 ^ p1) HP1) as Hr.
    rewrite <- Hm1 in Hdm.
    assert (Hle' : mx + (if loc_exact lx then 0 else 1) <= K' * 2 ^ p1)
      by (unfold K'; rewrite <- Z.mul_assoc, <- HK; exact Hle).
    destruct (shr_flags mrs1) eqn:Hfl.
    - assert (Hpos : 1 <= mx mod 2 ^ p1 + (if loc_exact lx then 0 else 1)).
      { destruct (loc_exact lx) eqn:Hx; [|lia].
        destruct (Z.eq_dec (mx mod 2 ^ p1) 0) as [H0|H0]; [|lia].
        assert (Hcontra : true = false) by (apply Hf1; auto).
        discriminate Hcontra. }
      assert (Hlt : 2 ^ p1 * shr_m mrs1 < 2 ^ p1 * K') by lia.
      apply Z.mul_lt_mono_pos_l in Hlt; lia.
    - rewrite Hex1 by reflexivity.
      assert (Hlt : 2 ^ p1 * shr_m mrs1 <= 2 ^ p1 * K')
        by (destruct (loc_exact lx); lia).
      apply Z.mul_le_mono_pos_l in Hlt; lia. }
  destruct (shr_fexp_spec m2 e1 loc_Exact ltac:(lia))
    as (mrs2 & e2 & p2 & E2 & Hp2 & He2 & H2pos & Hm2' & _).
  rewrite E2. rewrite fexp_eq in Hp2.
  assert (Hd2 : Zdigits2 m2 <= c + t - e1).
  { apply Zdigits2_le; [lia|]. split; [lia|].
    replace (c + t - e1) with (c + (t - e1)) by lia.
    rewrite pow2_split by lia. unfold K' in Hm2. nia. }
  assert (Hp2' : 0 <= p2 <= t - e1) by lia.
  assert (HK2 : 2 ^ (t - e1) = 2 ^ (t - e2) * 2 ^ p2).
  { rewrite <- pow2_split by lia. f_equal. lia. }
  pose proof (pow2_pos p2 ltac:(lia)) as HP2.
  pose proof (pow2_pos (t - e2) ltac:(lia)) as HT2.
  destruct (shr_m mrs2) as [|m|m] eqn:Em; [left; reflexivity| |lia].
  right. exists m, e2.
  assert (Hfit : (e2 <=? emax - prec) = true)
    by (apply Z.leb_le; unfold emax, prec; lia).
  rewrite Hfit. split; [reflexivity|].
  split; [lia|]. split; [lia|]. split; [lia|].
  pose proof (Z_div_mod_eq_full m2 (2 ^ p2)) as Hdm.
  pose proof (Z.mod_pos_bound m2 (2 ^ p2) HP2) as Hr.
  rewrite <- Hm2' in Hdm.
  unfold K' in Hm2. rewrite HK2, Z.mul_assoc in Hm2.
  assert (Hlt : 2 ^ p2 * Z.pos m <= 2 ^ p2 * (C * 2 ^ (t - e2))) by lia.
  apply Z.mul_le_mono_pos_l in Hlt; lia.
Qed.

(** A number that is a float already is not changed by rounding. *)
Lemma binary_round_aux_exact mx ex m e :
  canonical_mantissa prec emax m e = true -> e <= 971 -> ex <= e ->
  mx = Z.pos m * 2 ^ (e - ex) ->
  binary_round_aux prec emax false mx ex loc_Exact = S754_finite false m e.
Proof.
  unfold canonical_mantissa. rewrite fexp_eq. intros Hc%Z.eqb_eq He Hex ->.
  pose proof (pow2_pos (e - ex) ltac:(lia)) as HP.
  pose proof (Zdigits2_bounds m) as [Hlo Hhi].
  assert (Hd : Zdigits2 (Z.pos m * 2 ^ (e - ex)) = Z.pos (digits2_pos m) + (e - ex)).
  { destruct (Z.pos m * 2 ^ (e - ex)) as [|q|q] eqn:Eq; try lia.
    simpl. apply Zdigits2_unique. rewrite <- Eq.
    replace (Z.pos (digits2_pos m) + (e - ex) - 1)
      with (Z.pos (digits2_pos m) - 1 + (e - ex)) by lia.
    rewrite !pow2_split by lia. nia. }
  unfold binary_round_aux.
  destruct (shr_fexp_spec (Z.pos m * 2 ^ (e - ex)) ex loc_Exact ltac:(lia))
    as (mrs1 & e1 & p1 & E1 & Hp1 & He1 & H1pos & Hm1 & Hf1).
  rewrite E1. rewrite fexp_eq, Hd in Hp1.
  assert (Hp1' : p1 = e - ex) by lia. clear Hp1. subst p1.
  rewrite Z.div_mul in Hm1 by lia.
  assert (Hfl : shr_flags mrs1 = false).
  { apply Hf1. split; [reflexivity|]. apply Z.mod_mul. lia. }
  pose proof (round_nearest_even_bounds (shr_m mrs1) (loc_of_shr_record mrs1))
    as [_ Hex1].
  rewrite loc_exact_of_flags, Hfl in Hex1. rewrite (Hex1 eq_refl), Hm1.
  destruct (shr_fexp_spec (Z.pos m) e1 loc_Exact ltac:(lia))
    as (mrs2 & e2 & p2 & E2 & Hp2 & He2 & H2pos & Hm2 & _).
  rewrite E2. rewrite fexp_eq in Hp2. simpl Zdigits2 in Hp2.
  assert (Hp2' : p2 = 0) by lia. clear Hp2. subst p2.
  change (2 ^ 0) with 1 in Hm2. rewrite Z.div_1_r in Hm2. rewrite Hm2.
  assert (Hfit : (e2 <=? emax - prec) = true)
    by (apply Z.leb_le; unfold emax, prec; lia).
  rewrite Hfit. f_equal. lia.
Qed.


(** *** Numbers between [0.0] and a small bound *)

Lemma below_mono t t' x : 0 <= t <= t' -> below t x -> below t' x.
Proof.
  intros Ht [->|(m & e & -> & He & Hm)]; [left; reflexivity|].
  right. exists m, e. split; [reflexivity|]. split; [exact He|].
  assert (2 ^ (t - e) <= 2 ^ (t' - e)) by (apply Z.pow_le_mono_r; lia). lia.
Qed.

(** A binary64 number: the mantissa is in canonical form and the exponent
    in range. *)
Lemma valid_finite m e :
  valid_binary prec emax (S754_finite false m e) = true ->
  canonical_mantissa prec emax m e = true /\ -1074 <= e <= 971
  /\ Z.pos m < 2 ^ 53.
Proof.
  unfold valid_binary, bounded. intros [Hc He%Z.leb_le]%andb_true_iff.
  split; [exact Hc|]. unfold canonical_mantissa in Hc. rewrite fexp_eq in Hc.
  apply Z.eqb_eq in Hc. unfold emax, prec in He.
  split; [lia|]. pose proof (Zdigits2_bounds m) as [_ Hhi].
  assert (2 ^ Z.pos (digits2_pos m) <= 2 ^ 53) by (apply Z.pow_le_mono_r; lia).
  lia.
Qed.

Lemma stored_below s :
  valid_binary prec emax s = true ->
  F.leb F.zero s && F.leb s (F.of_Z 100) = true ->
  s <> S754_zero true ->
  below 2 s.
Proof.
  intros Hv [H0 H100]%andb_true_iff Hnz.
  destruct s as [sz|si| |sf m e].
  - destruct sz; [contradiction|left; reflexivity].
  - destruct si; [discriminate H0|discriminate H100].
  - discriminate H0.
  - destruct sf; [discriminate H0|].
    right. exists m, e. split; [reflexivity|].
    destruct (valid_finite m e Hv) as (_ & He & Hm).
    change (F.of_Z 100) with (S754_finite false 7036874417766400 (-46)) in H100.
    unfold F.leb, SFleb, SFcompare in H100.
    destruct (Z.compare_spec e (-46)) as [->|Hlt|Hgt]; [| |discriminate].
    + split; [lia|].
      change (25 * 2 ^ (2 - -46)) with (Z.pos 7036874417766400).
      pose proof (Pos.compare_spec m 7036874417766400) as Hcmp.
      unfold Pos.compare in Hcmp.
      destruct Hcmp as [Heq|Hlt|Hgt]; [| |discriminate H100]; clear H100 Hv.
      * rewrite Heq. apply Z.le_refl.
      * apply Pos2Z.pos_lt_pos in Hlt. apply Z.lt_le_incl, Hlt.
    + split; [lia|].
      assert (2 ^ 49 <= 2 ^ (2 - e)) by (apply Z.pow_le_mono_r; lia).
      change (2 ^ 49) with 562949953421312 in *.
      change (2 ^ 53) with 9007199254740992 in *. lia.
Qed.

(** *** Sums, halves and quotients by one of such numbers *)

Lemma add_zero_l x : x <> S754_zero true -> F.add F.zero x = x.
Proof. destruct x as [[|]| | |]; try reflexivity. contradiction. Qed.

Lemma below_not_negative_zero t x : below t x -> x <> S754_zero true.
Proof. intros [->|(m & e & -> & _)]; discriminate. Qed.

Lemma add_below t x y :
  0 <= t <= 40 -> below t x -> below t y -> below (t + 1) (F.add x y).
Proof.
  intros Ht Hx Hy.
  destruct Hx as [->|(mx & ex & -> & Hex & Hmx)].
  { rewrite add_zero_l by (eapply below_not_negative_zero, Hy).
    apply (below_mono t); [lia|exact Hy]. }
  destruct Hy as [->|(my & ey & -> & Hey & Hmy)].
  { apply (below_mono t); [lia|]. right. exists mx, ex. auto. }
  unfold F.add, SFadd, cond_Zopp.
  set (ez := Z.min ex ey).
  pose proof (shl_align_spec mx ex ez) as Sx.
  pose proof (shl_align_spec my ey ez) as Sy.
  destruct (shl_align mx ex ez) as [mx' ex'].
  destruct (shl_align my ey ez) as [my' ey'].
  destruct Sx as [Ex Mx]. destruct Sy as [Ey My]. cbn [fst].
  change (Z.pos mx' + Z.pos my') with (Z.pos (mx' + my')).
  unfold binary_normalize, binary_round.
  pose proof (shl_align_spec (mx' + my') ez
                (fexp prec emax (Z.pos (digits2_pos (mx' + my')) + ez))) as Sz.
  destruct (shl_align (mx' + my') ez _) as [mz ez'].
  destruct Sz as [Ez Mz].
  assert (Hez : ex' = ez /\ ey' = ez) by (unfold ez in *; lia).
  destruct Hez as [-> ->].
  assert (Hsum : Z.pos (mx' + my') <= 25 * 2 ^ (t + 1 - ez)).
  { rewrite Pos2Z.inj_add, Mx, My.
    assert (Px : 0 < 2 ^ (ex - ez)) by (apply pow2_pos; unfold ez; lia).
    assert (Py : 0 < 2 ^ (ey - ez)) by (apply pow2_pos; unfold ez; lia).
    assert (Hx2 : 2 ^ (t - ez) = 2 ^ (t - ex) * 2 ^ (ex - ez)).
    { rewrite <- pow2_split by (unfold ez; lia). f_equal. lia. }
    assert (Hy2 : 2 ^ (t - ez) = 2 ^ (t - ey) * 2 ^ (ey - ez)).
    { rewrite <- pow2_split by (unfold ez; lia). f_equal. lia. }
    replace (t + 1 - ez) with (1 + (t - ez)) by lia.
    rewrite pow2_split by (unfold ez; lia). change (2 ^ 1) with 2.
    assert (Z.pos mx * 2 ^ (ex - ez) <= 25 * 2 ^ (t - ez))
      by (rewrite Hx2, Z.mul_assoc; apply Z.mul_le_mono_nonneg_r; lia).
    assert (Z.pos my * 2 ^ (ey - ez) <= 25 * 2 ^ (t - ez))
      by (rewrite Hy2, Z.mul_assoc; apply Z.mul_le_mono_nonneg_r; lia).
    lia. }
  assert (Hez' : ez' <= ez) by lia.
  destruct (binary_round_aux_below (Z.pos mz) ez' loc_Exact 25 5 (t + 1))
    as [->|(m & e & -> & He1 & He2 & He3 & Hm)].
  - lia.
  - simpl. lia.
  - lia.
  - lia.
  - unfold ez in *. lia.
  - cbn [loc_exact]. rewrite Z.add_0_r, Mz.
    assert (Hs : 2 ^ (t + 1 - ez') = 2 ^ (t + 1 - ez) * 2 ^ (ez - ez')).
    { rewrite <- pow2_split by (unfold ez in *; lia). f_equal. lia. }
    rewrite Hs, Z.mul_assoc. apply Z.mul_le_mono_nonneg_r; [|exact Hsum].
    apply Z.lt_le_incl, pow2_pos. lia.
  - left. reflexivity.
  - right. exists m, e. split; [reflexivity|]. split; [|exact Hm].
    unfold ez in *. lia.
Qed.

Lemma div_eucl_exact a b q :
  0 < b -> a = b * q -> Z.div_eucl a b = (q, 0).
Proof.
  intros Hb ->. pose proof (Z_div_mod (b * q) b ltac:(lia)) as H.
  destruct (Z.div_eucl (b * q) b) as [q' r]. destruct H as [Heq Hr].
  destruct (Z.div_mod_unique b q' q r 0) as [-> ->]; [lia|lia|lia|reflexivity].
Qed.

(** Dividing a binary64 number by [1.0] does not change it. *)
Lemma div_one m e :
  valid_binary prec emax (S754_finite false m e) = true ->
  F.div (S754_finite false m e) (F.of_Z 1) = S754_finite false m e.
Proof.
  intros Hv. destruct (valid_finite m e Hv) as (Hc & He & Hm).
  change (F.of_Z 1) with (S754_finite false 4503599627370496 (-52)).
  unfold F.div, SFdiv, SFdiv_core_binary.
  change (Zdigits2 (Z.pos 4503599627370496)) with 53.
  cbn [Zdigits2 xorb]. rewrite !fexp_eq.
  pose proof Hc as Hc'. unfold canonical_mantissa in Hc'. rewrite fexp_eq in Hc'.
  apply Z.eqb_eq in Hc'.
  set (d := Z.pos (digits2_pos m)) in *.
  set (e' := Z.min (Z.max (d + e - (53 + -52) - 53) (-1074)) (e - -52)).
  assert (He' : e' <= e /\ -1074 <= e') by (unfold e'; lia).
  destruct (e - -52 - e') as [|s|s] eqn:Es; try lia.
  rewrite Z.shiftl_mul_pow2 by lia.
  rewrite (div_eucl_exact _ _ (Z.pos m * 2 ^ (e - e'))).
  - change (new_location (Z.pos 4503599627370496) 0) with loc_Exact.
    apply (binary_round_aux_exact _ e' m e Hc); [lia|lia|reflexivity].
  - lia.
  - change (Z.pos 4503599627370496) with (2 ^ 52).
    replace (Z.pos s) with (52 + (e - e')) by lia.
    rewrite pow2_split by lia. ring.
Qed.

Lemma div_two_below t x :
  0 <= t <= 40 -> below (t + 1) x -> below t (F.div x (F.of_Z 2)).
Proof.
  intros Ht [->|(m & e & -> & He & Hm)]; [left; reflexivity|].
  change (F.of_Z 2) with (S754_finite false 4503599627370496 (-51)).
  unfold F.div, SFdiv, SFdiv_core_binary.
  change (Zdigits2 (Z.pos 4503599627370496)) with 53.
  cbn [Zdigits2 xorb]. rewrite !fexp_eq.
  set (d := Z.pos (digits2_pos m)) in *.
  assert (Hd : d <= 5 + (t + 1) - e).
  { apply (Zdigits2_le (Z.pos m)); [lia|]. split; [lia|].
    replace (5 + (t + 1) - e) with (5 + (t + 1 - e)) by lia.
    rewrite pow2_split by lia. change (2 ^ 5) with 32.
    assert (0 < 2 ^ (t + 1 - e)) by (apply pow2_pos; lia). lia. }
  set (e' := Z.min (Z.max (d + e - (53 + -51) - 53) (-1074)) (e - -51)).
  assert (He' : e' <= t - 48 /\ e' <= e + 51 /\ -1074 <= e') by (unfold e'; lia).
  assert (Hm' : match e - -51 - e' with
                | 0 => Z.pos m
                | Z.pos _ => Z.shiftl (Z.pos m) (e - -51 - e')
                | Z.neg _ => 0
                end = Z.pos m * 2 ^ (e - -51 - e')).
  { pose proof (Z.shiftl_mul_pow2 (Z.pos m) (e - -51 - e') ltac:(lia)) as Hs.
    destruct (e - -51 - e') as [|s|s] eqn:Es;
      [change (2 ^ 0) with 1; lia|exact Hs|lia]. }
  rewrite Hm'. clear Hm'.
  pose proof (Z_div_mod (Z.pos m * 2 ^ (e - -51 - e')) (Z.pos 4503599627370496)
                ltac:(lia)) as Hdm.
  destruct (Z.div_eucl _ _) as [q r]. destruct Hdm as [Hqr Hr].
  assert (Hpow : 2 ^ (t + 1 - e) * 2 ^ (e - -51 - e')
                 = 2 ^ (t - e') * Z.pos 4503599627370496).
  { change (Z.pos 4503599627370496) with (2 ^ 52).
    rewrite <- !pow2_split by lia. f_equal. lia. }
  assert (Hq0 : 0 <= q) by nia.
  assert (Hbound : Z.pos m * 2 ^ (e - -51 - e')
                   <= 25 * 2 ^ (t - e') * Z.pos 4503599627370496).
  { rewrite <- Z.mul_assoc, <- Hpow, Z.mul_assoc.
    apply Z.mul_le_mono_nonneg_r; [|exact Hm].
    apply Z.lt_le_incl, pow2_pos. lia. }
  assert (Hloc : q + (if loc_exact (new_location (Z.pos 4503599627370496) r)
                      then 0 else 1) <= 25 * 2 ^ (t - e')).
  { change (new_location (Z.pos 4503599627370496) r)
      with (new_location_even (Z.pos 4503599627370496) r).
    unfold new_location_even.
    destruct (Z.eqb_spec r 0) as [->|Hr0]; cbn [loc_exact]; nia. }
  assert (H25 : 0 < 25 < 2 ^ 5) by (change (2 ^ 5) with 32; lia).
  destruct (binary_round_aux_below q e'
              (new_location (Z.pos 4503599627370496) r) 25 5 t Hq0 H25
              ltac:(lia) ltac:(lia) ltac:(lia) Hloc) as
    [->|(m2 & e2 & -> & He1 & He2 & He3 & Hm2)].
  - left. reflexivity.
  - right. exists m2, e2. split; [reflexivity|]. split; [lia|exact Hm2].
Qed.


(** *** Rounding to two decimals *)

(** [rne_div n d] is an integer nearest to [n / d], the even one of the
    two when [n / d] is halfway. *)
Lemma rne_div_spec n d :
  0 <= n -> 0 < d ->
  0 <= rne_div n d
  /\ Z.abs (2 * (n - rne_div n d * d)) <= d
  /\ (Z.abs (2 * (n - rne_div n d * d)) = d -> Z.even (rne_div n d) = true).
Proof.
  intros Hn Hd. unfold rne_div.
  pose proof (Z_div_mod_eq_full n d) as Hdm.
  pose proof (Z.mod_pos_bound n d Hd) as Hr.
  assert (Hq : 0 <= n / d) by (apply Z.div_pos; lia).
  set (q := n / d) in *. set (r := n mod d) in *.
  assert (Hn' : forall k, n - k * d = (q - k) * d + r) by (intros; lia).
  destruct (Z.compare_spec (2 * r) d) as [He|Hl|Hg].
  - destruct (Z.even q) eqn:Ev.
    + rewrite Hn', Z.sub_diag. split; [lia|]. split; [lia|auto].
    + rewrite Hn'. replace (q - (q + 1)) with (-1) by lia.
      split; [lia|]. split; [lia|]. intros _.
      rewrite Z.even_add, Ev. reflexivity.
  - rewrite Hn', Z.sub_diag. split; [lia|]. split; lia.
  - rewrite Hn'. replace (q - (q + 1)) with (-1) by lia.
    split; [lia|]. split; lia.
Qed.

Lemma rne_div_le n d N :
  0 <= n -> 0 < d -> n <= N * d -> rne_div n d <= N.
Proof.
  intros Hn Hd Hle. unfold rne_div.
  pose proof (Z_div_mod_eq_full n d) as Hdm.
  pose proof (Z.mod_pos_bound n d Hd) as Hr.
  set (q := n / d) in *. set (r := n mod d) in *.
  assert (Hq : q <= N).
  { assert (d * q <= d * N) by lia. apply Z.mul_le_mono_pos_l in H; lia. }
  destruct (Z.eq_dec q N) as [->|Hne].
  - assert (r = 0) by lia. subst r.
    replace (2 * (n mod d)) with 0 by lia.
    destruct (Z.compare_spec 0 d); lia.
  - destruct (2 * r ?= d); try destruct (Z.even q); lia.
Qed.

(** The decimal [n / 100], converted to binary64 as [round] does it, is
    the quotient of the floats [n] and [100]: checked for every [n] from 1
    to 10000. *)
Lemma round_core_table n :
  1 <= n <= 10000 -> round_core n = F.div (F.of_Z n) (F.of_Z 100).
Proof.
  intros Hn.
  assert (Hall : forallb (fun k => bool_decide
                            (round_core (Z.of_nat k)
                             = F.div (F.of_Z (Z.of_nat k)) (F.of_Z 100)))
                   (seq 1 (Pos.to_nat 10000)) = true)
    by (vm_compute; reflexivity).
  rewrite forallb_forall in Hall.
  assert (Hin : In (Z.to_nat n) (seq 1 (Pos.to_nat 10000)))
    by (apply in_seq; lia).
  specialize (Hall (Z.to_nat n) Hin).
  rewrite Z2Nat.id in Hall by lia.
  apply bool_decide_eq_true in Hall. exact Hall.
Qed.

Lemma round_below x :
  below 2 x ->
  exists n,
    hundredths x n /\ 0 <= n <= 10000
    /\ F.round x 2 = F.div (F.of_Z n) (F.of_Z 100).
Proof.
  intros [->|(m & e & -> & He & Hm)].
  { exists 0. split; [reflexivity|]. split; [lia|]. reflexivity. }
  destruct e as [|k|k]; try lia.
  assert (Hd : 0 < 2 ^ Z.pos k) by (apply pow2_pos; lia).
  replace (2 - Z.neg k) with (2 + Z.pos k) in Hm by lia.
  rewrite pow2_split in Hm by lia. change (2 ^ 2) with 4 in Hm.
  destruct (rne_div_spec (Z.pos m * 100) (2 ^ Z.pos k) ltac:(lia) Hd)
    as (Hn0 & Hnear & Htie).
  pose proof (rne_div_le (Z.pos m * 100) (2 ^ Z.pos k) 10000
                ltac:(lia) Hd ltac:(lia)) as Hn1.
  exists (rne_div (Z.pos m * 100) (2 ^ Z.pos k)).
  split; [|split; [lia|]].
  - unfold hundredths.
    replace (Z.max (Z.neg k) 0) with 0 by lia.
    replace (Z.max (- Z.neg k) 0) with (Z.pos k) by lia.
    change (2 ^ 0) with 1.
    replace (100 * Z.pos m * 1) with (Z.pos m * 100) by lia.
    split; assumption.
  - unfold F.round. change (10 ^ 2) with 100.
    destruct (rne_div (Z.pos m * 100) (2 ^ Z.pos k)) as [|n|n] eqn:En; try lia.
    + reflexivity.
    + apply (round_core_table (Z.pos n)). lia.
Qed.

End RoundFacts.

(** ** Strategy selection *)

Section Strategy.

Variable float_of_str : string -> option float.
Variable lstsq : list (list float) -> list float -> result (float * float * float * float).
Variable x_dot : list (list float) -> float * float * float * float -> nat -> float.


(** C9. With three or more observations every prediction the route returns
    has an empty notes list, and it does return one whenever the
    least-squares solver returns. *)
Theorem predict_fit_no_notes data parsed st :
  validate_predict float_of_str data = Ret (∅, parsed) ->
  (3 <= length (fetch_entries st))%nat ->
  (forall body, predict float_of_str lstsq x_dot data st = Ret (body, 200) ->
                py_path ["notes"] body = Some (PList []))
  /\ (forall coeffs,
        lstsq (map design_row (fetch_entries st)) (map score (fetch_entries st))
        = Ret coeffs ->
        exists body, predict float_of_str lstsq x_dot data st = Ret (body, 200)).
Proof.
  intros Hv Hlen.
  destruct (validate_predict_accepts _ _ _ Hv)
    as (a & s & d & _ & _ & _ & _ & _ & _ & Hp).
  destruct (getitem_accepted a s d) as (Ga & Gs & Gd). rewrite <- Hp in Ga, Gs, Gd.
  rewrite (predict_accepted _ _ _ _ _ _ Hv). unfold rows_to_dicts.
  split.
  - intros body.
    destruct (lstsq (map design_row (fetch_entries st))
                (map score (fetch_entries st))) as [coeffs|e] eqn:Hfit.
    + rewrite (predict_entries_fit _ _ _ _ _ _ _ _ Hlen Hfit Ga Gs Gd).
      intros H. apply Ret_inj in H. injection H as <-. reflexivity.
    + rewrite (predict_entries_solver_raises _ _ _ _ _ Hlen Hfit). discriminate.
  - intros coeffs Hfit.
    rewrite (predict_entries_fit _ _ _ _ _ _ _ _ Hlen Hfit Ga Gs Gd).
    eexists. reflexivity.
Qed.

(** C4. With exactly three observations [r1], [r2], [r3], every prediction
    the route returns carries, in the four slots of [model.coefficients],
    the four numbers the solver returned for the design matrix of rows
    [[1.0, avg_glucose, glucose_sd, difficulty]] and the three scores (none
    of them null), an empty notes list and the tag
    [multivariate_linear_regression] in [model.type]; and it does return
    one whenever the solver returns.  The rows need not be linearly
    independent. *)
Theorem predict_three_rows_fitted data parsed st r1 r2 r3 :
  validate_predict float_of_str data = Ret (∅, parsed) ->
  fetch_entries st = [r1; r2; r3] ->
  (forall body,
     predict float_of_str lstsq x_dot data st = Ret (body, 200) ->
     py_path ["model"; "type"] body = Some (PStr "multivariate_linear_regression")
     /\ py_path ["model"; "n_training_rows"] body = Some (PInt 3)
     /\ py_path ["notes"] body = Some (PList [])
     /\ exists c0 c1 c2 c3,
          lstsq [[S754_finite false 4503599627370496 (-52);
                  avg_glucose r1; glucose_sd r1; difficulty r1];
                 [S754_finite false 4503599627370496 (-52);
                  avg_glucose r2; glucose_sd r2; difficulty r2];
                 [S754_finite false 4503599627370496 (-52);
                  avg_glucose r3; glucose_sd r3; difficulty r3]]
                [score r1; score r2; score r3]
          = Ret (c0, c1, c2, c3)
          /\ py_path ["model"; "coefficients"] body
             = Some (PDict [("intercept", PFloat c0); ("avg_glucose", PFloat c1);
                            ("glucose_sd", PFloat c2); ("difficulty", PFloat c3)]))
  /\ (forall coeffs,
        lstsq [[S754_finite false 4503599627370496 (-52);
                avg_glucose r1; glucose_sd r1; difficulty r1];
               [S754_finite false 4503599627370496 (-52);
                avg_glucose r2; glucose_sd r2; difficulty r2];
               [S754_finite false 4503599627370496 (-52);
                avg_glucose r3; glucose_sd r3; difficulty r3]]
              [score r1; score r2; score r3]
        = Ret coeffs ->
        exists body, predict float_of_str lstsq x_dot data st = Ret (body, 200)).
Proof.
  intros Hv Hrows.
  destruct (validate_predict_accepts _ _ _ Hv)
    as (a & s & d & _ & _ & _ & _ & _ & _ & Hp).
  destruct (getitem_accepted a s d) as (Ga & Gs & Gd). rewrite <- Hp in Ga, Gs, Gd.
  assert (Hge : (3 <= length (fetch_entries st))%nat) by (rewrite Hrows; simpl; lia).
  assert (Hx : map design_row (fetch_entries st)
               = [[S754_finite false 4503599627370496 (-52);
                   avg_glucose r1; glucose_sd r1; difficulty r1];
                  [S754_finite false 4503599627370496 (-52);
                   avg_glucose r2; glucose_sd r2; difficulty r2];
                  [S754_finite false 4503599627370496 (-52);
                   avg_glucose r3; glucose_sd r3; difficulty r3]])
    by (rewrite Hrows; reflexivity).
  assert (Hy : map score (fetch_entries st) = [score r1; score r2; score r3])
    by (rewrite Hrows; reflexivity).
  rewrite <- Hx, <- Hy.
  rewrite (predict_accepted _ _ _ _ _ _ Hv). unfold rows_to_dicts.
  split.
  - intros body.
    destruct (lstsq (map design_row (fetch_entries st))
                (map score (fetch_entries st))) as [[[[c0 c1] c2] c3]|e] eqn:Hfit.
    + rewrite (predict_entries_fit _ _ _ _ _ _ _ _ Hge Hfit Ga Gs Gd).
      generalize (linear_form (c0, c1, c2, c3) a s d).
      generalize (r2_slot
         (if F.ltb F.zero (ss_tot_of (map score (fetch_entries st)))
          then Some (F.sub (F.of_Z 1)
                       (F.div (ss_res_of x_dot (map design_row (fetch_entries st))
                                 (map score (fetch_entries st)) (c0, c1, c2, c3))
                              (ss_tot_of (map score (fetch_entries st)))))
          else None)).
      intros slot predicted H. apply Ret_inj in H. injection H as <-.
      rewrite Hrows. split; [reflexivity|]. split; [reflexivity|].
      split; [reflexivity|].
      exists c0, c1, c2, c3. split; reflexivity.
    + rewrite (predict_entries_solver_raises _ _ _ _ _ Hge Hfit). discriminate.
  - intros coeffs Hfit.
    rewrite (predict_entries_fit _ _ _ _ _ _ _ _ Hge Hfit Ga Gs Gd).
    eexists. reflexivity.
Qed.

(** Whatever the size of the history from three rows on, when the solver
    returns [(c0, c1, c2, c3)] for the design matrix of rows
    [[1.0, avg_glucose, glucose_sd, difficulty]] and the scores, the score
    the route predicts is [c0 + c1 * a + c2 * s + c3 * d], added from left
    to right, at the numbers [a], [s], [d] the three fields of the request
    parsed to, rounded to two decimals. *)
Lemma predict_linear_form data parsed st c0 c1 c2 c3 :
  validate_predict float_of_str data = Ret (∅, parsed) ->
  (3 <= length (fetch_entries st))%nat ->
  lstsq (map (fun r => [S754_finite false 4503599627370496 (-52);
                        avg_glucose r; glucose_sd r; difficulty r])
           (fetch_entries st))
        (map (fun r => score r) (fetch_entries st))
  = Ret (c0, c1, c2, c3) ->
  exists a s d body,
    parse_float float_of_str (data_get data "avg_glucose") = Ret (Some a)
    /\ parse_float float_of_str (data_get data "glucose_sd") = Ret (Some s)
    /\ parse_float float_of_str (data_get data "difficulty") = Ret (Some d)
    /\ predict float_of_str lstsq x_dot data st = Ret (body, 200)
    /\ py_path ["predicted_score"] body
       = Some (PFloat
                 (F.round
                    (F.add (F.add (F.add c0 (F.mul c1 a)) (F.mul c2 s)) (F.mul c3 d))
                    2)).
Proof.
  intros Hv Hlen Hfit.
  destruct (validate_predict_accepts _ _ _ Hv)
    as (a & s & d & Pa & Ps & Pd & _ & _ & _ & Hp).
  destruct (getitem_accepted a s d) as (Ga & Gs & Gd). rewrite <- Hp in Ga, Gs, Gd.
  exists a, s, d. eexists.
  split; [exact Pa|]. split; [exact Ps|]. split; [exact Pd|].
  rewrite (predict_accepted _ _ _ _ _ _ Hv). unfold rows_to_dicts.
  change (lstsq (map design_row (fetch_entries st)) (map score (fetch_entries st))
          = Ret (c0, c1, c2, c3)) in Hfit.
  rewrite (predict_entries_fit _ _ _ _ _ _ _ _ Hlen Hfit Ga Gs Gd).
  split; reflexivity.
Qed.

(** Below three observations the model block is the one the view starts
    from: the regression tag, the four coefficients [0.0], the number of
    rows and a null [r2]. *)
Lemma predict_fallback_model data parsed st body :
  validate_predict float_of_str data = Ret (∅, parsed) ->
  (length (fetch_entries st) < 3)%nat ->
  predict float_of_str lstsq x_dot data st = Ret (body, 200) ->
  py_path ["model"] body
  = Some (PDict [("type", PStr "multivariate_linear_regression");
                 ("coefficients",
                   PDict [("intercept", PFloat (S754_zero false));
                          ("avg_glucose", PFloat (S754_zero false));
                          ("glucose_sd", PFloat (S754_zero false));
                          ("difficulty", PFloat (S754_zero false))]);
                 ("n_training_rows", PInt (Z.of_nat (length (fetch_entries st))));
                 ("r2", PNone)]).
Proof.
  intros Hv Hlen. rewrite (predict_accepted _ _ _ _ _ _ Hv). unfold rows_to_dicts.
  destruct (fetch_entries st) as [|e es] eqn:E.
  - rewrite predict_entries_empty. intros H. apply Ret_inj in H.
    injection H as <-. reflexivity.
  - rewrite <- E in *. rewrite predict_entries_mean by (rewrite E in *; simpl in *; lia).
    generalize (np_mean (map score (fetch_entries st))). intros m H.
    apply Ret_inj in H. injection H as <-. reflexivity.
Qed.

End Strategy.

(** Against C4 as stated: the tag in [model.type] does not tell a fit from
    a fallback.  The answer computed from two observations, which is their
    mean and says so in its notes, carries the same [model.type] as the
    answer fitted to three. *)
Theorem model_type_same_in_fallback :
  exists fallback fitted,
    length (fetch_entries Sample.db2) = 2%nat
    /\ predict Sample.float_of_str (Sample.solver Sample.c1) Sample.dot
         Sample.q1 Sample.db2 = Ret (fallback, 200)
    /\ py_path ["notes"] fallback
       = Some (PList [PStr "Not enough data for regression (need at least 3 rows). Returning mean score of existing entries."])
    /\ length (fetch_entries Sample.db3) = 3%nat
    /\ predict Sample.float_of_str (Sample.solver Sample.c1) Sample.dot
         Sample.q1 Sample.db3 = Ret (fitted, 200)
    /\ py_path ["notes"] fitted = Some (PList [])
    /\ py_path ["model"; "type"] fallback
       = Some (PStr "multivariate_linear_regression")
    /\ py_path ["model"; "type"] fitted
       = Some (PStr "multivariate_linear_regression").
Proof.
  eexists _, _.
  split; [vm_compute; reflexivity|].
  split; [vm_compute; reflexivity|].
  split; [vm_compute; reflexivity|].
  split; [vm_compute; reflexivity|].
  split; [vm_compute; reflexivity|].
  split; [vm_compute; reflexivity|].
  split; vm_compute; reflexivity.
Qed.

(** ** The observation store *)

(** *** The order of the snapshot *)

Lemma compare_lt_trans (a b c : string) :
  String.compare a b = Lt -> String.compare b c = Lt -> String.compare a c = Lt.
Proof.
  intros H1 H2. apply String_as_OT.cmp_lt in H1, H2.
  apply String_as_OT.cmp_lt. eapply String_as_OT.lt_trans; eassumption.
Qed.

Lemma compare_gt_lt (a b : string) :
  String.compare a b = Gt -> String.compare b a = Lt.
Proof.
  intros H. rewrite String.compare_antisym, H. reflexivity.
Qed.

Lemma compare_refl (a : string) : String.compare a a = Eq.
Proof. apply (String_as_OT.cmp_eq a a). reflexivity. Qed.

Lemma row_le_refl r : row_le r r.
Proof.
  unfold row_le, row_leb. rewrite compare_refl. apply Z.leb_refl.
Qed.

Lemma row_le_trans a b c : row_le a b -> row_le b c -> row_le a c.
Proof.
  unfold row_le, row_leb.
  destruct (String.compare (created_at a) (created_at b)) eqn:E1;
    destruct (String.compare (created_at b) (created_at c)) eqn:E2;
    try discriminate; intros H1 H2.
  - apply String.compare_eq_iff in E1, E2. rewrite E1, E2, compare_refl. lia.
  - apply String.compare_eq_iff in E1. rewrite E1, E2. reflexivity.
  - apply String.compare_eq_iff in E2. rewrite <- E2, E1. reflexivity.
  - rewrite (compare_lt_trans _ _ _ E1 E2). reflexivity.
Qed.

Lemma row_le_total a b : row_le a b \/ row_le b a.
Proof.
  unfold row_le, row_leb.
  destruct (String.compare (created_at a) (created_at b)) eqn:E.
  - apply String.compare_eq_iff in E. rewrite E, compare_refl. lia.
  - left. reflexivity.
  - right. rewrite (compare_gt_lt _ _ E). reflexivity.
Qed.

(** A row created no later than another one, with a smaller key, comes
    strictly before it. *)
Lemma row_le_strict a b :
  String.leb (created_at a) (created_at b) = true -> rowid a < rowid b ->
  row_le a b /\ ~ row_le b a.
Proof.
  unfold row_le, row_leb, String.leb. intros Ht Hid.
  destruct (String.compare (created_at a) (created_at b)) eqn:E; try discriminate.
  - apply String.compare_eq_iff in E. rewrite E, compare_refl.
    split; [lia|]. intros H. lia.
  - split; [reflexivity|].
    rewrite String.compare_antisym, E. simpl. discriminate.
Qed.

Lemma order_insert_perm r rows : Permutation (order_insert r rows) (r :: rows).
Proof.
  induction rows as [|h t IH]; simpl; [reflexivity|].
  destruct (row_leb r h); [reflexivity|].
  rewrite IH. apply perm_swap.
Qed.

Lemma order_by_perm rows : Permutation (order_by rows) rows.
Proof.
  induction rows as [|h t IH]; simpl; [reflexivity|].
  rewrite order_insert_perm. apply perm_skip, IH.
Qed.

Lemma order_insert_sorted r rows :
  StronglySorted row_le rows -> StronglySorted row_le (order_insert r rows).
Proof.
  induction 1 as [|h t Hs IH Hall]; simpl.
  - repeat constructor.
  - destruct (row_leb r h) eqn:E.
    + constructor; [constructor; assumption|].
      constructor; [exact E|].
      eapply Forall_impl; [exact Hall|].
      intros x Hx. eapply row_le_trans; [exact E|exact Hx].
    + constructor; [exact IH|].
      assert (Hhr : row_le h r).
      { destruct (row_le_total h r) as [H|H]; [exact H|].
        unfold row_le in H. congruence. }
      rewrite (order_insert_perm r t). constructor; assumption.
Qed.

Lemma order_by_sorted rows : StronglySorted row_le (order_by rows).
Proof.
  induction rows as [|h t IH]; simpl; [constructor|].
  apply order_insert_sorted, IH.
Qed.

(** In a sorted list, an element that another one is not below occurs
    before it. *)
Lemma sorted_precedes (l : list row) a b :
  StronglySorted row_le l -> In a l -> In b l -> ~ row_le b a ->
  exists l1 l2 l3, l = (l1 ++ a :: l2 ++ b :: l3)%list.
Proof.
  induction 1 as [|h t Hs IH Hall]; intros Ha Hb Hnle; [destruct Ha|].
  destruct Ha as [->|Ha].
  - destruct Hb as [->|Hb]; [exfalso; apply Hnle, row_le_refl|].
    apply in_split in Hb as (l2 & l3 & ->).
    exists [], l2, l3. reflexivity.
  - destruct Hb as [->|Hb].
    + exfalso. apply Hnle. rewrite Forall_forall in Hall.
      apply Hall. apply list_elem_of_In. exact Ha.
    + destruct (IH Ha Hb Hnle) as (l1 & l2 & l3 & ->).
      exists (h :: l1), l2, l3. reflexivity.
Qed.

(** The snapshot holds exactly the rows of the table, in key order. *)
Lemma fetch_entries_perm st : Permutation (fetch_entries st) (exam_entries st).
Proof. apply order_by_perm. Qed.

Lemma fetch_entries_sorted st : StronglySorted row_le (fetch_entries st).
Proof. apply order_by_sorted. Qed.

Lemma fetch_entries_length st :
  length (fetch_entries st) = length (exam_entries st).
Proof. apply Permutation_length, fetch_entries_perm. Qed.

(** *** Appending *)

Lemma max_rowid_ge rows r : In r rows -> rowid r <= max_rowid rows.
Proof.
  induction rows as [|h t IH]; simpl; [tauto|].
  intros [->|H]; [lia|]. specialize (IH H). lia.
Qed.

Lemma find_appended rows r :
  (forall r', In r' rows -> rowid r' < rowid r) ->
  find (fun x => rowid x =? rowid r) (rows ++ [r]) = Some r.
Proof.
  induction rows as [|h t IH]; simpl; intros Hlt.
  - rewrite Z.eqb_refl. reflexivity.
  - assert (rowid h < rowid r) by (apply Hlt; auto).
    destruct (rowid h =? rowid r) eqn:E; [apply Z.eqb_eq in E; lia|].
    apply IH. intros r' Hr'. apply Hlt. auto.
Qed.

(** *** What a [REAL] column gives back *)

(** No comparison tells a number from what the column gives back for it. *)
Lemma real_column_leb_l x y : F.leb (real_column x) y = F.leb x y.
Proof. destruct x, y; reflexivity. Qed.

Lemma real_column_leb_r x y : F.leb x (real_column y) = F.leb x y.
Proof. destruct x, y; reflexivity. Qed.

Lemma real_column_ltb_l x y : F.ltb (real_column x) y = F.ltb x y.
Proof. destruct x, y; reflexivity. Qed.

Lemma real_column_ltb_r x y : F.ltb x (real_column y) = F.ltb x y.
Proof. destruct x, y; reflexivity. Qed.

Lemma real_column_is_nan x : F.is_nan (real_column x) = F.is_nan x.
Proof. destruct x; reflexivity. Qed.

(** Only a zero changes, and what it becomes is [0.0]. *)
Lemma real_column_nonzero x : F.is_zero x = false -> real_column x = x.
Proof. destruct x; simpl; [discriminate|reflexivity..]. Qed.

Lemma real_column_not_negative_zero x : real_column x <> S754_zero true.
Proof. destruct x; discriminate. Qed.

Lemma bad_avg_glucose_real x : bad_avg_glucose (real_column x) = bad_avg_glucose x.
Proof. apply real_column_leb_l. Qed.

Lemma bad_glucose_sd_real x : bad_glucose_sd (real_column x) = bad_glucose_sd x.
Proof. apply real_column_ltb_l. Qed.

Lemma bad_difficulty_real x : bad_difficulty (real_column x) = bad_difficulty x.
Proof.
  unfold bad_difficulty. rewrite real_column_leb_l, real_column_leb_r. reflexivity.
Qed.

Lemma bad_score_real x : bad_score (real_column x) = bad_score x.
Proof.
  unfold bad_score. rewrite real_column_leb_l, real_column_leb_r. reflexivity.
Qed.

(** An accepted [avg_glucose] or [difficulty] is not a zero. *)
Lemma accepted_avg_glucose_stored x : bad_avg_glucose x = false -> real_column x = x.
Proof.
  intros H. apply real_column_nonzero. destruct x; try reflexivity. discriminate H.
Qed.

Lemma accepted_difficulty_stored x : bad_difficulty x = false -> real_column x = x.
Proof.
  intros H. apply real_column_nonzero. destruct x; try reflexivity. discriminate H.
Qed.

(** What a successful insert leaves. *)
Lemma insert_entry_inv now a s d sc st entry_id st' :
  insert_entry now a s d sc st = Ret (entry_id, st') ->
  entry_id = Z.max (sqlite_sequence st) (max_rowid (exam_entries st)) + 1
  /\ entry_id <= int64_max
  /\ F.is_nan a = false /\ F.is_nan s = false
  /\ F.is_nan d = false /\ F.is_nan sc = false
  /\ st' = {| exam_entries :=
                (exam_entries st ++
                 [{| rowid := entry_id; created_at := now;
                     avg_glucose := real_column a; glucose_sd := real_column s;
                     difficulty := real_column d; score := real_column sc |}])%list;
              sqlite_sequence := entry_id |}.
Proof.
  unfold insert_entry.
  destruct (F.is_nan a || F.is_nan s || F.is_nan d || F.is_nan sc) eqn:N;
    [discriminate|].
  destruct (int64_max <? _) eqn:L; [discriminate|].
  intros H. apply Ret_inj in H. injection H as <- <-.
  apply Z.ltb_ge in L.
  repeat (apply orb_false_iff in N; destruct N as [N ?]).
  repeat split; auto.
Qed.

Lemma getitem_accepted_entry (a s d sc : float) :
  let parsed : gmap string float :=
    <["score" := sc]> (<["difficulty" := d]>
      (<["glucose_sd" := s]> (<["avg_glucose" := a]> ∅))) in
  getitem parsed "avg_glucose" = Ret a
  /\ getitem parsed "glucose_sd" = Ret s
  /\ getitem parsed "difficulty" = Ret d
  /\ getitem parsed "score" = Ret sc.
Proof.
  intros parsed. unfold getitem, parsed.
  repeat split; simplify_map_eq; reflexivity.
Qed.

Section Store.

Variable float_of_str : string -> option float.

(** C10. A record request whose validation reports an error is answered
    with status 400 and the error mapping, and leaves the database exactly
    as it was: no row is inserted and the key sequence does not move. *)
Theorem add_entry_rejected_unchanged now data st errors parsed :
  validate_entry float_of_str data = Ret (errors, parsed) ->
  errors <> ∅ ->
  add_entry float_of_str now data st
  = (Ret (PDict [("errors", str_dict errors)], 400), st).
Proof.
  intros Hv Hne. unfold add_entry. rewrite Hv.
  destruct (dict_bool errors) eqn:Hb; [reflexivity|].
  apply dict_bool_false in Hb. contradiction.
Qed.

(** What a successful append does: the body is validated, the new row gets
    the clock reading and the next key, it is appended to the table, and
    it is the row the response shows. *)
Lemma add_entry_created now data st body st' :
  add_entry float_of_str now data st = (Ret (body, 201), st') ->
  exists a s d sc,
    bad_avg_glucose a = false /\ bad_glucose_sd s = false
    /\ bad_difficulty d = false /\ bad_score sc = false
    /\ F.is_nan a = false /\ F.is_nan s = false
    /\ let o := {| rowid := Z.max (sqlite_sequence st) (max_rowid (exam_entries st)) + 1;
                   created_at := now; avg_glucose := a; glucose_sd := s;
                   difficulty := d; score := sc |} in
       rowid o <= int64_max
       /\ body = dict_of_row o
       /\ st' = {| exam_entries := (exam_entries st ++ [o])%list;
                   sqlite_sequence := rowid o |}.
Proof.
  unfold add_entry.
  destruct (validate_entry float_of_str data) as [[errors parsed]|e] eqn:Hv;
    [|discriminate].
  destruct (dict_bool errors) eqn:Hb; [discriminate|].
  apply dict_bool_false in Hb. subst errors.
  destruct (validate_entry_accepts _ _ _ Hv)
    as (a & s & d & sc & _ & _ & _ & _ & Ba & Bs & Bd & Bsc & ->).
  destruct (getitem_accepted_entry a s d sc) as (Ga & Gs & Gd & Gsc).
  rewrite Ga, Gs, Gd, Gsc. cbn [mbind result_bind].
  destruct (insert_entry now a s d sc st) as [[entry_id st1]|e] eqn:Hi;
    [|discriminate].
  destruct (insert_entry_inv _ _ _ _ _ _ _ _ Hi)
    as (Hid & Hmax & Na & Ns & Nd & Nsc & Hst).
  set (o := {| rowid := entry_id; created_at := now;
               avg_glucose := real_column a; glucose_sd := real_column s;
               difficulty := real_column d; score := real_column sc |}) in *.
  assert (Hfind : select_by_id entry_id st1 = Some o).
  { unfold select_by_id. rewrite Hst. simpl.
    apply (find_appended (exam_entries st) o).
    intros r' Hr'. apply max_rowid_ge in Hr'. simpl. lia. }
  rewrite Hfind. intros H. injection H as <- <-.
  exists (real_column a), (real_column s), (real_column d), (real_column sc).
  rewrite <- Hid. fold o.
  rewrite bad_avg_glucose_real, bad_glucose_sd_real, bad_difficulty_real,
    bad_score_real, !real_column_is_nan.
  repeat split; auto.
Qed.

(** Whatever the request, the database changes only with a 201. *)
Lemma add_entry_frame now data st :
  (add_entry float_of_str now data st).2 = st
  \/ exists body, (add_entry float_of_str now data st).1 = Ret (body, 201).
Proof.
  unfold add_entry.
  destruct (validate_entry float_of_str data) as [[errors parsed]|e];
    [|left; reflexivity].
  destruct (dict_bool errors); [left; reflexivity|].
  destruct (getitem parsed "avg_glucose") as [a|e]; [|left; reflexivity].
  destruct (getitem parsed "glucose_sd") as [s|e]; [|left; reflexivity].
  destruct (getitem parsed "difficulty") as [d|e]; [|left; reflexivity].
  destruct (getitem parsed "score") as [sc|e]; [|left; reflexivity].
  cbn [mbind result_bind].
  destruct (insert_entry now a s d sc st) as [[entry_id st1]|e] eqn:Hi;
    [|left; reflexivity].
  destruct (insert_entry_inv _ _ _ _ _ _ _ _ Hi) as (Hid & _ & _ & _ & _ & _ & Hst).
  set (o := {| rowid := entry_id; created_at := now;
               avg_glucose := real_column a; glucose_sd := real_column s;
               difficulty := real_column d; score := real_column sc |}) in *.
  assert (Hfind : select_by_id entry_id st1 = Some o).
  { unfold select_by_id. rewrite Hst. simpl.
    apply (find_appended (exam_entries st) o).
    intros r' Hr'. apply max_rowid_ge in Hr'. simpl. lia. }
  right. rewrite Hfind. eexists. reflexivity.
Qed.

Variable lstsq : list (list float) -> list float -> result (float * float * float * float).
Variable x_dot : list (list float) -> float * float * float * float -> nat -> float.

(** Every prediction reports the size of the snapshot it was computed
    from. *)
Lemma predict_reports_rows data st body :
  predict float_of_str lstsq x_dot data st = Ret (body, 200) ->
  py_path ["model"; "n_training_rows"] body
  = Some (PInt (Z.of_nat (length (fetch_entries st)))).
Proof.
  unfold predict.
  destruct (validate_predict float_of_str data) as [[errors parsed]|e];
    [|discriminate].
  cbn [mbind result_bind].
  destruct (dict_bool errors); [discriminate|].
  unfold rows_to_dicts, predict_entries.
  destruct (length (fetch_entries st) <? 3)%nat.
  - destruct (fetch_entries st); intros H; apply Ret_inj in H;
      injection H as <-; reflexivity.
  - destruct (lstsq _ _) as [coeffs|e]; [|discriminate].
    destruct (getitem parsed "avg_glucose") as [a|e]; [|discriminate].
    destruct (getitem parsed "glucose_sd") as [s|e]; [|discriminate].
    destruct (getitem parsed "difficulty") as [d|e]; [|discriminate].
    cbn [mbind result_bind]. rewrite r_squared_returns.
    intros H. apply Ret_inj in H. injection H as <-. reflexivity.
Qed.

(** Two successful appends, the stamp of the second not below the stamp of
    the first as text (equal stamps included): the snapshot then holds the
    old rows and the two new ones, sorted by creation stamp and then by
    key, with the first appended row before the second, and every
    prediction made afterwards reports two more training rows. *)
Lemma snapshot_append_order now1 now2 data1 data2 st0 st1 st2 body1 body2 :
  add_entry float_of_str now1 data1 st0 = (Ret (body1, 201), st1) ->
  add_entry float_of_str now2 data2 st1 = (Ret (body2, 201), st2) ->
  String.leb now1 now2 = true ->
  exists o1 o2,
    body1 = dict_of_row o1 /\ body2 = dict_of_row o2
    /\ created_at o1 = now1 /\ created_at o2 = now2 /\ rowid o1 < rowid o2
    /\ StronglySorted row_le (fetch_entries st2)
    /\ Permutation (fetch_entries st2) (exam_entries st0 ++ [o1; o2])
    /\ (exists l1 l2 l3, fetch_entries st2 = (l1 ++ o1 :: l2 ++ o2 :: l3)%list)
    /\ forall data body,
         predict float_of_str lstsq x_dot data st2 = Ret (body, 200) ->
         py_path ["model"; "n_training_rows"] body
         = Some (PInt (Z.of_nat (length (fetch_entries st0)) + 2)).
Proof.
  intros H1 H2 Hclock.
  destruct (add_entry_created _ _ _ _ _ H1)
    as (a1 & s1 & d1 & sc1 & _ & _ & _ & _ & _ & _ & _ & Hb1 & Hst1).
  destruct (add_entry_created _ _ _ _ _ H2)
    as (a2 & s2 & d2 & sc2 & _ & _ & _ & _ & _ & _ & _ & Hb2 & Hst2).
  set (o1 := {| rowid := Z.max (sqlite_sequence st0) (max_rowid (exam_entries st0)) + 1;
                created_at := now1; avg_glucose := a1; glucose_sd := s1;
                difficulty := d1; score := sc1 |}) in *.
  set (o2 := {| rowid := Z.max (sqlite_sequence st1) (max_rowid (exam_entries st1)) + 1;
                created_at := now2; avg_glucose := a2; glucose_sd := s2;
                difficulty := d2; score := sc2 |}) in *.
  assert (Hid : rowid o1 < rowid o2).
  { unfold o2. cbn [rowid]. rewrite Hst1. cbn [sqlite_sequence]. lia. }
  assert (Hrows : exam_entries st2 = (exam_entries st0 ++ [o1; o2])%list).
  { rewrite Hst2. cbn [exam_entries]. rewrite Hst1. cbn [exam_entries].
    rewrite <- app_assoc. reflexivity. }
  assert (Hperm : Permutation (fetch_entries st2) (exam_entries st0 ++ [o1; o2])).
  { rewrite <- Hrows. apply fetch_entries_perm. }
  destruct (row_le_strict o1 o2 Hclock Hid) as [_ Hstrict].
  exists o1, o2. repeat split; auto.
  - apply fetch_entries_sorted.
  - apply (sorted_precedes _ o1 o2 (fetch_entries_sorted st2)); auto.
    + eapply Permutation_in; [symmetry; exact Hperm|].
      apply in_or_app. right. simpl. auto.
    + eapply Permutation_in; [symmetry; exact Hperm|].
      apply in_or_app. right. simpl. auto.
  - intros data body Hp.
    rewrite (predict_reports_rows _ _ _ Hp).
    rewrite (Permutation_length Hperm), length_app, fetch_entries_length.
    simpl. do 2 f_equal. lia.
Qed.

End Store.

(** C5. The snapshot does not always list observations in the order they
    were created.  Two appends whose stamps are read from a local clock
    across the end of daylight saving time, the second forty minutes after
    the first: the second stamp is the smaller text, and the snapshot lists
    the second row, whose key is the larger, before the first. *)
Theorem snapshot_order_clock_counterexample :
  exists o1 o2 st1 st2,
    add_entry Sample.float_of_str Sample.stamp_edt Sample.e1 empty_db
    = (Ret (dict_of_row o1, 201), st1)
    /\ add_entry Sample.float_of_str Sample.stamp_est Sample.e2 st1
       = (Ret (dict_of_row o2, 201), st2)
    /\ rowid o1 < rowid o2
    /\ fetch_entries st2 = [o2; o1].
Proof.
  exists {| rowid := 1; created_at := Sample.stamp_edt;
            avg_glucose := F.of_Z 100; glucose_sd := F.of_Z 10;
            difficulty := F.of_Z 3; score := F.of_Z 70 |}.
  exists {| rowid := 2; created_at := Sample.stamp_est;
            avg_glucose := F.of_Z 150; glucose_sd := F.of_Z 30;
            difficulty := F.of_Z 8; score := F.of_Z 90 |}.
  eexists _, _.
  split; [vm_compute; reflexivity|].
  split; [vm_compute; reflexivity|].
  split; [reflexivity|].
  vm_compute. reflexivity.
Qed.

(** ** Goodness of fit *)

Import FloatFacts.

Lemma nonneg_ltb_zero x :
  F.nonneg x = true -> F.ltb F.zero x = negb (F.is_zero x).
Proof.
  destruct x as [s|s| |s m e]; simpl; try discriminate;
    destruct s; try discriminate; reflexivity.
Qed.

(** A score within [0, 100] is a zero or a positive finite number. *)
Lemma score_in_range sc :
  F.leb F.zero sc && F.leb sc (F.of_Z 100) = true ->
  F.finite sc = true /\ F.nonneg sc = true.
Proof.
  intros H. apply andb_true_iff in H as [H1 H2].
  destruct sc as [s|s| |s m e]; try destruct s; simpl; auto;
    solve [discriminate H1 | discriminate H2].
Qed.

Lemma np_mean_nonneg y :
  Forall (fun s => F.nonneg s = true) y ->
  0 < Z.of_nat (length y) < 2 ^ 53 ->
  F.nonneg (np_mean y) = true.
Proof.
  intros Hy Hn. unfold np_mean.
  destruct (of_Z_finite _ Hn) as (m & e & ->).
  apply div_nonneg, np_sum_nonneg, Hy.
Qed.

(** The total sum of squares of scores within range is a number, and it is
    not negative. *)
Lemma ss_tot_nonneg y :
  Forall (fun s => F.leb F.zero s && F.leb s (F.of_Z 100) = true) y ->
  0 < Z.of_nat (length y) < 2 ^ 53 ->
  F.nonneg (ss_tot_of y) = true.
Proof.
  intros Hy Hn. unfold ss_tot_of.
  assert (Hm : F.is_nan (np_mean y) = false).
  { apply nonneg_not_nan, np_mean_nonneg; [|exact Hn].
    eapply Forall_impl; [exact Hy|]. intros s Hs. apply (score_in_range s Hs). }
  apply np_sum_nonneg. apply Forall_map.
  eapply Forall_impl; [exact Hy|]. intros s Hs. simpl.
  apply square_nonneg, sub_not_nan; [|exact Hm].
  apply (score_in_range s Hs).
Qed.

Section Store_invariant.

Variable float_of_str : string -> option float.

(** Only rows within their ranges are ever stored: what the validator lets
    through and is not stopped by [NOT NULL] satisfies every constraint. *)
Lemma add_entry_store_ok now data st :
  store_ok st -> store_ok (add_entry float_of_str now data st).2.
Proof.
  intros Hok.
  destruct (add_entry_frame float_of_str now data st) as [->|[body Hb]];
    [exact Hok|].
  destruct (add_entry float_of_str now data st) as [r st'] eqn:E.
  simpl in Hb. subst r.
  destruct (add_entry_created _ _ _ _ _ _ E)
    as (a & s & d & sc & Ba & Bs & Bd & Bsc & Na & Ns & _ & _ & ->).
  unfold store_ok. cbn [snd exam_entries]. apply Forall_app. split; [exact Hok|].
  constructor; [|constructor]. unfold valid_row. cbn [avg_glucose glucose_sd difficulty score].
  unfold bad_difficulty, bad_score in Bd, Bsc.
  apply negb_false_iff in Bd, Bsc. repeat split; auto.
  - unfold bad_avg_glucose in Ba.
    destruct a as [sa|sa| |sa ma ea]; try destruct sa; try discriminate; reflexivity.
  - unfold bad_glucose_sd in Bs.
    destruct s as [ss|ss| |ss ms es]; try destruct ss; try discriminate; reflexivity.
Qed.

Lemma fetch_entries_valid st :
  store_ok st -> Forall valid_row (fetch_entries st).
Proof.
  intros Hok. apply Forall_forall. intros r Hr.
  unfold store_ok in Hok. rewrite Forall_forall in Hok. apply Hok.
  apply list_elem_of_In. apply list_elem_of_In in Hr.
  eapply Permutation_in; [apply fetch_entries_perm|exact Hr].
Qed.

End Store_invariant.

(** ** The mean fallback *)

Section Mean_fallback.

Import RoundFacts.

Variable float_of_str : string -> option float.
Variable lstsq : list (list float) -> list float -> result (float * float * float * float).
Variable x_dot : list (list float) -> float * float * float * float -> nat -> float.

Lemma stored_score_below s : stored_score s -> below 2 s.
Proof. intros (Hv & Hr & Hz). apply stored_below; assumption. Qed.

(** The mean of one stored score is the score. *)
Lemma np_mean_one_stored s1 : stored_score s1 -> np_mean [s1] = s1.
Proof.
  intros Hs. pose proof Hs as (Hv & _ & Hz).
  rewrite np_mean_one, (add_zero_l s1 Hz), (add_zero_l s1 Hz).
  destruct (stored_score_below s1 Hs) as [->|(m & e & -> & _)].
  - reflexivity.
  - apply div_one, Hv.
Qed.

(** The mean of two stored scores is half their sum, and it is at most
    [100]. *)
Lemma np_mean_two_stored s1 s2 :
  stored_score s1 -> stored_score s2 ->
  np_mean [s1; s2] = F.div (F.add s1 s2) (F.of_Z 2)
  /\ below 2 (np_mean [s1; s2]).
Proof.
  intros H1 H2. pose proof H1 as (_ & _ & Hz1).
  pose proof (add_below 2 s1 s2 ltac:(lia)
                (stored_score_below s1 H1) (stored_score_below s2 H2)) as Hsum.
  assert (Heq : np_mean [s1; s2] = F.div (F.add s1 s2) (F.of_Z 2)).
  { rewrite np_mean_two, (add_zero_l s1 Hz1).
    rewrite add_zero_l by (eapply below_not_negative_zero, Hsum).
    reflexivity. }
  split; [exact Heq|]. rewrite Heq.
  apply (div_two_below 2); [lia|exact Hsum].
Qed.

(** C2. With one stored score [s1], or two, [s1] and [s2], an accepted
    request is answered with their mean to two decimals: the mean is [s1],
    or [(s1 + s2) / 2] in binary64, the answer is the decimal [n / 100]
    read as a float, where [n] is the integer nearest to a hundred times
    the mean (the even one on a tie), and every other accepted request
    gets the very same response: the predictor values of the input play
    no part. *)
Theorem predict_mean_fallback data parsed st :
  validate_predict float_of_str data = Ret (∅, parsed) ->
  (length (fetch_entries st) = 1 \/ length (fetch_entries st) = 2)%nat ->
  Forall stored_score (map score (fetch_entries st)) ->
  exists mean n body,
    match map score (fetch_entries st) with
    | [s1] => mean = s1
    | [s1; s2] => mean = F.div (F.add s1 s2) (F.of_Z 2)
    | _ => False
    end
    /\ hundredths mean n
    /\ 0 <= n <= 10000
    /\ predict float_of_str lstsq x_dot data st = Ret (body, 200)
    /\ py_path ["predicted_score"] body
       = Some (PFloat (F.div (F.of_Z n) (F.of_Z 100)))
    /\ forall data' parsed',
         validate_predict float_of_str data' = Ret (∅, parsed') ->
         predict float_of_str lstsq x_dot data' st = Ret (body, 200).
Proof.
  intros Hv Hlen Hall.
  assert (Hrange : (0 < length (rows_to_dicts (fetch_entries st)) < 3)%nat)
    by (unfold rows_to_dicts; lia).
  assert (Hmean : below 2 (np_mean (map score (fetch_entries st)))
                  /\ match map score (fetch_entries st) with
                     | [s1] => np_mean (map score (fetch_entries st)) = s1
                     | [s1; s2] => np_mean (map score (fetch_entries st))
                                   = F.div (F.add s1 s2) (F.of_Z 2)
                     | _ => False
                     end).
  { assert (Hl : (length (map score (fetch_entries st)) = 1
                  \/ length (map score (fetch_entries st)) = 2)%nat)
      by (rewrite length_map; exact Hlen).
    destruct (map score (fetch_entries st)) as [|s1 [|s2 [|s3 l]]];
      try (simpl in Hl; lia).
    - apply Forall_cons_1 in Hall as [H1 _].
      rewrite (np_mean_one_stored s1 H1).
      split; [apply stored_score_below, H1|reflexivity].
    - apply Forall_cons_1 in Hall as [H1 Hall].
      apply Forall_cons_1 in Hall as [H2 _].
      destruct (np_mean_two_stored s1 s2 H1 H2) as [Heq Hb].
      split; [exact Hb|exact Heq]. }
  destruct Hmean as [Hb Hshape].
  destruct (round_below _ Hb) as (n & Hn & Hn01 & Hround).
  exists (np_mean (map score (fetch_entries st))), n.
  eexists. split.
  { destruct (map score (fetch_entries st)) as [|s1 [|s2 [|s3 l]]];
      try contradiction; exact Hshape. }
  split; [exact Hn|]. split; [exact Hn01|]. split; [|split].
  - rewrite (predict_accepted _ _ _ _ _ _ Hv).
    rewrite (predict_entries_mean _ _ _ _ Hrange). reflexivity.
  - unfold prediction, rows_to_dicts. cbn [py_path py_get dict_get String.eqb fst].
    rewrite Hround. reflexivity.
  - intros data' parsed' Hv'.
    rewrite (predict_accepted _ _ _ _ _ _ Hv').
    rewrite (predict_entries_mean _ _ _ _ Hrange). reflexivity.
Qed.

End Mean_fallback.

Section Fit_quality.

Variable float_of_str : string -> option float.
Variable lstsq : list (list float) -> list float -> result (float * float * float * float).
Variable x_dot : list (list float) -> float * float * float * float -> nat -> float.

(** The [r2] slot of a fitted response is decided by the guard
    [ss_tot > 0] alone. *)
Lemma predict_fit_r2_slot data parsed st coeffs body :
  validate_predict float_of_str data = Ret (∅, parsed) ->
  (3 <= length (fetch_entries st))%nat ->
  lstsq (map design_row (fetch_entries st)) (map score (fetch_entries st))
  = Ret coeffs ->
  predict float_of_str lstsq x_dot data st = Ret (body, 200) ->
  py_path ["model"; "r2"] body
  = Some (r2_slot
            (if F.ltb F.zero (ss_tot_of (map score (fetch_entries st)))
             then Some (F.sub (F.of_Z 1)
                          (F.div (ss_res_of x_dot (map design_row (fetch_entries st))
                                    (map score (fetch_entries st)) coeffs)
                                 (ss_tot_of (map score (fetch_entries st)))))
             else None)).
Proof.
  intros Hv Hlen Hfit.
  destruct (validate_predict_accepts _ _ _ Hv)
    as (a & s & d & _ & _ & _ & _ & _ & _ & Hp).
  destruct (getitem_accepted a s d) as (Ga & Gs & Gd). rewrite <- Hp in Ga, Gs, Gd.
  rewrite (predict_accepted _ _ _ _ _ _ Hv). unfold rows_to_dicts.
  rewrite (predict_entries_fit _ _ _ _ _ _ _ _ Hlen Hfit Ga Gs Gd).
  generalize (linear_form coeffs a s d).
  generalize (r2_slot
            (if F.ltb F.zero (ss_tot_of (map score (fetch_entries st)))
             then Some (F.sub (F.of_Z 1)
                          (F.div (ss_res_of x_dot (map design_row (fetch_entries st))
                                    (map score (fetch_entries st)) coeffs)
                                 (ss_tot_of (map score (fetch_entries st)))))
             else None)).
  intros slot predicted H. apply Ret_inj in H. injection H as <-. reflexivity.
Qed.

(** The guard at work.  On a database of validated observations, three or
    more and fewer than [2^53], whenever the solver returns, [predict]
    returns and [model.r2] is null exactly when the total sum of squares,
    as computed in binary64 around the computed mean, is zero; otherwise
    it is [1 - RSS/TSS] rounded to four decimals.  No division by zero is
    attempted. *)
Lemma predict_r2 data parsed st coeffs :
  validate_predict float_of_str data = Ret (∅, parsed) ->
  store_ok st ->
  (3 <= length (fetch_entries st))%nat ->
  Z.of_nat (length (fetch_entries st)) < 2 ^ 53 ->
  lstsq (map design_row (fetch_entries st)) (map score (fetch_entries st))
  = Ret coeffs ->
  let y := map score (fetch_entries st) in
  let ss_res := ss_res_of x_dot (map design_row (fetch_entries st)) y coeffs in
  let ss_tot := ss_tot_of y in
  exists body,
    predict float_of_str lstsq x_dot data st = Ret (body, 200)
    /\ py_path ["model"; "r2"] body
       = Some (if F.is_zero ss_tot then PNone
               else PFloat (F.round (F.sub (F.of_Z 1) (F.div ss_res ss_tot)) 4)).
Proof.
  intros Hv Hok Hlen Hbound Hfit y ss_res ss_tot.
  assert (Hpred : exists body,
             predict float_of_str lstsq x_dot data st = Ret (body, 200)).
  { destruct (validate_predict_accepts _ _ _ Hv)
      as (a & s & d & _ & _ & _ & _ & _ & _ & Hp).
    destruct (getitem_accepted a s d) as (Ga & Gs & Gd).
    rewrite <- Hp in Ga, Gs, Gd.
    rewrite (predict_accepted _ _ _ _ _ _ Hv). unfold rows_to_dicts.
    rewrite (predict_entries_fit _ _ _ _ _ _ _ _ Hlen Hfit Ga Gs Gd).
    eexists. reflexivity. }
  destruct Hpred as [body Hpred]. exists body. split; [exact Hpred|].
  rewrite (predict_fit_r2_slot _ _ _ _ _ Hv Hlen Hfit Hpred).
  fold y. fold ss_tot. fold ss_res.
  assert (Hnn : F.nonneg ss_tot = true).
  { apply ss_tot_nonneg.
    - unfold y. apply Forall_map.
      eapply Forall_impl; [apply (fetch_entries_valid st Hok)|].
      intros r Hr. apply Hr.
    - unfold y. rewrite length_map. lia. }
  rewrite (nonneg_ltb_zero _ Hnn).
  destruct (F.is_zero ss_tot); reflexivity.
Qed.

End Fit_quality.

(** C3. Identical training scores do not make [r2] null.  Three stored
    observations with the one score [88.6]: their mean as computed,
    [(88.6 + 88.6 + 88.6) / 3], is not [88.6], so the total sum of squares
    is positive, the guard [ss_tot > 0] passes, and every prediction
    returned (whatever the solver and the matrix product give, whatever
    the accepted request) reports a number as [model.r2], never null. *)
Theorem r2_identical_scores_not_null :
  map score (fetch_entries Sample.flat_db)
  = [S754_finite false 6234670734141030 (-46);
     S754_finite false 6234670734141030 (-46);
     S754_finite false 6234670734141030 (-46)]
  /\ F.dec 886 1 = S754_finite false 6234670734141030 (-46)
  /\ F.div (F.add (F.add (F.dec 886 1) (F.dec 886 1)) (F.dec 886 1)) (F.of_Z 3)
     = S754_finite false 6234670734141029 (-46)
  /\ (forall lstsq x_dot data parsed coeffs,
        validate_predict Sample.float_of_str data = Ret (∅, parsed) ->
        lstsq (map design_row (fetch_entries Sample.flat_db))
              (map score (fetch_entries Sample.flat_db)) = Ret coeffs ->
        exists body r,
          predict Sample.float_of_str lstsq x_dot data Sample.flat_db
          = Ret (body, 200)
          /\ py_path ["model"; "r2"] body = Some (PFloat r))
  /\ ~ (exists lstsq x_dot data body,
          predict Sample.float_of_str lstsq x_dot data Sample.flat_db
          = Ret (body, 200)
          /\ py_path ["model"; "r2"] body = Some PNone).
Proof.
  assert (Hlen : (3 <= length (fetch_entries Sample.flat_db))%nat)
    by (vm_compute; lia).
  assert (Hpos : F.ltb F.zero (ss_tot_of (map score (fetch_entries Sample.flat_db)))
                 = true)
    by (vm_compute; reflexivity).
  split; [vm_compute; reflexivity|].
  split; [vm_compute; reflexivity|].
  split; [vm_compute; reflexivity|].
  split.
  - intros lstsq x_dot data parsed coeffs Hv Hfit.
    destruct (validate_predict_accepts _ _ _ Hv)
      as (a & s & d & _ & _ & _ & _ & _ & _ & Hp).
    destruct (getitem_accepted a s d) as (Ga & Gs & Gd).
    rewrite <- Hp in Ga, Gs, Gd.
    rewrite (predict_accepted _ _ _ _ _ _ Hv). unfold rows_to_dicts.
    rewrite (predict_entries_fit _ _ _ _ _ _ _ _ Hlen Hfit Ga Gs Gd).
    rewrite Hpos. eexists _, _. split; reflexivity.
  - intros (lstsq & x_dot & data & body & Hp & Hr).
    revert Hp. unfold predict.
    destruct (validate_predict Sample.float_of_str data) as [[errors parsed]|e]
      eqn:Hv; [|discriminate].
    cbn [mbind result_bind].
    destruct (dict_bool errors) eqn:Hb; [discriminate|].
    apply dict_bool_false in Hb. subst errors. unfold rows_to_dicts.
    destruct (validate_predict_accepts _ _ _ Hv)
      as (a & s & d & _ & _ & _ & _ & _ & _ & Hpd).
    destruct (getitem_accepted a s d) as (Ga & Gs & Gd).
    rewrite <- Hpd in Ga, Gs, Gd.
    destruct (lstsq (map design_row (fetch_entries Sample.flat_db))
                (map score (fetch_entries Sample.flat_db))) as [coeffs|e] eqn:Hfit.
    + rewrite (predict_entries_fit _ _ _ _ _ _ _ _ Hlen Hfit Ga Gs Gd).
      rewrite Hpos.
      generalize (linear_form coeffs a s d).
      generalize (F.sub (F.of_Z 1)
                    (F.div (ss_res_of x_dot (map design_row (fetch_entries Sample.flat_db))
                              (map score (fetch_entries Sample.flat_db)) coeffs)
                           (ss_tot_of (map score (fetch_entries Sample.flat_db))))).
      intros q predicted H. apply Ret_inj in H. injection H as <-.
      discriminate Hr.
    + rewrite (predict_entries_solver_raises _ _ _ _ _ Hlen Hfit). discriminate.
Qed.

(** ** What the validators report *)

Lemma check_field_own_key k v bad m1 m2 ep :
  (check_field k v bad m1 m2 ep).1 !! k =
  match v with
  | None => Some m1
  | Some x => if bad x then Some m2 else ep.1 !! k
  end.
Proof.
  destruct ep as [errors parsed]. unfold check_field.
  destruct v as [x|]; simpl; [destruct (bad x); simpl|];
    try reflexivity; apply lookup_insert_eq.
Qed.

(** Away from NaN the two one-sided tests are the negations of the range
    constraints [avg_glucose > 0] and [glucose_sd >= 0]. *)
Lemma bad_avg_glucose_spec x :
  F.is_nan x = false -> bad_avg_glucose x = negb (F.ltb F.zero x).
Proof.
  destruct x as [s|s| |s m e]; try destruct s; simpl; try discriminate; reflexivity.
Qed.

Lemma bad_glucose_sd_spec x :
  F.is_nan x = false -> bad_glucose_sd x = negb (F.leb F.zero x).
Proof.
  destruct x as [s|s| |s m e]; try destruct s; simpl; try discriminate; reflexivity.
Qed.

(** On NaN they differ: NaN is not above zero, and is not reported. *)
Lemma bad_avg_glucose_nan :
  bad_avg_glucose F.nan = false /\ F.ltb F.zero F.nan = false.
Proof. split; reflexivity. Qed.

Lemma bad_glucose_sd_nan :
  bad_glucose_sd F.nan = false /\ F.leb F.zero F.nan = false.
Proof. split; reflexivity. Qed.

(** The two-sided tests do report NaN. *)
Lemma bad_difficulty_nan : bad_difficulty F.nan = true.
Proof. reflexivity. Qed.

Lemma bad_score_nan : bad_score F.nan = true.
Proof. reflexivity. Qed.

(** A NaN operand makes the linear form NaN, whatever the coefficients. *)
Lemma linear_form_nan coeffs p_sd p_diff :
  linear_form coeffs F.nan p_sd p_diff = F.nan.
Proof.
  destruct coeffs as [[[c0 c1] c2] c3]. unfold linear_form.
  assert (Hm : F.mul c1 F.nan = F.nan) by (destruct c1; reflexivity).
  rewrite Hm.
  assert (Ha : F.add c0 F.nan = F.nan) by (destruct c0; reflexivity).
  rewrite Ha. reflexivity.
Qed.

Section Boundary.

Variable float_of_str : string -> option float.

(** The error mapping of a prediction request, key by key: a field that is
    not a number or fails its test is mapped to its message, any other
    field is absent from the mapping. *)
Lemma validate_predict_errors data va vs vd :
  parse_float float_of_str (data_get data "avg_glucose") = Ret va ->
  parse_float float_of_str (data_get data "glucose_sd") = Ret vs ->
  parse_float float_of_str (data_get data "difficulty") = Ret vd ->
  exists errors parsed,
    validate_predict float_of_str data = Ret (errors, parsed)
    /\ errors !! "avg_glucose" =
       match va with
       | None => Some "Average glucose must be a number."
       | Some x => if bad_avg_glucose x then Some "Average glucose must be > 0." else None
       end
    /\ errors !! "glucose_sd" =
       match vs with
       | None => Some "Glucose SD must be a number."
       | Some x => if bad_glucose_sd x then Some "Glucose SD must be >= 0." else None
       end
    /\ errors !! "difficulty" =
       match vd with
       | None => Some "Difficulty must be a number."
       | Some x => if bad_difficulty x then Some "Difficulty must be between 1 and 10." else None
       end.
Proof.
  intros Ha Hs Hd. unfold validate_predict. rewrite Ha, Hs, Hd.
  cbn [mbind result_bind mret result_ret].
  match goal with |- context [mret ?p = _] => exists p.1, p.2 end.
  split; [rewrite <- surjective_pairing; reflexivity|].
  repeat split.
  - rewrite !check_field_keeps_errors by discriminate.
    rewrite check_field_own_key. destruct va as [x|]; [destruct (bad_avg_glucose x)|];
      reflexivity.
  - rewrite check_field_keeps_errors by discriminate.
    rewrite check_field_own_key. destruct vs as [x|]; [destruct (bad_glucose_sd x)|];
      try reflexivity.
    rewrite check_field_keeps_errors by discriminate. reflexivity.
  - rewrite check_field_own_key. destruct vd as [x|]; [destruct (bad_difficulty x)|];
      try reflexivity.
    rewrite !check_field_keeps_errors by discriminate. reflexivity.
Qed.

Lemma validate_entry_errors data va vs vd vsc :
  parse_float float_of_str (data_get data "avg_glucose") = Ret va ->
  parse_float float_of_str (data_get data "glucose_sd") = Ret vs ->
  parse_float float_of_str (data_get data "difficulty") = Ret vd ->
  parse_float float_of_str (data_get data "score") = Ret vsc ->
  exists errors parsed,
    validate_entry float_of_str data = Ret (errors, parsed)
    /\ errors !! "avg_glucose" =
       match va with
       | None => Some "Average glucose must be a number."
       | Some x => if bad_avg_glucose x then Some "Average glucose must be > 0." else None
       end
    /\ errors !! "glucose_sd" =
       match vs with
       | None => Some "Glucose SD must be a number."
       | Some x => if bad_glucose_sd x then Some "Glucose SD must be >= 0." else None
       end
    /\ errors !! "difficulty" =
       match vd with
       | None => Some "Difficulty must be a number."
       | Some x => if bad_difficulty x then Some "Difficulty must be between 1 and 10." else None
       end
    /\ errors !! "score" =
       match vsc with
       | None => Some "Score must be a number."
       | Some x => if bad_score x then Some "Score must be between 0 and 100." else None
       end.
Proof.
  intros Ha Hs Hd Hsc. unfold validate_entry. rewrite Ha, Hs, Hd, Hsc.
  cbn [mbind result_bind mret result_ret].
  match goal with |- context [mret ?p = _] => exists p.1, p.2 end.
  split; [rewrite <- surjective_pairing; reflexivity|].
  repeat split.
  - rewrite !check_field_keeps_errors by discriminate.
    rewrite check_field_own_key. destruct va as [x|]; [destruct (bad_avg_glucose x)|];
      reflexivity.
  - rewrite !check_field_keeps_errors by discriminate.
    rewrite check_field_own_key. destruct vs as [x|]; [destruct (bad_glucose_sd x)|];
      try reflexivity.
    rewrite check_field_keeps_errors by discriminate. reflexivity.
  - rewrite check_field_keeps_errors by discriminate.
    rewrite check_field_own_key. destruct vd as [x|]; [destruct (bad_difficulty x)|];
      try reflexivity.
    rewrite !check_field_keeps_errors by discriminate. reflexivity.
  - rewrite check_field_own_key. destruct vsc as [x|]; [destruct (bad_score x)|];
      try reflexivity.
    rewrite !check_field_keeps_errors by discriminate. reflexivity.
Qed.

(** A prediction request with an error is answered with the mapping and
    status 400; the history is not read and no model is fitted. *)
Lemma predict_rejected lstsq x_dot data st errors parsed :
  validate_predict float_of_str data = Ret (errors, parsed) ->
  errors <> ∅ ->
  predict float_of_str lstsq x_dot data st
  = Ret (PDict [("errors", str_dict errors)], 400).
Proof.
  intros Hv Hne. unfold predict. rewrite Hv. cbn [mbind result_bind].
  destruct (dict_bool errors) eqn:Hb; [reflexivity|].
  apply dict_bool_false in Hb. contradiction.
Qed.

(** Away from NaN the boundary works as intended on a prediction request:
    if one of the three numbers breaks its constraint, the answer is
    status 400 with a mapping that holds the range message of exactly the
    fields that break theirs, and the predictor is not run. *)
Lemma predict_rejects_out_of_range lstsq x_dot data st a s d :
  parse_float float_of_str (data_get data "avg_glucose") = Ret (Some a) ->
  parse_float float_of_str (data_get data "glucose_sd") = Ret (Some s) ->
  parse_float float_of_str (data_get data "difficulty") = Ret (Some d) ->
  F.is_nan a = false -> F.is_nan s = false ->
  F.ltb F.zero a = false \/ F.leb F.zero s = false
  \/ F.leb (F.of_Z 1) d && F.leb d (F.of_Z 10) = false ->
  exists errors,
    predict float_of_str lstsq x_dot data st
    = Ret (PDict [("errors", str_dict errors)], 400)
    /\ (F.ltb F.zero a = false <->
        errors !! "avg_glucose" = Some "Average glucose must be > 0.")
    /\ (F.leb F.zero s = false <->
        errors !! "glucose_sd" = Some "Glucose SD must be >= 0.")
    /\ (F.leb (F.of_Z 1) d && F.leb d (F.of_Z 10) = false <->
        errors !! "difficulty" = Some "Difficulty must be between 1 and 10.").
Proof.
  intros Ha Hs Hd Na Ns Hviol.
  destruct (validate_predict_errors data _ _ _ Ha Hs Hd)
    as (errors & parsed & Hv & Ea & Es & Ed).
  rewrite (bad_avg_glucose_spec a Na) in Ea.
  rewrite (bad_glucose_sd_spec s Ns) in Es.
  unfold bad_difficulty in Ed.
  exists errors. split; [|repeat split].
  - apply (predict_rejected lstsq x_dot data st errors parsed Hv).
    intros ->. rewrite lookup_empty in Ea, Es, Ed.
    destruct Hviol as [H|[H|H]];
      [rewrite H in Ea; discriminate Ea | rewrite H in Es; discriminate Es
      | rewrite H in Ed; discriminate Ed].
  - intros H. rewrite Ea, H. reflexivity.
  - rewrite Ea. destruct (F.ltb F.zero a); [discriminate|reflexivity].
  - intros H. rewrite Es, H. reflexivity.
  - rewrite Es. destruct (F.leb F.zero s); [discriminate|reflexivity].
  - intros H. rewrite Ed, H. reflexivity.
  - rewrite Ed.
    destruct (F.leb (F.of_Z 1) d && F.leb d (F.of_Z 10)); [discriminate|reflexivity].
Qed.

(** The same on a record request, with the score as fourth field; the
    database is left as it was. *)
Lemma add_entry_rejects_out_of_range now data st a s d sc :
  parse_float float_of_str (data_get data "avg_glucose") = Ret (Some a) ->
  parse_float float_of_str (data_get data "glucose_sd") = Ret (Some s) ->
  parse_float float_of_str (data_get data "difficulty") = Ret (Some d) ->
  parse_float float_of_str (data_get data "score") = Ret (Some sc) ->
  F.is_nan a = false -> F.is_nan s = false ->
  F.ltb F.zero a = false \/ F.leb F.zero s = false
  \/ F.leb (F.of_Z 1) d && F.leb d (F.of_Z 10) = false
  \/ F.leb F.zero sc && F.leb sc (F.of_Z 100) = false ->
  exists errors,
    add_entry float_of_str now data st
    = (Ret (PDict [("errors", str_dict errors)], 400), st)
    /\ (F.ltb F.zero a = false <->
        errors !! "avg_glucose" = Some "Average glucose must be > 0.")
    /\ (F.leb F.zero s = false <->
        errors !! "glucose_sd" = Some "Glucose SD must be >= 0.")
    /\ (F.leb (F.of_Z 1) d && F.leb d (F.of_Z 10) = false <->
        errors !! "difficulty" = Some "Difficulty must be between 1 and 10.")
    /\ (F.leb F.zero sc && F.leb sc (F.of_Z 100) = false <->
        errors !! "score" = Some "Score must be between 0 and 100.").
Proof.
  intros Ha Hs Hd Hsc Na Ns Hviol.
  destruct (validate_entry_errors data _ _ _ _ Ha Hs Hd Hsc)
    as (errors & parsed & Hv & Ea & Es & Ed & Esc).
  rewrite (bad_avg_glucose_spec a Na) in Ea.
  rewrite (bad_glucose_sd_spec s Ns) in Es.
  unfold bad_difficulty in Ed. unfold bad_score in Esc.
  exists errors. split; [|repeat split].
  - unfold add_entry. rewrite Hv.
    destruct (dict_bool errors) eqn:Hb; [reflexivity|].
    apply dict_bool_false in Hb. subst errors.
    rewrite lookup_empty in Ea, Es, Ed, Esc.
    destruct Hviol as [H|[H|[H|H]]];
      [rewrite H in Ea; discriminate Ea | rewrite H in Es; discriminate Es
      | rewrite H in Ed; discriminate Ed | rewrite H in Esc; discriminate Esc].
  - intros H. rewrite Ea, H. reflexivity.
  - rewrite Ea. destruct (F.ltb F.zero a); [discriminate|reflexivity].
  - intros H. rewrite Es, H. reflexivity.
  - rewrite Es. destruct (F.leb F.zero s); [discriminate|reflexivity].
  - intros H. rewrite Ed, H. reflexivity.
  - rewrite Ed.
    destruct (F.leb (F.of_Z 1) d && F.leb d (F.of_Z 10)); [discriminate|reflexivity].
  - intros H. rewrite Esc, H. reflexivity.
  - rewrite Esc.
    destruct (F.leb F.zero sc && F.leb sc (F.of_Z 100)); [discriminate|reflexivity].
Qed.

(** C7, at the failing input. A prediction request whose [avg_glucose] is
    NaN violates [avg_glucose > 0], yet it is validated without an error:
    on two stored rows the mean fallback answers it with status 200, on
    three the linear form is evaluated at NaN.  A record request with the
    same value passes validation too and reaches the INSERT, which raises
    instead of answering with the error mapping. *)
Theorem nan_avg_glucose_not_rejected :
  F.ltb F.zero F.nan = false
  /\ validate_predict float_of_str Sample.q_nan
     = Ret (∅, <["difficulty" := F.of_Z 6]>
                 (<["glucose_sd" := F.of_Z 20]> (<["avg_glucose" := F.nan]> ∅)))
  /\ (forall lstsq x_dot,
        predict float_of_str lstsq x_dot Sample.q_nan Sample.db2
        = Ret (prediction (np_mean (map score (fetch_entries Sample.db2)))
                 (initial_model 2) [note_too_few]))
  /\ (forall lstsq x_dot coeffs,
        lstsq (map design_row (fetch_entries Sample.db3))
              (map score (fetch_entries Sample.db3)) = Ret coeffs ->
        exists body,
          predict float_of_str lstsq x_dot Sample.q_nan Sample.db3 = Ret (body, 200)
          /\ py_path ["predicted_score"] body = Some (PFloat F.nan))
  /\ (forall now st,
        add_entry float_of_str now
          (Sample.entry (PFloat F.nan) (PInt 20) (PInt 6) (PInt 70)) st
        = (Raise IntegrityError, st)).
Proof.
  assert (Hv : validate_predict float_of_str Sample.q_nan
               = Ret (∅, <["difficulty" := F.of_Z 6]>
                           (<["glucose_sd" := F.of_Z 20]> (<["avg_glucose" := F.nan]> ∅))))
    by compute_done.
  split; [reflexivity|]. split; [exact Hv|]. split; [|split].
  - intros lstsq x_dot. rewrite (predict_accepted _ _ _ _ _ _ Hv).
    apply predict_entries_mean. vm_compute. lia.
  - intros lstsq x_dot coeffs Hfit.
    destruct (getitem_accepted F.nan (F.of_Z 20) (F.of_Z 6)) as (Ga & Gs & Gd).
    assert (Hlen : (3 <= length (fetch_entries Sample.db3))%nat) by (vm_compute; lia).
    rewrite (predict_accepted _ _ _ _ _ _ Hv). unfold rows_to_dicts.
    rewrite (predict_entries_fit _ _ _ _ _ _ _ _ Hlen Hfit Ga Gs Gd).
    eexists. split; [reflexivity|]. rewrite linear_form_nan. reflexivity.
  - intros now st. vm_compute. reflexivity.
Qed.

(** An integer too large for a float is not caught by [parse_float]: the
    request ends in [OverflowError], and the error found for an earlier
    field is never reported. *)
Lemma huge_integer_raises lstsq x_dot st :
  validate_predict float_of_str Sample.q_huge = Raise OverflowError
  /\ predict float_of_str lstsq x_dot Sample.q_huge st = Raise OverflowError.
Proof.
  assert (Hv : validate_predict float_of_str Sample.q_huge = Raise OverflowError)
    by (vm_compute; reflexivity).
  split; [exact Hv|]. unfold predict. rewrite Hv. reflexivity.
Qed.

End Boundary.

(** * Further properties of the routes *)

(** ** The validators sort every field into one of two dicts *)

Lemma fields_checked_start test src : fields_checked test src [] (∅, ∅).
Proof.
  intros k. cbn [fst snd]. rewrite !lookup_empty. repeat split.
  - intros [H|H]; destruct H; discriminate.
  - intros [].
  - intros [H _]. destruct H; discriminate.
  - discriminate.
  - discriminate.
Qed.

Lemma fields_checked_step test src ks k0 v bad m1 m2 ep :
  fields_checked test src ks ep ->
  ~ In k0 ks ->
  (forall x, test k0 x = bad x) ->
  src k0 = Ret v ->
  fields_checked test src (k0 :: ks) (check_field k0 v bad m1 m2 ep).
Proof.
  intros Hinv Hnew Htest Hsrc k. destruct ep as [errors parsed].
  destruct (Hinv k) as (Hdom & Hexcl & Hval). cbn [fst snd] in *.
  destruct (decide (k = k0)) as [->|Hne].
  - assert (He : errors !! k0 = None).
    { destruct (errors !! k0) eqn:E; [|reflexivity].
      exfalso. apply Hnew, Hdom. left. eauto. }
    assert (Hp : parsed !! k0 = None).
    { destruct (parsed !! k0) eqn:E; [|reflexivity].
      exfalso. apply Hnew, Hdom. right. eauto. }
    unfold check_field. destruct v as [x|]; [destruct (bad x) eqn:B|]; cbn [fst snd].
    + rewrite lookup_insert_eq, Hp. repeat split.
      * intros _. left. reflexivity.
      * intros _. left. eauto.
      * intros [_ H]. destruct H; discriminate.
      * discriminate.
      * discriminate.
    + rewrite lookup_insert_eq, He. repeat split.
      * intros _. left. reflexivity.
      * intros _. right. eauto.
      * intros [H _]. destruct H; discriminate.
      * injection H as <-. exact Hsrc.
      * injection H as <-. rewrite Htest. exact B.
    + rewrite lookup_insert_eq, Hp. repeat split.
      * intros _. left. reflexivity.
      * intros _. left. eauto.
      * intros [_ H]. destruct H; discriminate.
      * discriminate.
      * discriminate.
  - assert (Hin : In k (k0 :: ks) <-> In k ks).
    { simpl. split; [intros [H|H]; [congruence|exact H]|auto]. }
    rewrite Hin. unfold check_field.
    destruct v as [x|]; [destruct (bad x)|]; cbn [fst snd];
      rewrite ?lookup_insert_ne by congruence; repeat split;
      try apply Hdom; try exact Hexcl; try apply (Hval _ H).
Qed.

Section Sorting_fields.

Variable float_of_str : string -> option float.

(** Every one of the four fields of a record request ends up in exactly
    one of [errors] and [parsed], no other key is in either, and a value
    in [parsed] is the number the field parsed to, which passed the range
    test of its field. *)
Theorem validate_entry_partition data errors parsed :
  validate_entry float_of_str data = Ret (errors, parsed) ->
  forall k,
    (is_Some (errors !! k) \/ is_Some (parsed !! k) <-> In k entry_fields)
    /\ ~ (is_Some (errors !! k) /\ is_Some (parsed !! k))
    /\ forall x, parsed !! k = Some x ->
         parse_float float_of_str (data_get data k) = Ret (Some x)
         /\ out_of_range k x = false.
Proof.
  unfold validate_entry.
  destruct (parse_float float_of_str (data_get data "avg_glucose")) as [va|] eqn:Pa; [|discriminate].
  destruct (parse_float float_of_str (data_get data "glucose_sd")) as [vs|] eqn:Ps; [|discriminate].
  destruct (parse_float float_of_str (data_get data "difficulty")) as [vd|] eqn:Pd; [|discriminate].
  destruct (parse_float float_of_str (data_get data "score")) as [vsc|] eqn:Psc; [|discriminate].
  cbn [mbind result_bind mret result_ret].
  intros H. apply Ret_inj in H.
  pose proof (fields_checked_start out_of_range
                (fun k => parse_float float_of_str (data_get data k))) as H0.
  eapply (fields_checked_step _ _ _ "avg_glucose" va bad_avg_glucose) in H0;
    [|simpl; tauto|reflexivity|exact Pa].
  eapply (fields_checked_step _ _ _ "glucose_sd" vs bad_glucose_sd) in H0;
    [|simpl; intros [E|[]]; discriminate E|reflexivity|exact Ps].
  eapply (fields_checked_step _ _ _ "difficulty" vd bad_difficulty) in H0;
    [|simpl; intros [E|[E|[]]]; discriminate E|reflexivity|exact Pd].
  eapply (fields_checked_step _ _ _ "score" vsc bad_score) in H0;
    [|simpl; intros [E|[E|[E|[]]]]; discriminate E|reflexivity|exact Psc].
  rewrite H in H0. intros k. destruct (H0 k) as (Hdom & Hexcl & Hval).
  cbn [fst snd] in *. split; [|split; [exact Hexcl|exact Hval]].
  rewrite Hdom. unfold entry_fields. simpl. tauto.
Qed.

(** The same for the three fields of a prediction request. *)
Theorem validate_predict_partition data errors parsed :
  validate_predict float_of_str data = Ret (errors, parsed) ->
  forall k,
    (is_Some (errors !! k) \/ is_Some (parsed !! k) <-> In k predict_fields)
    /\ ~ (is_Some (errors !! k) /\ is_Some (parsed !! k))
    /\ forall x, parsed !! k = Some x ->
         parse_float float_of_str (data_get data k) = Ret (Some x)
         /\ out_of_range k x = false.
Proof.
  unfold validate_predict.
  destruct (parse_float float_of_str (data_get data "avg_glucose")) as [va|] eqn:Pa; [|discriminate].
  destruct (parse_float float_of_str (data_get data "glucose_sd")) as [vs|] eqn:Ps; [|discriminate].
  destruct (parse_float float_of_str (data_get data "difficulty")) as [vd|] eqn:Pd; [|discriminate].
  cbn [mbind result_bind mret result_ret].
  intros H. apply Ret_inj in H.
  pose proof (fields_checked_start out_of_range
                (fun k => parse_float float_of_str (data_get data k))) as H0.
  eapply (fields_checked_step _ _ _ "avg_glucose" va bad_avg_glucose) in H0;
    [|simpl; tauto|reflexivity|exact Pa].
  eapply (fields_checked_step _ _ _ "glucose_sd" vs bad_glucose_sd) in H0;
    [|simpl; intros [E|[]]; discriminate E|reflexivity|exact Ps].
  eapply (fields_checked_step _ _ _ "difficulty" vd bad_difficulty) in H0;
    [|simpl; intros [E|[E|[]]]; discriminate E|reflexivity|exact Pd].
  rewrite H in H0. intros k. destruct (H0 k) as (Hdom & Hexcl & Hval).
  cbn [fst snd] in *. split; [|split; [exact Hexcl|exact Hval]].
  rewrite Hdom. unfold predict_fields. simpl. tauto.
Qed.

End Sorting_fields.

(** ** Which exceptions leave the routes *)

Section Exceptions.

Variable float_of_str : string -> option float.

(** [parse_float] swallows [TypeError] and [ValueError]; what is left is
    the overflow of an integer that is beyond every float. *)
Lemma parse_float_raises value e :
  parse_float float_of_str value = Raise e ->
  e = OverflowError
  /\ exists z sgn, value = PInt z /\ F.of_Z z = S754_infinity sgn.
Proof.
  unfold parse_float, py_float. destruct value as [|b|z|f|s|l|d]; try discriminate.
  - destruct (F.of_Z z) as [| sgn | |] eqn:E; try discriminate.
    intros [= <-]. eauto.
  - destruct (float_of_str s); discriminate.
Qed.

Lemma validate_predict_raises data e :
  validate_predict float_of_str data = Raise e ->
  e = OverflowError
  /\ exists k z sgn,
       In k predict_fields /\ data_get data k = PInt z
       /\ F.of_Z z = S754_infinity sgn.
Proof.
  unfold validate_predict, predict_fields.
  destruct (parse_float float_of_str (data_get data "avg_glucose")) as [va|e1] eqn:Pa;
    [|intros [= <-]; destruct (parse_float_raises _ _ Pa) as (-> & z & sgn & Hz & Hi);
      split; [reflexivity|]; exists "avg_glucose", z, sgn; simpl; auto].
  destruct (parse_float float_of_str (data_get data "glucose_sd")) as [vs|e1] eqn:Ps;
    [|intros [= <-]; destruct (parse_float_raises _ _ Ps) as (-> & z & sgn & Hz & Hi);
      split; [reflexivity|]; exists "glucose_sd", z, sgn; simpl; auto].
  destruct (parse_float float_of_str (data_get data "difficulty")) as [vd|e1] eqn:Pd;
    [|intros [= <-]; destruct (parse_float_raises _ _ Pd) as (-> & z & sgn & Hz & Hi);
      split; [reflexivity|]; exists "difficulty", z, sgn; simpl; auto].
  discriminate.
Qed.

Lemma validate_entry_raises data e :
  validate_entry float_of_str data = Raise e ->
  e = OverflowError
  /\ exists k z sgn,
       In k entry_fields /\ data_get data k = PInt z
       /\ F.of_Z z = S754_infinity sgn.
Proof.
  unfold validate_entry, entry_fields.
  destruct (parse_float float_of_str (data_get data "avg_glucose")) as [va|e1] eqn:Pa;
    [|intros [= <-]; destruct (parse_float_raises _ _ Pa) as (-> & z & sgn & Hz & Hi);
      split; [reflexivity|]; exists "avg_glucose", z, sgn; simpl; auto].
  destruct (parse_float float_of_str (data_get data "glucose_sd")) as [vs|e1] eqn:Ps;
    [|intros [= <-]; destruct (parse_float_raises _ _ Ps) as (-> & z & sgn & Hz & Hi);
      split; [reflexivity|]; exists "glucose_sd", z, sgn; simpl; auto].
  destruct (parse_float float_of_str (data_get data "difficulty")) as [vd|e1] eqn:Pd;
    [|intros [= <-]; destruct (parse_float_raises _ _ Pd) as (-> & z & sgn & Hz & Hi);
      split; [reflexivity|]; exists "difficulty", z, sgn; simpl; auto].
  destruct (parse_float float_of_str (data_get data "score")) as [vsc|e1] eqn:Psc;
    [|intros [= <-]; destruct (parse_float_raises _ _ Psc) as (-> & z & sgn & Hz & Hi);
      split; [reflexivity|]; exists "score", z, sgn; simpl; auto 6].
  discriminate.
Qed.

(** What the first line of a view makes of the decoded body: a JSON object
    is kept, any other value that is false becomes the empty dict, and any
    other value that is true has no [get]. *)
Lemma request_dict_cases json :
  (exists d, json = PDict d
             /\ request_dict (get_json_or_empty json) = Ret (list_to_map d))
  \/ ((forall d, json <> PDict d) /\ py_bool json = false
      /\ request_dict (get_json_or_empty json) = Ret ∅)
  \/ ((forall d, json <> PDict d) /\ py_bool json = true
      /\ request_dict (get_json_or_empty json) = Raise AttributeError).
Proof.
  unfold get_json_or_empty.
  destruct json as [|b|z|f|s|l|d].
  7: { left. exists d. split; [reflexivity|]. destruct d; reflexivity. }
  all: right; destruct (py_bool _) eqn:Hb;
    [right|left]; (split; [discriminate|]); (split; [reflexivity|]);
    try reflexivity.
  all: simpl in Hb; try discriminate Hb.
Qed.

Lemma insert_entry_raises now a s d sc st e :
  insert_entry now a s d sc st = Raise e ->
  (e = IntegrityError
   /\ F.is_nan a || F.is_nan s || F.is_nan d || F.is_nan sc = true)
  \/ (e = OperationalError
      /\ int64_max <= Z.max (sqlite_sequence st) (max_rowid (exam_entries st))).
Proof.
  unfold insert_entry.
  destruct (F.is_nan a || F.is_nan s || F.is_nan d || F.is_nan sc) eqn:N.
  - intros [= <-]. left. auto.
  - destruct (int64_max <? _) eqn:L; [|discriminate].
    intros [= <-]. right. apply Z.ltb_lt in L. split; [reflexivity|lia].
Qed.

Variable lstsq : list (list float) -> list float -> result (float * float * float * float).
Variable x_dot : list (list float) -> float * float * float * float -> nat -> float.

(** On a dict the prediction view raises in two cases only. *)
Lemma predict_dict_raises data st e :
  predict float_of_str lstsq x_dot data st = Raise e ->
  (e = OverflowError
   /\ exists k z sgn,
        In k predict_fields /\ data_get data k = PInt z
        /\ F.of_Z z = S754_infinity sgn)
  \/ ((exists parsed, validate_predict float_of_str data = Ret (∅, parsed))
      /\ (3 <= length (fetch_entries st))%nat
      /\ lstsq (map design_row (fetch_entries st)) (map score (fetch_entries st))
         = Raise e).
Proof.
  unfold predict.
  destruct (validate_predict float_of_str data) as [[errors parsed]|e1] eqn:Hv.
  - cbn [mbind result_bind].
    destruct (dict_bool errors) eqn:Hb; [discriminate|].
    apply dict_bool_false in Hb. subst errors.
    destruct (validate_predict_accepts _ _ _ Hv)
      as (a & s & d & _ & _ & _ & _ & _ & _ & Hp).
    destruct (getitem_accepted a s d) as (Ga & Gs & Gd). rewrite <- Hp in Ga, Gs, Gd.
    unfold rows_to_dicts.
    destruct (le_lt_dec 3 (length (fetch_entries st))) as [Hlen|Hlen].
    + destruct (lstsq (map design_row (fetch_entries st))
                  (map score (fetch_entries st))) as [coeffs|e2] eqn:Hfit.
      * rewrite (predict_entries_fit _ _ _ _ _ _ _ _ Hlen Hfit Ga Gs Gd). discriminate.
      * rewrite (predict_entries_solver_raises _ _ _ _ _ Hlen Hfit).
        intros [= <-]. right. eauto.
    + destruct (fetch_entries st) as [|r rs] eqn:E.
      * rewrite predict_entries_empty. discriminate.
      * rewrite predict_entries_mean by (simpl in *; lia). discriminate.
  - cbn [mbind result_bind]. intros [= <-].
    destruct (validate_predict_raises _ _ Hv) as [-> Hk]. left. auto.
Qed.

(** The prediction route raises in three cases only: the body is JSON but
    neither an object nor a false value, so it has no [get]
    ([AttributeError]); a field of the object is an integer beyond every
    float ([OverflowError]); or the input was accepted, the history has
    three rows or more and the solver itself raised.  Missing keys, the
    division in [r2] and the lookups in [parsed] never raise. *)
Theorem predict_raises_only json st e :
  predict_request float_of_str lstsq x_dot json st = Raise e ->
  (e = AttributeError /\ py_bool json = true /\ forall d, json <> PDict d)
  \/ exists data,
       request_dict (get_json_or_empty json) = Ret data
       /\ ((e = OverflowError
            /\ exists k z sgn,
                 In k predict_fields /\ data_get data k = PInt z
                 /\ F.of_Z z = S754_infinity sgn)
           \/ ((exists parsed, validate_predict float_of_str data = Ret (∅, parsed))
               /\ (3 <= length (fetch_entries st))%nat
               /\ lstsq (map (fun r => [S754_finite false 4503599627370496 (-52);
                                        avg_glucose r; glucose_sd r; difficulty r])
                           (fetch_entries st))
                        (map (fun r => score r) (fetch_entries st))
                  = Raise e)).
Proof.
  unfold predict_request.
  destruct (request_dict_cases json)
    as [(d & -> & Hd)|[(Hnd & Hb & Hd)|(Hnd & Hb & Hd)]]; rewrite Hd;
    cbn [mbind result_bind].
  - intros H. right. eexists. split; [reflexivity|].
    apply (predict_dict_raises _ _ _ H).
  - intros H. right. eexists. split; [reflexivity|].
    apply (predict_dict_raises _ _ _ H).
  - intros [= <-]. left. auto.
Qed.

(** On a dict the record view raises in three cases only, and the database
    is then as it was. *)
Lemma add_entry_dict_raises now data st e :
  (add_entry float_of_str now data st).1 = Raise e ->
  (add_entry float_of_str now data st).2 = st
  /\ ((e = OverflowError
       /\ exists k z sgn,
            In k entry_fields /\ data_get data k = PInt z
            /\ F.of_Z z = S754_infinity sgn)
      \/ (e = IntegrityError
          /\ exists parsed a s,
               validate_entry float_of_str data = Ret (∅, parsed)
               /\ parsed !! "avg_glucose" = Some a
               /\ parsed !! "glucose_sd" = Some s
               /\ F.is_nan a || F.is_nan s = true)
      \/ (e = OperationalError
          /\ int64_max <= Z.max (sqlite_sequence st) (max_rowid (exam_entries st)))).
Proof.
  intros Hr. split.
  { destruct (add_entry_frame float_of_str now data st) as [H|[body H]];
      [exact H|]. rewrite H in Hr. discriminate. }
  revert Hr. unfold add_entry.
  destruct (validate_entry float_of_str data) as [[errors parsed]|e1] eqn:Hv.
  - destruct (dict_bool errors) eqn:Hb; [discriminate|].
    apply dict_bool_false in Hb. subst errors.
    destruct (validate_entry_accepts _ _ _ Hv)
      as (a & s & d & sc & _ & _ & _ & _ & Ba & Bs & Bd & Bsc & Hp).
    destruct (getitem_accepted_entry a s d sc) as (Ga & Gs & Gd & Gsc).
    rewrite <- Hp in Ga, Gs, Gd, Gsc. rewrite Ga, Gs, Gd, Gsc.
    cbn [mbind result_bind].
    destruct (insert_entry now a s d sc st) as [[entry_id st1]|e2] eqn:Hi.
    + destruct (insert_entry_inv _ _ _ _ _ _ _ _ Hi)
        as (Hid & _ & _ & _ & _ & _ & Hst).
      set (o := {| rowid := entry_id; created_at := now;
                   avg_glucose := real_column a; glucose_sd := real_column s;
                   difficulty := real_column d; score := real_column sc |}) in *.
      assert (Hfind : select_by_id entry_id st1 = Some o).
      { unfold select_by_id. rewrite Hst. simpl.
        apply (find_appended (exam_entries st) o).
        intros r' Hr'. apply max_rowid_ge in Hr'. simpl. lia. }
      rewrite Hfind. discriminate.
    + cbn [fst]. intros [= <-].
      destruct (insert_entry_raises _ _ _ _ _ _ _ Hi) as [[-> N]|[-> L]].
      * right. left. split; [reflexivity|].
        exists parsed, a, s.
        unfold getitem in Ga, Gs.
        destruct (parsed !! "avg_glucose"); [|discriminate].
        destruct (parsed !! "glucose_sd"); [|discriminate].
        apply Ret_inj in Ga, Gs. subst.
        repeat split; auto.
        assert (Nd : F.is_nan d = false)
          by (destruct d; try reflexivity; discriminate Bd).
        assert (Nsc : F.is_nan sc = false)
          by (destruct sc; try reflexivity; discriminate Bsc).
        rewrite Nd, Nsc, !orb_false_r in N. exact N.
      * right. right. auto.
  - cbn [fst]. intros [= <-].
    destruct (validate_entry_raises _ _ Hv) as [-> Hk]. left. auto.
Qed.

(** The record route raises in four cases only, and the database is then
    as it was: a body that is JSON but neither an object nor a false
    value ([AttributeError]); an integer beyond every float
    ([OverflowError]); an object that passed validation with a NaN as
    [avg_glucose] or [glucose_sd], stopped by [NOT NULL]
    ([IntegrityError]); the key sequence at its last value
    ([OperationalError]).  The row read back after the insert is always
    found. *)
Theorem add_entry_raises_only now json st e :
  (add_entry_request float_of_str now json st).1 = Raise e ->
  (add_entry_request float_of_str now json st).2 = st
  /\ ((e = AttributeError /\ py_bool json = true /\ forall d, json <> PDict d)
      \/ exists data,
           request_dict (get_json_or_empty json) = Ret data
           /\ ((e = OverflowError
                /\ exists k z sgn,
                     In k entry_fields /\ data_get data k = PInt z
                     /\ F.of_Z z = S754_infinity sgn)
               \/ (e = IntegrityError
                   /\ exists parsed a s,
                        validate_entry float_of_str data = Ret (∅, parsed)
                        /\ parsed !! "avg_glucose" = Some a
                        /\ parsed !! "glucose_sd" = Some s
                        /\ F.is_nan a || F.is_nan s = true)
               \/ (e = OperationalError
                   /\ int64_max
                      <= Z.max (sqlite_sequence st) (max_rowid (exam_entries st))))).
Proof.
  unfold add_entry_request.
  destruct (request_dict_cases json)
    as [(d & -> & Hd)|[(Hnd & Hb & Hd)|(Hnd & Hb & Hd)]]; rewrite Hd.
  - intros H. destruct (add_entry_dict_raises _ _ _ _ H) as [Hst Hc].
    split; [exact Hst|]. right. eexists. split; [reflexivity|exact Hc].
  - intros H. destruct (add_entry_dict_raises _ _ _ _ H) as [Hst Hc].
    split; [exact Hst|]. right. eexists. split; [reflexivity|exact Hc].
  - cbn [fst snd]. intros [= <-]. split; [reflexivity|]. left. auto.
Qed.

End Exceptions.

(** ** Missing fields *)

Section Missing.

Variable float_of_str : string -> option float.

Lemma parse_float_none : parse_float float_of_str PNone = Ret None.
Proof. reflexivity. Qed.

(** A record request that lacks one of the four fields (or carries null
    for it) does not reach the table: unless another field overflows, the
    answer is status 400, the mapping says that the field must be a
    number, and the database is as it was. *)
Theorem add_entry_missing_field now data st k :
  In k entry_fields ->
  data_get data k = PNone ->
  add_entry float_of_str now data st = (Raise OverflowError, st)
  \/ exists errors,
       add_entry float_of_str now data st
       = (Ret (PDict [("errors", str_dict errors)], 400), st)
       /\ errors !! k = Some (not_a_number k).
Proof.
  intros Hk Hnone. unfold add_entry.
  destruct (validate_entry float_of_str data) as [[errors parsed]|e] eqn:Hv.
  - right. exists errors.
    assert (He : errors !! k = Some (not_a_number k)).
    { revert Hv. unfold validate_entry.
      destruct (parse_float float_of_str (data_get data "avg_glucose")) as [va|] eqn:Pa; [|discriminate].
      destruct (parse_float float_of_str (data_get data "glucose_sd")) as [vs|] eqn:Ps; [|discriminate].
      destruct (parse_float float_of_str (data_get data "difficulty")) as [vd|] eqn:Pd; [|discriminate].
      destruct (parse_float float_of_str (data_get data "score")) as [vsc|] eqn:Psc; [|discriminate].
      intros Hv.
      destruct (validate_entry_errors float_of_str data _ _ _ _ Pa Ps Pd Psc)
        as (errors' & parsed' & Hv' & Ea & Es & Ed & Esc).
      unfold validate_entry in Hv'. rewrite Pa, Ps, Pd, Psc in Hv'.
      rewrite Hv in Hv'. apply Ret_inj in Hv'. injection Hv' as <- <-.
      unfold entry_fields in Hk. simpl in Hk.
      destruct Hk as [<-|[<-|[<-|[<-|[]]]]]; rewrite Hnone, parse_float_none in *.
      - injection Pa as <-. exact Ea.
      - injection Ps as <-. exact Es.
      - injection Pd as <-. exact Ed.
      - injection Psc as <-. exact Esc. }
    split; [|exact He].
    destruct (dict_bool errors) eqn:Hb; [reflexivity|].
    apply dict_bool_false in Hb. subst errors. rewrite lookup_empty in He. discriminate.
  - left. destruct (validate_entry_raises _ _ _ Hv) as [-> _]. reflexivity.
Qed.

(** On a dict, the same for the prediction view and its three fields. *)
Lemma predict_dict_missing_field lstsq x_dot data st k :
  In k predict_fields ->
  data_get data k = PNone ->
  predict float_of_str lstsq x_dot data st = Raise OverflowError
  \/ exists errors,
       predict float_of_str lstsq x_dot data st
       = Ret (PDict [("errors", str_dict errors)], 400)
       /\ errors !! k = Some (not_a_number k).
Proof.
  intros Hk Hnone. unfold predict.
  destruct (validate_predict float_of_str data) as [[errors parsed]|e] eqn:Hv.
  - right. exists errors.
    assert (He : errors !! k = Some (not_a_number k)).
    { revert Hv. unfold validate_predict.
      destruct (parse_float float_of_str (data_get data "avg_glucose")) as [va|] eqn:Pa; [|discriminate].
      destruct (parse_float float_of_str (data_get data "glucose_sd")) as [vs|] eqn:Ps; [|discriminate].
      destruct (parse_float float_of_str (data_get data "difficulty")) as [vd|] eqn:Pd; [|discriminate].
      intros Hv.
      destruct (validate_predict_errors float_of_str data _ _ _ Pa Ps Pd)
        as (errors' & parsed' & Hv' & Ea & Es & Ed).
      unfold validate_predict in Hv'. rewrite Pa, Ps, Pd in Hv'.
      rewrite Hv in Hv'. apply Ret_inj in Hv'. injection Hv' as <- <-.
      unfold predict_fields in Hk. simpl in Hk.
      destruct Hk as [<-|[<-|[<-|[]]]]; rewrite Hnone, parse_float_none in *.
      - injection Pa as <-. exact Ea.
      - injection Ps as <-. exact Es.
      - injection Pd as <-. exact Ed. }
    split; [|exact He]. cbn [mbind result_bind].
    destruct (dict_bool errors) eqn:Hb; [reflexivity|].
    apply dict_bool_false in Hb. subst errors. rewrite lookup_empty in He. discriminate.
  - left. destruct (validate_predict_raises _ _ _ Hv) as [-> _]. reflexivity.
Qed.

(** A prediction request whose body is a JSON object, or a false value
    (read as the empty object), and in which one of the three fields is
    missing or null: the route raises [OverflowError] because of another
    field, or answers 400 with the message that the field must be a
    number.  The history is not read and no model is fitted. *)
Theorem predict_missing_field lstsq x_dot json data st k :
  request_dict (get_json_or_empty json) = Ret data ->
  In k predict_fields ->
  data_get data k = PNone ->
  predict_request float_of_str lstsq x_dot json st = Raise OverflowError
  \/ exists errors,
       predict_request float_of_str lstsq x_dot json st
       = Ret (PDict [("errors", str_dict errors)], 400)
       /\ errors !! k = Some (not_a_number k).
Proof.
  intros Hd Hk Hnone. unfold predict_request. rewrite Hd.
  cbn [mbind result_bind].
  apply predict_dict_missing_field; assumption.
Qed.

End Missing.

(** ** The fallback branches *)

Import FloatFacts.

Lemma div_core_quotient_nonneg m1 e1 m2 e2 :
  0 <= m1 -> 0 <= m2 ->
  0 <= (SFdiv_core_binary F.prec F.emax m1 e1 m2 e2).1.1.
Proof.
  intros H1 H2. unfold SFdiv_core_binary.
  match goal with
  | |- context [Z.div_eucl ?a ?b] =>
      assert (Ha : 0 <= a);
      [|pose proof (Z_div_nonneg_nonneg a b Ha H2) as Hq; unfold Z.div in Hq;
        destruct (Z.div_eucl a b) as [q r]; exact Hq]
  end.
  destruct (e1 - e2 - _) as [|p|p]; try lia.
  rewrite Z.shiftl_mul_pow2 by lia. apply Z.mul_nonneg_nonneg; lia.
Qed.

(** Rounding to decimals keeps a number that is not below zero so. *)
Lemma round_nonneg x ndigits :
  F.nonneg x = true -> F.nonneg (F.round x ndigits) = true.
Proof.
  destruct x as [s|s| |s m e]; simpl; try (intros H; exact H).
  destruct s; [discriminate|]. intros _.
  match goal with
  | |- F.nonneg match ?n with _ => _ end = true => destruct n as [|p|p] eqn:En
  end; try reflexivity.
  pose proof (div_core_quotient_nonneg (Z.pos p) 0 (10 ^ ndigits) 0
                ltac:(lia) (Z.pow_nonneg 10 ndigits ltac:(lia))) as Hq.
  destruct (SFdiv_core_binary F.prec F.emax (Z.pos p) 0 (10 ^ ndigits) 0)
    as [[q e'] l].
  apply has_sign_nonneg, binary_round_aux_sign. exact Hq.
Qed.

Section Fallback.

Variable float_of_str : string -> option float.

(** With fewer than three observations the solver is never called: the
    outcome of a prediction request is the same whatever the solver does,
    so the fallback cannot fail with a solver error. *)
Theorem predict_fallback_ignores_solver lstsq lstsq' x_dot x_dot' data st :
  (length (fetch_entries st) < 3)%nat ->
  predict float_of_str lstsq x_dot data st
  = predict float_of_str lstsq' x_dot' data st.
Proof.
  intros Hlen. unfold predict.
  destruct (validate_predict float_of_str data) as [[errors parsed]|e];
    [|reflexivity].
  cbn [mbind result_bind]. destruct (dict_bool errors); [reflexivity|].
  unfold rows_to_dicts, predict_entries.
  apply Nat.ltb_lt in Hlen. rewrite Hlen. reflexivity.
Qed.

Variable lstsq : list (list float) -> list float -> result (float * float * float * float).
Variable x_dot : list (list float) -> float * float * float * float -> nat -> float.

(** On a database of validated observations, fewer than three, every
    accepted request is answered with a [predicted_score] that is a number
    and is not negative. *)
Theorem fallback_score_nonneg data parsed st :
  validate_predict float_of_str data = Ret (∅, parsed) ->
  store_ok st ->
  (length (fetch_entries st) < 3)%nat ->
  exists body x,
    predict float_of_str lstsq x_dot data st = Ret (body, 200)
    /\ py_path ["predicted_score"] body = Some (PFloat x)
    /\ F.is_nan x = false /\ F.ltb x F.zero = false.
Proof.
  intros Hv Hok Hlen.
  rewrite (predict_accepted _ _ _ _ _ _ Hv). unfold rows_to_dicts.
  assert (Hnn : forall x, F.nonneg x = true ->
                          F.is_nan x = false /\ F.ltb x F.zero = false).
  { intros x. destruct x as [s|s| |s m e]; try destruct s; simpl;
      try discriminate; auto. }
  destruct (fetch_entries st) as [|r rs] eqn:E.
  - rewrite predict_entries_empty. eexists _, _.
    split; [reflexivity|]. split; [reflexivity|]. apply Hnn. reflexivity.
  - rewrite <- E in *.
    rewrite predict_entries_mean by (rewrite E in *; simpl in *; lia).
    eexists _, _. split; [reflexivity|]. split; [reflexivity|].
    apply Hnn, round_nonneg, np_mean_nonneg.
    + apply Forall_map. eapply Forall_impl; [apply (fetch_entries_valid st Hok)|].
      intros r' Hr'. apply score_in_range, Hr'.
    + rewrite length_map. rewrite E in *. simpl in *.
      change (2 ^ 53) with 9007199254740992. lia.
Qed.

(** Whatever the strategy, a prediction reports as [n_training_rows] the
    number of rows in the table. *)
Theorem predict_counts_table_rows data st body :
  predict float_of_str lstsq x_dot data st = Ret (body, 200) ->
  py_path ["model"; "n_training_rows"] body
  = Some (PInt (Z.of_nat (length (exam_entries st)))).
Proof.
  intros Hp. rewrite (predict_reports_rows _ _ _ _ _ _ Hp), fetch_entries_length.
  reflexivity.
Qed.

End Fallback.

(** ** What the record route stores and shows *)

Section Recording.

Variable float_of_str : string -> option float.

(** A created observation is the request, parsed and stored: the response
    of a successful record request is the dict with the keys [id],
    [created_at], [avg_glucose], [glucose_sd], [difficulty], [score] in
    this order, holding a key one above every key used so far, the clock
    reading, and under each field's name the number that field parsed to,
    a [-0.0] in [glucose_sd] or [score] coming back as [0.0]; the table is
    the old one with that row at its end. *)
Theorem add_entry_echoes_payload now data st body st' :
  add_entry float_of_str now data st = (Ret (body, 201), st') ->
  exists a s d sc,
    parse_float float_of_str (data_get data "avg_glucose") = Ret (Some a)
    /\ parse_float float_of_str (data_get data "glucose_sd") = Ret (Some s)
    /\ parse_float float_of_str (data_get data "difficulty") = Ret (Some d)
    /\ parse_float float_of_str (data_get data "score") = Ret (Some sc)
    /\ body
       = PDict [("id", PInt (Z.max (sqlite_sequence st)
                                   (max_rowid (exam_entries st)) + 1));
                ("created_at", PStr now);
                ("avg_glucose", PFloat a);
                ("glucose_sd",
                  PFloat match s with S754_zero _ => S754_zero false | _ => s end);
                ("difficulty", PFloat d);
                ("score",
                  PFloat match sc with S754_zero _ => S754_zero false | _ => sc end)]
    /\ exam_entries st'
       = (exam_entries st ++
          [{| rowid := Z.max (sqlite_sequence st) (max_rowid (exam_entries st)) + 1;
              created_at := now;
              avg_glucose := a;
              glucose_sd := match s with S754_zero _ => S754_zero false | _ => s end;
              difficulty := d;
              score := match sc with S754_zero _ => S754_zero false | _ => sc end
           |}])%list
    /\ Forall (fun r => rowid r < Z.max (sqlite_sequence st)
                                      (max_rowid (exam_entries st)) + 1)
         (exam_entries st).
Proof.
  unfold add_entry.
  destruct (validate_entry float_of_str data) as [[errors parsed]|e] eqn:Hv;
    [|discriminate].
  destruct (dict_bool errors) eqn:Hb; [discriminate|].
  apply dict_bool_false in Hb. subst errors.
  destruct (validate_entry_accepts _ _ _ Hv)
    as (a & s & d & sc & Pa & Ps & Pd & Psc & Ba & _ & Bd & _ & ->).
  destruct (getitem_accepted_entry a s d sc) as (Ga & Gs & Gd & Gsc).
  rewrite Ga, Gs, Gd, Gsc. cbn [mbind result_bind].
  destruct (insert_entry now a s d sc st) as [[entry_id st1]|e] eqn:Hi;
    [|discriminate].
  destruct (insert_entry_inv _ _ _ _ _ _ _ _ Hi) as (Hid & _ & _ & _ & _ & _ & Hst).
  rewrite (accepted_avg_glucose_stored a Ba) in Hst.
  rewrite (accepted_difficulty_stored d Bd) in Hst.
  set (o := {| rowid := entry_id; created_at := now; avg_glucose := a;
               glucose_sd := real_column s; difficulty := d;
               score := real_column sc |}) in *.
  assert (Hlt : forall r', In r' (exam_entries st) -> rowid r' < rowid o).
  { intros r' Hr'. apply max_rowid_ge in Hr'. simpl. lia. }
  assert (Hfind : select_by_id entry_id st1 = Some o).
  { unfold select_by_id. rewrite Hst. simpl.
    apply (find_appended (exam_entries st) o Hlt). }
  rewrite Hfind. intros H. injection H as <- <-.
  exists a, s, d, sc. rewrite <- Hid.
  split; [exact Pa|]. split; [exact Ps|]. split; [exact Pd|]. split; [exact Psc|].
  split; [reflexivity|]. split.
  - rewrite Hst. reflexivity.
  - apply Forall_forall. intros r' Hr'. apply (Hlt r'). apply list_elem_of_In, Hr'.
Qed.

(** Read after write: once a record request has been answered with 201,
    the list route shows the returned entry, every entry it showed before,
    and exactly one entry more. *)
Theorem get_entries_lists_added now data st body st' :
  add_entry float_of_str now data st = (Ret (body, 201), st') ->
  exists before after,
    get_entries st = (PDict [("entries", PList before)], 200)
    /\ get_entries st' = (PDict [("entries", PList after)], 200)
    /\ In body after
    /\ (forall b, In b before -> In b after)
    /\ length after = S (length before).
Proof.
  intros H.
  destruct (add_entry_created _ _ _ _ _ _ H)
    as (a & s & d & sc & _ & _ & _ & _ & _ & _ & _ & Hb & Hst).
  set (o := {| rowid := Z.max (sqlite_sequence st) (max_rowid (exam_entries st)) + 1;
               created_at := now; avg_glucose := a; glucose_sd := s;
               difficulty := d; score := sc |}) in *.
  assert (Hrows : exam_entries st' = (exam_entries st ++ [o])%list)
    by (rewrite Hst; reflexivity).
  unfold get_entries, rows_to_dicts. eexists _, _.
  split; [reflexivity|]. split; [reflexivity|].
  assert (Hin : forall r, In r (exam_entries st') -> In r (fetch_entries st')).
  { intros r Hr. eapply Permutation_in; [symmetry; apply fetch_entries_perm|exact Hr]. }
  split; [|split].
  - rewrite Hb. apply in_map, Hin. rewrite Hrows. apply in_or_app. right. simpl. auto.
  - intros b Hbefore. apply in_map_iff in Hbefore as (r & <- & Hr).
    apply in_map, Hin. rewrite Hrows. apply in_or_app. left.
    eapply Permutation_in; [apply fetch_entries_perm|exact Hr].
  - rewrite !length_map, !fetch_entries_length, Hrows, length_app. simpl. lia.
Qed.

(** *** Databases reached from a fresh one *)

(** Only observations within their ranges are ever stored: in every
    reachable database each row has [avg_glucose > 0], [glucose_sd >= 0],
    [1 <= difficulty <= 10] and [0 <= score <= 100], hence no NaN. *)
Theorem reachable_rows_valid st :
  reachable float_of_str st -> store_ok st.
Proof.
  induction 1 as [|now data st Hr IH].
  - constructor.
  - apply add_entry_store_ok, IH.
Qed.

Lemma max_rowid_le rows n :
  0 <= n -> (forall r, In r rows -> rowid r <= n) -> max_rowid rows <= n.
Proof.
  intros Hn. induction rows as [|h t IH]; simpl; intros H; [lia|].
  apply Z.max_lub; [apply H; auto|apply IH; auto].
Qed.

(** Keys are handed out in order and never reused: in every reachable
    database the rows, in insertion order, carry the keys 1, 2, ..., n,
    and the key sequence stands at n. *)
Theorem reachable_ids_consecutive st :
  reachable float_of_str st ->
  map rowid (exam_entries st)
  = map Z.of_nat (seq 1 (length (exam_entries st)))
  /\ sqlite_sequence st = Z.of_nat (length (exam_entries st)).
Proof.
  induction 1 as [|now data st Hr [IHids IHseq]].
  - split; reflexivity.
  - destruct (add_entry_frame float_of_str now data st) as [->|[body Hb]];
      [split; assumption|].
    destruct (add_entry float_of_str now data st) as [r st'] eqn:E.
    cbn [fst snd] in *. subst r.
    destruct (add_entry_created _ _ _ _ _ _ E)
      as (a & s & d & sc & _ & _ & _ & _ & _ & _ & _ & _ & ->).
    cbn [exam_entries sqlite_sequence].
    assert (Hmax : max_rowid (exam_entries st) <= Z.of_nat (length (exam_entries st))).
    { apply max_rowid_le; [lia|]. intros r Hr'.
      assert (Hin : In (rowid r) (map rowid (exam_entries st))) by (apply in_map, Hr').
      rewrite IHids in Hin. apply in_map_iff in Hin as (i & <- & Hi).
      apply in_seq in Hi. lia. }
    assert (Hnew : Z.max (sqlite_sequence st) (max_rowid (exam_entries st)) + 1
                   = Z.of_nat (S (length (exam_entries st)))) by lia.
    rewrite Hnew, length_app, map_app, IHids. simpl length.
    rewrite Nat.add_1_r. split; [|reflexivity].
    rewrite seq_S, map_app. reflexivity.
Qed.

End Recording.

(** ** What a request cannot influence *)

Section Independence.

Variable float_of_str : string -> option float.

(** The table is append-only: whatever the request, the rows after a
    record request are the rows before it followed by at most one new row,
    and there is a new row exactly when the answer is a 201. *)
Theorem add_entry_append_only now data st :
  exists added,
    exam_entries (add_entry float_of_str now data st).2
    = (exam_entries st ++ added)%list
    /\ (((exists body, (add_entry float_of_str now data st).1 = Ret (body, 201))
         /\ length added = 1%nat)
        \/ ((forall body, (add_entry float_of_str now data st).1 <> Ret (body, 201))
            /\ added = []
            /\ (add_entry float_of_str now data st).2 = st)).
Proof.
  destruct (add_entry float_of_str now data st) as [r st'] eqn:E.
  destruct r as [[body status]|e].
  - destruct (decide (status = 201)) as [->|Hne].
    + destruct (add_entry_created _ _ _ _ _ _ E)
        as (a & s & d & sc & _ & _ & _ & _ & _ & _ & _ & _ & ->).
      eexists. cbn [fst snd exam_entries]. split; [reflexivity|].
      left. split; [eauto|reflexivity].
    + exists []. cbn [fst snd].
      destruct (add_entry_frame float_of_str now data st) as [H|[b H]];
        rewrite E in H; cbn [fst snd] in H.
      * subst st'. split; [rewrite app_nil_r; reflexivity|].
        right. repeat split. intros b [= _ Hs]. contradiction.
      * injection H as _ Hs. contradiction.
  - exists []. cbn [fst snd].
    destruct (add_entry_frame float_of_str now data st) as [H|[b H]];
      rewrite E in H; cbn [fst snd] in H; [|discriminate].
    subst st'. split; [rewrite app_nil_r; reflexivity|].
    right. repeat split. discriminate.
Qed.

Variable lstsq : list (list float) -> list float -> result (float * float * float * float).
Variable x_dot : list (list float) -> float * float * float * float -> nat -> float.

(** A prediction reads the body through its three fields only: two bodies
    that agree on [avg_glucose], [glucose_sd] and [difficulty] get the same
    outcome, whatever else they carry (a [score], say). *)
Theorem predict_ignores_other_keys data data' st :
  (forall k, In k predict_fields -> data !! k = data' !! k) ->
  predict float_of_str lstsq x_dot data st = predict float_of_str lstsq x_dot data' st.
Proof.
  intros H. unfold predict, validate_predict, data_get.
  rewrite (H "avg_glucose"), (H "glucose_sd"), (H "difficulty")
    by (unfold predict_fields; simpl; tauto).
  reflexivity.
Qed.

(** A prediction reads the history through its four numeric columns, in
    snapshot order: keys and creation stamps have no other influence.  Two
    databases whose snapshots list the same columns get the same outcome. *)
Theorem predict_reads_columns_only data st st' :
  map columns (fetch_entries st) = map columns (fetch_entries st') ->
  predict float_of_str lstsq x_dot data st = predict float_of_str lstsq x_dot data st'.
Proof.
  intros H. unfold predict.
  destruct (validate_predict float_of_str data) as [[errors parsed]|e];
    [|reflexivity].
  cbn [mbind result_bind]. destruct (dict_bool errors); [reflexivity|].
  unfold rows_to_dicts.
  assert (Hlen : length (fetch_entries st) = length (fetch_entries st'))
    by (rewrite <- (length_map columns), H, length_map; reflexivity).
  assert (Hscore : map score (fetch_entries st) = map score (fetch_entries st')).
  { change score with (fun r => snd (columns r)).
    rewrite <- !(map_map columns snd), H. reflexivity. }
  assert (Hdesign : map design_row (fetch_entries st)
                    = map design_row (fetch_entries st')).
  { change design_row
      with (fun r => (fun c : float * float * float * float =>
                        [F.one; c.1.1.1; c.1.1.2; c.1.2]) (columns r)).
    rewrite <- !(map_map columns
                   (fun c : float * float * float * float =>
                      [F.one; c.1.1.1; c.1.1.2; c.1.2])), H.
    reflexivity. }
  unfold predict_entries. rewrite Hlen, Hscore, Hdesign.
  destruct (fetch_entries st) as [|r rs], (fetch_entries st') as [|r' rs'];
    try discriminate Hlen; reflexivity.
Qed.

End Independence.

(** * Response shapes, listing order, and the two validators *)

Section Shapes.

Variable float_of_str : string -> option float.
Variable lstsq : list (list float) -> list float -> result (float * float * float * float).
Variable x_dot : list (list float) -> float * float * float * float -> nat -> float.

(** Every response of the prediction route is one of two shapes. Either it
    is a 400 whose body is the non-empty error mapping of the validator;
    or it is a 200 whose body has the keys [predicted_score], [model] and
    [notes] in this order, the model carrying its tag, four numeric
    coefficients, the number of rows in the table and an [r2] that is null
    or a number, with at most one note, and no note exactly when the table
    has three rows or more. *)
Theorem predict_response_shape data st body code :
  predict float_of_str lstsq x_dot data st = Ret (body, code) ->
  (code = 400
   /\ exists errors parsed,
        validate_predict float_of_str data = Ret (errors, parsed)
        /\ errors <> ∅
        /\ body = PDict [("errors", str_dict errors)])
  \/ (code = 200
      /\ exists x c0 c1 c2 c3 r2 notes,
           body
           = PDict [("predicted_score", PFloat x);
                    ("model",
                      PDict [("type", PStr "multivariate_linear_regression");
                             ("coefficients",
                               PDict [("intercept", PFloat c0);
                                      ("avg_glucose", PFloat c1);
                                      ("glucose_sd", PFloat c2);
                                      ("difficulty", PFloat c3)]);
                             ("n_training_rows",
                               PInt (Z.of_nat (length (exam_entries st))));
                             ("r2", r2)]);
                    ("notes", PList (map PStr notes))]
           /\ (r2 = PNone \/ exists r, r2 = PFloat r)
           /\ (length notes <= 1)%nat
           /\ (notes = [] <-> (3 <= length (exam_entries st))%nat)).
Proof.
  unfold predict.
  destruct (validate_predict float_of_str data) as [[errors parsed]|e] eqn:Hv;
    [|discriminate].
  cbn [mbind result_bind].
  destruct (dict_bool errors) eqn:Hb.
  - intros H. apply Ret_inj in H. injection H as <- <-. left.
    split; [reflexivity|]. exists errors, parsed.
    split; [reflexivity|]. split; [|reflexivity].
    intros ->. vm_compute in Hb. discriminate Hb.
  - unfold rows_to_dicts, predict_entries.
    rewrite <- (fetch_entries_length st).
    destruct (length (fetch_entries st) <? 3)%nat eqn:Hlen.
    + apply Nat.ltb_lt in Hlen.
      destruct (fetch_entries st) as [|r rows] eqn:Hrows;
        intros H; apply Ret_inj in H; injection H as <- <-; right;
        (split; [reflexivity|]);
        [eexists _, _, _, _, _, _, [note_no_data]
        |eexists _, _, _, _, _, _, [note_too_few]];
        (split; [reflexivity|]);
        (split; [left; reflexivity|]); (split; [simpl; lia|]);
        (split; [discriminate|intros H; simpl in *; lia]).
    + apply Nat.ltb_ge in Hlen.
      destruct (lstsq _ _) as [[[[c0 c1] c2] c3]|e]; [|discriminate].
      destruct (getitem parsed "avg_glucose") as [a|e]; [|discriminate].
      destruct (getitem parsed "glucose_sd") as [s|e]; [|discriminate].
      destruct (getitem parsed "difficulty") as [d|e]; [|discriminate].
      cbn [mbind result_bind]. rewrite r_squared_returns.
      intros H. apply Ret_inj in H. injection H as <- <-. right.
      split; [reflexivity|].
      eexists _, c0, c1, c2, c3, _, []. split; [reflexivity|].
      split; [|split; [simpl; lia|split; [intros _; exact Hlen|reflexivity]]].
      destruct (F.ltb F.zero _); [right; eexists; reflexivity|left; reflexivity].
Qed.

End Shapes.

Section Listing.

Variable float_of_str : string -> option float.

(** The list route always answers 200 with the rows of the table, each
    exactly once, in ascending order of the stamp text and, among equal
    stamps, of the key. *)
Theorem get_entries_ordered st :
  exists rows,
    get_entries st = (PDict [("entries", PList (map dict_of_row rows))], 200)
    /\ Permutation rows (exam_entries st)
    /\ StronglySorted
         (fun r1 r2 =>
            String.compare (created_at r1) (created_at r2) = Lt
            \/ (created_at r1 = created_at r2 /\ rowid r1 <= rowid r2))
         rows.
Proof.
  exists (fetch_entries st). split; [reflexivity|].
  split; [apply fetch_entries_perm|].
  generalize (fetch_entries_sorted st).
  induction 1 as [|r rows Hs IH Hall]; constructor; [exact IH|].
  eapply Forall_impl; [exact Hall|].
  intros r' Hle. unfold row_le, row_leb in Hle.
  destruct (String.compare (created_at r) (created_at r')) eqn:Hc.
  - right. split; [apply String_as_OT.cmp_eq, Hc|lia].
  - left. reflexivity.
  - discriminate Hle.
Qed.

(** Round trip on a fresh database: when the first record request is
    answered with 201, its body has key 1 and the number its [avg_glucose]
    field parsed to, and the list route then shows exactly that body. *)
Theorem fresh_store_roundtrip now data body st' :
  add_entry float_of_str now data empty_db = (Ret (body, 201), st') ->
  get_entries st' = (PDict [("entries", PList [body])], 200)
  /\ py_path ["id"] body = Some (PInt 1)
  /\ py_path ["created_at"] body = Some (PStr now)
  /\ exists a,
       parse_float float_of_str (data_get data "avg_glucose") = Ret (Some a)
       /\ py_path ["avg_glucose"] body = Some (PFloat a).
Proof.
  unfold add_entry.
  destruct (validate_entry float_of_str data) as [[errors parsed]|e] eqn:Hv;
    [|discriminate].
  destruct (dict_bool errors) eqn:Hb; [discriminate|].
  apply dict_bool_false in Hb. subst errors.
  destruct (validate_entry_accepts _ _ _ Hv)
    as (a & s & d & sc & Pa & _ & _ & _ & Ba & _ & _ & _ & ->).
  destruct (getitem_accepted_entry a s d sc) as (Ga & Gs & Gd & Gsc).
  rewrite Ga, Gs, Gd, Gsc. cbn [mbind result_bind].
  destruct (insert_entry now a s d sc empty_db) as [[entry_id st1]|e] eqn:Hi;
    [|discriminate].
  destruct (insert_entry_inv _ _ _ _ _ _ _ _ Hi) as (Hid & _ & _ & _ & _ & _ & Hst1).
  rewrite (accepted_avg_glucose_stored a Ba) in Hst1.
  subst st1 entry_id. simpl.
  intros H. injection H as <- <-.
  split; [reflexivity|]. split; [reflexivity|]. split; [reflexivity|].
  exists a. split; [exact Pa|reflexivity].
Qed.

(** The record validator extends the query validator: what it returns,
    with the key [score] removed from both mappings, is what the query
    validator returns for the same body. *)
Theorem validate_entry_extends_predict data errors parsed :
  validate_entry float_of_str data = Ret (errors, parsed) ->
  validate_predict float_of_str data
  = Ret (delete "score" errors, delete "score" parsed).
Proof.
  unfold validate_entry, validate_predict.
  destruct (parse_float float_of_str (data_get data "avg_glucose")) as [a|e];
    [|discriminate].
  destruct (parse_float float_of_str (data_get data "glucose_sd")) as [s|e];
    [|discriminate].
  destruct (parse_float float_of_str (data_get data "difficulty")) as [d|e];
    [|discriminate].
  destruct (parse_float float_of_str (data_get data "score")) as [sc|e];
    [|discriminate].
  cbn [mbind mret result_bind result_ret].
  intros H. apply Ret_inj in H.
  assert (He : errors = (check_field "score" sc bad_score
                 "Score must be a number." "Score must be between 0 and 100."
                 (check_field "difficulty" d bad_difficulty
                    "Difficulty must be a number."
                    "Difficulty must be between 1 and 10."
                    (check_field "glucose_sd" s bad_glucose_sd
                       "Glucose SD must be a number." "Glucose SD must be >= 0."
                       (check_field "avg_glucose" a bad_avg_glucose
                          "Average glucose must be a number."
                          "Average glucose must be > 0." (∅, ∅))))).1)
    by (rewrite H; reflexivity).
  assert (Hp : parsed = (check_field "score" sc bad_score
                 "Score must be a number." "Score must be between 0 and 100."
                 (check_field "difficulty" d bad_difficulty
                    "Difficulty must be a number."
                    "Difficulty must be between 1 and 10."
                    (check_field "glucose_sd" s bad_glucose_sd
                       "Glucose SD must be a number." "Glucose SD must be >= 0."
                       (check_field "avg_glucose" a bad_avg_glucose
                          "Average glucose must be a number."
                          "Average glucose must be > 0." (∅, ∅))))).2)
    by (rewrite H; reflexivity).
  clear H. subst errors parsed. f_equal.
  unfold check_field.
  destruct a as [a|]; [destruct (bad_avg_glucose a)|];
    (destruct s as [s|]; [destruct (bad_glucose_sd s)|]);
    (destruct d as [d|]; [destruct (bad_difficulty d)|]);
    (destruct sc as [sc|]; [destruct (bad_score sc)|]);
    cbn [fst snd]; f_equal; apply map_eq; intros k;
    destruct (decide (k = "score")) as [->|Hk];
    simplify_map_eq; reflexivity.
Qed.

End Listing.

(** ** The theorems at the sample data *)


Lemma predict_mean_fallback_witness :
  validate_predict Sample.float_of_str Sample.q1 = Ret (∅, Sample.parsed_q1)
  /\ map score (fetch_entries Sample.db_mean) = [F.of_Z 70; F.dec 90125 3]
  /\ Forall stored_score (map score (fetch_entries Sample.db_mean))
  /\ F.div (F.add (F.of_Z 70) (F.dec 90125 3)) (F.of_Z 2) = F.dec 800625 4
  /\ exists body,
       predict Sample.float_of_str (Sample.solver Sample.c1) Sample.dot
         Sample.q1 Sample.db_mean = Ret (body, 200)
       /\ py_path ["predicted_score"] body
          = Some (PFloat (S754_finite false 5633721658863780 (-46)))
       /\ F.dec 8006 2 = S754_finite false 5633721658863780 (-46)
       /\ forall data' parsed',
            validate_predict Sample.float_of_str data' = Ret (∅, parsed') ->
            predict Sample.float_of_str (Sample.solver Sample.c1) Sample.dot
              data' Sample.db_mean = Ret (body, 200).
Proof.
  assert (Hv : validate_predict Sample.float_of_str Sample.q1
               = Ret (∅, Sample.parsed_q1)) by compute_done.
  assert (Hs : map score (fetch_entries Sample.db_mean)
               = [F.of_Z 70; F.dec 90125 3]) by (vm_compute; reflexivity).
  assert (Hall : Forall stored_score (map score (fetch_entries Sample.db_mean))).
  { rewrite Hs. repeat constructor; try discriminate; vm_compute; reflexivity. }
  split; [exact Hv|]. split; [exact Hs|]. split; [exact Hall|].
  split; [vm_compute; reflexivity|].
  destruct (predict_mean_fallback Sample.float_of_str (Sample.solver Sample.c1)
              Sample.dot Sample.q1 Sample.parsed_q1 Sample.db_mean Hv
              ltac:(right; vm_compute; reflexivity) Hall)
    as (mean & n & body & Hmean & Hn & Hrange & Hp & Hscore & Hany).
  exists body. split; [exact Hp|].
  split; [|split; [vm_compute; reflexivity|exact Hany]].
  rewrite Hs in Hmean.
  assert (Hm : mean = S754_finite false 5633897580724224 (-46))
    by (rewrite Hmean; vm_compute; reflexivity).
  rewrite Hm in Hn. unfold hundredths in Hn.
  change (Z.max (-46) 0) with 0 in Hn. change (Z.max (- -46) 0) with 46 in Hn.
  change (2 ^ 0) with 1 in Hn. change (2 ^ 46) with 70368744177664 in Hn.
  destruct Hn as [Hn _].
  assert (Hn' : n = 8006) by lia.
  rewrite Hscore, Hn'. vm_compute. reflexivity.
Defined.

Lemma predict_fit_no_notes_witness :
  validate_predict Sample.float_of_str Sample.q1 = Ret (∅, Sample.parsed_q1)
  /\ (3 <= length (fetch_entries Sample.db3))%nat
  /\ (forall body,
        predict Sample.float_of_str (Sample.solver Sample.c1) Sample.dot Sample.q1 Sample.db3
        = Ret (body, 200) ->
        py_path ["notes"] body = Some (PList []))
  /\ (forall coeffs,
        Sample.solver Sample.c1 (map design_row (fetch_entries Sample.db3))
          (map score (fetch_entries Sample.db3)) = Ret coeffs ->
        exists body,
          predict Sample.float_of_str (Sample.solver Sample.c1) Sample.dot Sample.q1 Sample.db3
          = Ret (body, 200)).
Proof.
  split; [compute_done|]. split; [vm_compute; lia|].
  apply (predict_fit_no_notes Sample.float_of_str (Sample.solver Sample.c1)
           Sample.dot Sample.q1 Sample.parsed_q1 Sample.db3).
  - compute_done.
  - vm_compute; lia.
Defined.

Lemma predict_three_rows_fitted_witness :
  validate_predict Sample.float_of_str Sample.q1 = Ret (∅, Sample.parsed_q1)
  /\ map columns (fetch_entries Sample.db3)
     = [(F.of_Z 100, F.of_Z 10, F.of_Z 3, F.of_Z 70);
        (F.of_Z 150, F.of_Z 30, F.of_Z 8, F.of_Z 90);
        (F.of_Z 120, F.of_Z 15, F.of_Z 5, F.of_Z 80)]
  /\ exists body,
       predict Sample.float_of_str (Sample.solver Sample.c1) Sample.dot
         Sample.q1 Sample.db3 = Ret (body, 200)
       /\ py_path ["model"; "type"] body = Some (PStr "multivariate_linear_regression")
       /\ py_path ["notes"] body = Some (PList [])
       /\ py_path ["model"; "coefficients"] body
          = Some (PDict [("intercept", PFloat (F.of_Z 50));
                         ("avg_glucose", PFloat (F.dec 25 2));
                         ("glucose_sd", PFloat (S754_zero false));
                         ("difficulty", PFloat (S754_zero false))]).
Proof.
  split; [compute_done|]. split; [vm_compute; reflexivity|].
  assert (Hrows : exists r1 r2 r3, fetch_entries Sample.db3 = [r1; r2; r3])
    by (eexists _, _, _; vm_compute; reflexivity).
  destruct Hrows as (r1 & r2 & r3 & Hrows).
  destruct (predict_three_rows_fitted Sample.float_of_str (Sample.solver Sample.c1)
              Sample.dot Sample.q1 Sample.parsed_q1 Sample.db3 r1 r2 r3)
    as [Hall Hret].
  - compute_done.
  - exact Hrows.
  - destruct (Hret Sample.c1 eq_refl) as [body Hbody].
    exists body. split; [exact Hbody|].
    destruct (Hall body Hbody) as (Ht & _ & Hnotes & c0 & c1 & c2 & c3 & Hc & Hs).
    split; [exact Ht|]. split; [exact Hnotes|].
    rewrite Hs. unfold Sample.solver, Sample.c1 in Hc.
    injection Hc as <- <- <- <-. reflexivity.
Defined.

Lemma add_entry_rejected_unchanged_witness :
  exists errors parsed,
    validate_entry Sample.float_of_str Sample.bad_entry = Ret (errors, parsed)
    /\ errors !! "score" = Some "Score must be between 0 and 100."
    /\ add_entry Sample.float_of_str Sample.stamp' Sample.bad_entry Sample.db2
       = (Ret (PDict [("errors", str_dict errors)], 400), Sample.db2).
Proof.
  exists (<["score" := "Score must be between 0 and 100."]> ∅).
  exists (<["difficulty" := F.of_Z 3]>
            (<["glucose_sd" := F.of_Z 10]> (<["avg_glucose" := F.of_Z 100]> ∅))).
  split; [compute_done|]. split; [reflexivity|].
  apply (add_entry_rejected_unchanged Sample.float_of_str Sample.stamp'
           Sample.bad_entry Sample.db2
           (<["score" := "Score must be between 0 and 100."]> ∅)
           (<["difficulty" := F.of_Z 3]>
              (<["glucose_sd" := F.of_Z 10]> (<["avg_glucose" := F.of_Z 100]> ∅)))).
  - compute_done.
  - apply insert_non_empty.
Defined.

Lemma snapshot_append_order_witness :
  exists o1 o2,
    add_entry Sample.float_of_str Sample.stamp Sample.e1 empty_db
    = (Ret (dict_of_row o1, 201), Sample.db1)
    /\ add_entry Sample.float_of_str Sample.stamp Sample.e2 Sample.db1
       = (Ret (dict_of_row o2, 201), Sample.db2)
    /\ String.leb Sample.stamp Sample.stamp = true
    /\ created_at o1 = created_at o2
    /\ rowid o1 < rowid o2
    /\ StronglySorted row_le (fetch_entries Sample.db2)
    /\ (exists l1 l2 l3, fetch_entries Sample.db2 = (l1 ++ o1 :: l2 ++ o2 :: l3)%list)
    /\ forall data body,
         predict Sample.float_of_str (Sample.solver Sample.c1) Sample.dot data Sample.db2
         = Ret (body, 200) ->
         py_path ["model"; "n_training_rows"] body = Some (PInt 2).
Proof.
  destruct (snapshot_append_order Sample.float_of_str (Sample.solver Sample.c1)
              Sample.dot
              Sample.stamp Sample.stamp Sample.e1 Sample.e2
              empty_db Sample.db1 Sample.db2
              (dict_of_row {| rowid := 1; created_at := Sample.stamp;
                              avg_glucose := F.of_Z 100; glucose_sd := F.of_Z 10;
                              difficulty := F.of_Z 3; score := F.of_Z 70 |})
              (dict_of_row {| rowid := 2; created_at := Sample.stamp;
                              avg_glucose := F.of_Z 150; glucose_sd := F.of_Z 30;
                              difficulty := F.of_Z 8; score := F.of_Z 90 |}))
    as (o1 & o2 & Hb1 & Hb2 & Ht1 & Ht2 & Hid & Hsorted & _ & Hprec & Hcount).
  - vm_compute; reflexivity.
  - vm_compute; reflexivity.
  - vm_compute; reflexivity.
  - exists o1, o2. rewrite <- Hb1, <- Hb2.
    split; [vm_compute; reflexivity|]. split; [vm_compute; reflexivity|].
    split; [vm_compute; reflexivity|]. split; [congruence|].
    split; [exact Hid|]. split; [exact Hsorted|]. split; [exact Hprec|].
    intros data body Hp. rewrite (Hcount data body Hp). reflexivity.
Defined.

Lemma predict_r2_witness :
  validate_predict Sample.float_of_str Sample.q1 = Ret (∅, Sample.parsed_q1)
  /\ store_ok Sample.db3
  /\ (3 <= length (fetch_entries Sample.db3))%nat
  /\ Z.of_nat (length (fetch_entries Sample.db3)) < 2 ^ 53
  /\ exists body,
       predict Sample.float_of_str (Sample.solver Sample.c1) Sample.dot Sample.q1 Sample.db3
       = Ret (body, 200)
       /\ py_path ["model"; "r2"] body = Some (PFloat (F.dec 8438 4)).
Proof.
  assert (Hok : store_ok Sample.db3).
  { unfold Sample.db3, Sample.db2, Sample.db1, Sample.record.
    repeat apply add_entry_store_ok. constructor. }
  split; [compute_done|]. split; [exact Hok|].
  split; [vm_compute; lia|]. split; [vm_compute; reflexivity|].
  destruct (predict_r2 Sample.float_of_str (Sample.solver Sample.c1)
              Sample.dot Sample.q1 Sample.parsed_q1 Sample.db3 Sample.c1)
    as (body & Hbody & Hr2).
  - compute_done.
  - exact Hok.
  - vm_compute; lia.
  - vm_compute; reflexivity.
  - reflexivity.
  - exists body. split; [exact Hbody|]. rewrite Hr2.
    vm_compute. reflexivity.
Defined.

(** ** The further properties at the sample data *)

Lemma validate_entry_partition_witness :
  validate_entry Sample.float_of_str Sample.bad_entry
  = Ret (Sample.bad_entry_errors, Sample.bad_entry_parsed)
  /\ forall k,
       (is_Some (Sample.bad_entry_errors !! k) \/ is_Some (Sample.bad_entry_parsed !! k)
        <-> In k entry_fields)
       /\ ~ (is_Some (Sample.bad_entry_errors !! k)
             /\ is_Some (Sample.bad_entry_parsed !! k))
       /\ forall x, Sample.bad_entry_parsed !! k = Some x ->
            parse_float Sample.float_of_str (data_get Sample.bad_entry k) = Ret (Some x)
            /\ out_of_range k x = false.
Proof.
  split; [compute_done|].
  apply (validate_entry_partition Sample.float_of_str Sample.bad_entry
           Sample.bad_entry_errors Sample.bad_entry_parsed).
  compute_done.
Defined.

Lemma validate_predict_partition_witness :
  validate_predict Sample.float_of_str Sample.q1 = Ret (∅, Sample.parsed_q1)
  /\ forall k,
       (is_Some ((∅ : gmap string string) !! k) \/ is_Some (Sample.parsed_q1 !! k)
        <-> In k predict_fields)
       /\ ~ (is_Some ((∅ : gmap string string) !! k) /\ is_Some (Sample.parsed_q1 !! k))
       /\ forall x, Sample.parsed_q1 !! k = Some x ->
            parse_float Sample.float_of_str (data_get Sample.q1 k) = Ret (Some x)
            /\ out_of_range k x = false.
Proof.
  split; [compute_done|].
  apply (validate_predict_partition Sample.float_of_str Sample.q1 ∅ Sample.parsed_q1).
  compute_done.
Defined.

Lemma predict_raises_only_witness :
  predict_request Sample.float_of_str (Sample.solver Sample.c1) Sample.dot
    (PList [PInt 1; PInt 2]) Sample.db3
  = Raise AttributeError
  /\ py_bool (PList [PInt 1; PInt 2]) = true.
Proof.
  assert (H : predict_request Sample.float_of_str (Sample.solver Sample.c1)
                Sample.dot (PList [PInt 1; PInt 2]) Sample.db3
              = Raise AttributeError)
    by reflexivity.
  split; [exact H|].
  destruct (predict_raises_only Sample.float_of_str (Sample.solver Sample.c1)
              Sample.dot (PList [PInt 1; PInt 2]) Sample.db3 AttributeError H)
    as [(_ & Hb & _)|(data & Hd & _)]; [exact Hb|discriminate Hd].
Defined.

Lemma add_entry_raises_only_witness :
  (add_entry_request Sample.float_of_str Sample.stamp (PStr "abc") Sample.db2).1
  = Raise AttributeError
  /\ (add_entry_request Sample.float_of_str Sample.stamp (PStr "abc") Sample.db2).2
     = Sample.db2.
Proof.
  assert (H : (add_entry_request Sample.float_of_str Sample.stamp (PStr "abc")
                 Sample.db2).1 = Raise AttributeError)
    by reflexivity.
  split; [exact H|].
  apply (add_entry_raises_only Sample.float_of_str Sample.stamp (PStr "abc")
           Sample.db2 AttributeError H).
Defined.

Lemma add_entry_missing_field_witness :
  In "score" entry_fields
  /\ data_get Sample.q1 "score" = PNone
  /\ exists errors,
       add_entry Sample.float_of_str Sample.stamp Sample.q1 Sample.db2
       = (Ret (PDict [("errors", str_dict errors)], 400), Sample.db2)
       /\ errors !! "score" = Some "Score must be a number.".
Proof.
  assert (Hin : In "score" entry_fields) by (unfold entry_fields; simpl; tauto).
  assert (Hnone : data_get Sample.q1 "score" = PNone) by (vm_compute; reflexivity).
  split; [exact Hin|]. split; [exact Hnone|].
  destruct (add_entry_missing_field Sample.float_of_str Sample.stamp Sample.q1
              Sample.db2 "score" Hin Hnone) as [H|H]; [|exact H].
  exfalso.
  assert (Hv : validate_entry Sample.float_of_str Sample.q1
               = Ret (<["score" := "Score must be a number."]> ∅, Sample.parsed_q1))
    by compute_done.
  unfold add_entry in H. rewrite Hv in H.
  rewrite dict_bool_insert in H. discriminate H.
Defined.

Lemma predict_missing_field_witness :
  request_dict (get_json_or_empty (PDict [("avg_glucose", PInt 130)]))
  = Ret (<["avg_glucose" := PInt 130]> ∅)
  /\ In "difficulty" predict_fields
  /\ data_get (<["avg_glucose" := PInt 130]> ∅ : gmap string pyval) "difficulty"
     = PNone
  /\ exists errors,
       predict_request Sample.float_of_str Sample.failing_solver Sample.dot
         (PDict [("avg_glucose", PInt 130)]) Sample.db3
       = Ret (PDict [("errors", str_dict errors)], 400)
       /\ errors !! "difficulty" = Some "Difficulty must be a number.".
Proof.
  assert (Hd : request_dict (get_json_or_empty (PDict [("avg_glucose", PInt 130)]))
               = Ret (<["avg_glucose" := PInt 130]> ∅))
    by reflexivity.
  assert (Hin : In "difficulty" predict_fields)
    by (unfold predict_fields; simpl; tauto).
  assert (Hnone : data_get (<["avg_glucose" := PInt 130]> ∅ : gmap string pyval)
                    "difficulty" = PNone)
    by reflexivity.
  split; [exact Hd|]. split; [exact Hin|]. split; [exact Hnone|].
  destruct (predict_missing_field Sample.float_of_str Sample.failing_solver
              Sample.dot (PDict [("avg_glucose", PInt 130)])
              (<["avg_glucose" := PInt 130]> ∅) Sample.db3 "difficulty"
              Hd Hin Hnone) as [H|H]; [|exact H].
  exfalso. revert H. unfold predict_request. rewrite Hd.
  cbn [mbind result_bind]. unfold predict.
  assert (Hv : exists errors parsed,
             validate_predict Sample.float_of_str (<["avg_glucose" := PInt 130]> ∅)
             = Ret (errors, parsed))
    by (eexists _, _; reflexivity).
  destruct Hv as (errors & parsed & ->). cbn [mbind result_bind].
  destruct (dict_bool errors); discriminate.
Defined.

Lemma predict_rejects_out_of_range_witness :
  parse_float Sample.float_of_str (data_get Sample.q_neg "avg_glucose")
  = Ret (Some (F.of_Z (-5)))
  /\ F.ltb F.zero (F.of_Z (-5)) = false
  /\ exists errors,
       predict Sample.float_of_str Sample.failing_solver Sample.dot Sample.q_neg Sample.db3
       = Ret (PDict [("errors", str_dict errors)], 400)
       /\ errors !! "avg_glucose" = Some "Average glucose must be > 0."
       /\ errors !! "glucose_sd" <> Some "Glucose SD must be >= 0.".
Proof.
  assert (Hlt : F.ltb F.zero (F.of_Z (-5)) = false) by (vm_compute; reflexivity).
  split; [vm_compute; reflexivity|]. split; [exact Hlt|].
  destruct (predict_rejects_out_of_range Sample.float_of_str Sample.failing_solver Sample.dot
              Sample.q_neg Sample.db3 (F.of_Z (-5)) (F.of_Z 20) (F.of_Z 6))
    as (errors & Hp & Ha & Hs & _).
  - vm_compute; reflexivity.
  - vm_compute; reflexivity.
  - vm_compute; reflexivity.
  - vm_compute; reflexivity.
  - vm_compute; reflexivity.
  - left. exact Hlt.
  - exists errors. split; [exact Hp|]. split; [apply Ha, Hlt|].
    intros H. apply Hs in H. vm_compute in H. discriminate H.
Defined.

Lemma add_entry_rejects_out_of_range_witness :
  parse_float Sample.float_of_str (data_get Sample.bad_entry "score")
  = Ret (Some (F.of_Z 120))
  /\ F.leb F.zero (F.of_Z 120) && F.leb (F.of_Z 120) (F.of_Z 100) = false
  /\ exists errors,
       add_entry Sample.float_of_str Sample.stamp Sample.bad_entry Sample.db2
       = (Ret (PDict [("errors", str_dict errors)], 400), Sample.db2)
       /\ errors !! "score" = Some "Score must be between 0 and 100.".
Proof.
  assert (Hbad : F.leb F.zero (F.of_Z 120) && F.leb (F.of_Z 120) (F.of_Z 100) = false)
    by (vm_compute; reflexivity).
  split; [vm_compute; reflexivity|]. split; [exact Hbad|].
  destruct (add_entry_rejects_out_of_range Sample.float_of_str Sample.stamp
              Sample.bad_entry Sample.db2
              (F.of_Z 100) (F.of_Z 10) (F.of_Z 3) (F.of_Z 120))
    as (errors & Hp & _ & _ & _ & Hsc).
  - vm_compute; reflexivity.
  - vm_compute; reflexivity.
  - vm_compute; reflexivity.
  - vm_compute; reflexivity.
  - vm_compute; reflexivity.
  - vm_compute; reflexivity.
  - right. right. right. exact Hbad.
  - exists errors. split; [exact Hp|]. apply Hsc, Hbad.
Defined.

Lemma predict_linear_form_witness :
  validate_predict Sample.float_of_str Sample.q1 = Ret (∅, Sample.parsed_q1)
  /\ (3 <= length (fetch_entries Sample.db3))%nat
  /\ exists body,
       predict Sample.float_of_str (Sample.solver Sample.c2) Sample.dot
         Sample.q1 Sample.db3 = Ret (body, 200)
       /\ F.add (F.add (F.add (F.of_Z 50) (F.mul (F.div (F.of_Z 1) (F.of_Z 3))
                                              (F.of_Z 130)))
                      (F.mul (F.dec 5 1) (F.of_Z 20)))
               (F.mul (F.of_Z 2) (F.of_Z 6))
          = S754_finite false 8115861828490581 (-46)
       /\ py_path ["predicted_score"] body
          = Some (PFloat (S754_finite false 8115627266009989 (-46)))
       /\ F.dec 11533 2 = S754_finite false 8115627266009989 (-46).
Proof.
  assert (Hv : validate_predict Sample.float_of_str Sample.q1
               = Ret (∅, Sample.parsed_q1)) by compute_done.
  assert (Hlen : (3 <= length (fetch_entries Sample.db3))%nat)
    by (vm_compute; lia).
  split; [exact Hv|]. split; [exact Hlen|].
  destruct (predict_linear_form Sample.float_of_str (Sample.solver Sample.c2)
              Sample.dot Sample.q1 Sample.parsed_q1 Sample.db3
              (F.of_Z 50) (F.div (F.of_Z 1) (F.of_Z 3)) (F.dec 5 1) (F.of_Z 2)
              Hv Hlen eq_refl)
    as (a & s & d & body & Ha & Hs & Hd & Hp & Hscore).
  exists body. split; [exact Hp|].
  split; [vm_compute; reflexivity|].
  split; [|vm_compute; reflexivity].
  rewrite Hscore.
  assert (Ha' : parse_float Sample.float_of_str (data_get Sample.q1 "avg_glucose")
                = Ret (Some (F.of_Z 130))) by (vm_compute; reflexivity).
  assert (Hs' : parse_float Sample.float_of_str (data_get Sample.q1 "glucose_sd")
                = Ret (Some (F.of_Z 20))) by (vm_compute; reflexivity).
  assert (Hd' : parse_float Sample.float_of_str (data_get Sample.q1 "difficulty")
                = Ret (Some (F.of_Z 6))) by (vm_compute; reflexivity).
  rewrite Ha' in Ha. rewrite Hs' in Hs. rewrite Hd' in Hd.
  apply Ret_inj in Ha, Hs, Hd.
  injection Ha as <-. injection Hs as <-. injection Hd as <-.
  vm_compute. reflexivity.
Defined.

Lemma predict_fallback_model_witness :
  validate_predict Sample.float_of_str Sample.q1 = Ret (∅, Sample.parsed_q1)
  /\ (length (fetch_entries Sample.db2) < 3)%nat
  /\ exists body,
       predict Sample.float_of_str Sample.failing_solver Sample.dot
         Sample.q1 Sample.db2 = Ret (body, 200)
       /\ py_path ["model"; "coefficients"; "difficulty"] body
          = Some (PFloat (S754_zero false))
       /\ py_path ["model"; "n_training_rows"] body = Some (PInt 2)
       /\ py_path ["model"; "r2"] body = Some PNone.
Proof.
  assert (Hv : validate_predict Sample.float_of_str Sample.q1
               = Ret (∅, Sample.parsed_q1)) by compute_done.
  assert (Hn : (length (fetch_entries Sample.db2) < 3)%nat) by (vm_compute; lia).
  assert (Hp : exists body,
             predict Sample.float_of_str Sample.failing_solver Sample.dot
               Sample.q1 Sample.db2 = Ret (body, 200))
    by (eexists; vm_compute; reflexivity).
  destruct Hp as [body Hp].
  split; [exact Hv|]. split; [exact Hn|].
  exists body. split; [exact Hp|].
  pose proof (predict_fallback_model Sample.float_of_str Sample.failing_solver
                Sample.dot Sample.q1 Sample.parsed_q1 Sample.db2 body Hv Hn Hp)
    as Hm.
  cbn [py_path] in *. destruct (py_get "model" body) as [m|]; [|discriminate Hm].
  injection Hm as ->. repeat split; vm_compute; reflexivity.
Defined.

Lemma predict_fallback_ignores_solver_witness :
  (length (fetch_entries Sample.db2) < 3)%nat
  /\ predict Sample.float_of_str (Sample.solver Sample.c1) Sample.dot
       Sample.q1 Sample.db2
     = predict Sample.float_of_str Sample.failing_solver (fun _ _ _ => F.nan)
         Sample.q1 Sample.db2.
Proof.
  assert (Hn : (length (fetch_entries Sample.db2) < 3)%nat) by (vm_compute; lia).
  split; [exact Hn|].
  apply (predict_fallback_ignores_solver Sample.float_of_str
           (Sample.solver Sample.c1) Sample.failing_solver
           Sample.dot (fun _ _ _ => F.nan) Sample.q1 Sample.db2 Hn).
Defined.

Lemma fallback_score_nonneg_witness :
  validate_predict Sample.float_of_str Sample.q1 = Ret (∅, Sample.parsed_q1)
  /\ store_ok Sample.db2
  /\ (length (fetch_entries Sample.db2) < 3)%nat
  /\ exists body x,
       predict Sample.float_of_str Sample.failing_solver Sample.dot Sample.q1 Sample.db2
       = Ret (body, 200)
       /\ py_path ["predicted_score"] body = Some (PFloat x)
       /\ F.is_nan x = false /\ F.ltb x F.zero = false.
Proof.
  assert (Hv : validate_predict Sample.float_of_str Sample.q1
               = Ret (∅, Sample.parsed_q1)) by compute_done.
  assert (Hok : store_ok Sample.db2)
    by (unfold Sample.db2, Sample.db1, Sample.record;
        repeat apply add_entry_store_ok; constructor).
  assert (Hn : (length (fetch_entries Sample.db2) < 3)%nat) by (vm_compute; lia).
  split; [exact Hv|]. split; [exact Hok|]. split; [exact Hn|].
  apply (fallback_score_nonneg Sample.float_of_str Sample.failing_solver Sample.dot
           Sample.q1 Sample.parsed_q1 Sample.db2 Hv Hok Hn).
Defined.

Lemma predict_counts_table_rows_witness :
  exists body,
    predict Sample.float_of_str (Sample.solver Sample.c1) Sample.dot Sample.q1 Sample.db3
    = Ret (body, 200)
    /\ py_path ["model"; "n_training_rows"] body = Some (PInt 3).
Proof.
  eexists. split; [vm_compute; reflexivity|].
  apply (predict_counts_table_rows Sample.float_of_str (Sample.solver Sample.c1) Sample.dot
           Sample.q1 Sample.db3).
  vm_compute; reflexivity.
Defined.

Lemma add_entry_echoes_payload_witness :
  exists body st',
    add_entry Sample.float_of_str Sample.stamp' Sample.e_zero Sample.db2
    = (Ret (body, 201), st')
    /\ body
       = PDict [("id", PInt 3); ("created_at", PStr Sample.stamp');
                ("avg_glucose", PFloat (F.of_Z 120));
                ("glucose_sd", PFloat (S754_zero false));
                ("difficulty", PFloat (F.of_Z 5));
                ("score", PFloat (F.of_Z 80))]
    /\ length (exam_entries st') = 3%nat.
Proof.
  assert (H : exists body st',
             add_entry Sample.float_of_str Sample.stamp' Sample.e_zero Sample.db2
             = (Ret (body, 201), st'))
    by (eexists _, _; vm_compute; reflexivity).
  destruct H as (body & st' & H). exists body, st'. split; [exact H|].
  destruct (add_entry_echoes_payload Sample.float_of_str Sample.stamp'
              Sample.e_zero Sample.db2 body st' H)
    as (a & s & d & sc & Pa & Ps & Pd & Psc & Hb & Hrows & _).
  assert (Pa' : parse_float Sample.float_of_str (data_get Sample.e_zero "avg_glucose")
                = Ret (Some (F.of_Z 120))) by (vm_compute; reflexivity).
  assert (Ps' : parse_float Sample.float_of_str (data_get Sample.e_zero "glucose_sd")
                = Ret (Some (S754_zero true))) by (vm_compute; reflexivity).
  assert (Pd' : parse_float Sample.float_of_str (data_get Sample.e_zero "difficulty")
                = Ret (Some (F.of_Z 5))) by (vm_compute; reflexivity).
  assert (Psc' : parse_float Sample.float_of_str (data_get Sample.e_zero "score")
                 = Ret (Some (F.of_Z 80))) by (vm_compute; reflexivity).
  rewrite Pa' in Pa. rewrite Ps' in Ps. rewrite Pd' in Pd. rewrite Psc' in Psc.
  apply Ret_inj in Pa, Ps, Pd, Psc.
  injection Pa as <-. injection Ps as <-. injection Pd as <-. injection Psc as <-.
  split.
  - rewrite Hb. vm_compute. reflexivity.
  - rewrite Hrows, length_app. vm_compute. reflexivity.
Defined.

Lemma get_entries_lists_added_witness :
  exists body before after,
    add_entry Sample.float_of_str Sample.stamp' Sample.e3 Sample.db2
    = (Ret (body, 201), Sample.db3)
    /\ get_entries Sample.db2 = (PDict [("entries", PList before)], 200)
    /\ get_entries Sample.db3 = (PDict [("entries", PList after)], 200)
    /\ In body after
    /\ (forall b, In b before -> In b after)
    /\ length after = S (length before).
Proof.
  assert (H : exists body,
             add_entry Sample.float_of_str Sample.stamp' Sample.e3 Sample.db2
             = (Ret (body, 201), Sample.db3))
    by (eexists; vm_compute; reflexivity).
  destruct H as [body H]. exists body.
  destruct (get_entries_lists_added Sample.float_of_str Sample.stamp' Sample.e3
              Sample.db2 body Sample.db3 H) as (before & after & Hrest).
  exists before, after. split; [exact H|exact Hrest].
Defined.

Lemma reachable_rows_valid_witness :
  reachable Sample.float_of_str Sample.db3 /\ store_ok Sample.db3.
Proof.
  assert (H : reachable Sample.float_of_str Sample.db3)
    by (unfold Sample.db3, Sample.db2, Sample.db1, Sample.record;
        repeat apply reachable_record; apply reachable_fresh).
  split; [exact H|].
  apply (reachable_rows_valid Sample.float_of_str Sample.db3 H).
Defined.

Lemma reachable_ids_consecutive_witness :
  reachable Sample.float_of_str
    (Sample.record Sample.stamp Sample.e2
       (Sample.record Sample.stamp Sample.bad_entry Sample.db1))
  /\ map rowid (exam_entries
       (Sample.record Sample.stamp Sample.e2
          (Sample.record Sample.stamp Sample.bad_entry Sample.db1)))
     = [1; 2].
Proof.
  assert (H : reachable Sample.float_of_str
                (Sample.record Sample.stamp Sample.e2
                   (Sample.record Sample.stamp Sample.bad_entry Sample.db1)))
    by (unfold Sample.db1, Sample.record;
        repeat apply reachable_record; apply reachable_fresh).
  split; [exact H|].
  destruct (reachable_ids_consecutive Sample.float_of_str _ H) as [Hids _].
  rewrite Hids. vm_compute. reflexivity.
Defined.

Lemma predict_ignores_other_keys_witness :
  (forall k, In k predict_fields ->
     Sample.query (PInt 100) (PInt 10) (PInt 3) !! k = Sample.e1 !! k)
  /\ predict Sample.float_of_str (Sample.solver Sample.c1) Sample.dot
       (Sample.query (PInt 100) (PInt 10) (PInt 3)) Sample.db3
     = predict Sample.float_of_str (Sample.solver Sample.c1) Sample.dot Sample.e1 Sample.db3.
Proof.
  assert (H : forall k, In k predict_fields ->
                Sample.query (PInt 100) (PInt 10) (PInt 3) !! k = Sample.e1 !! k).
  { intros k Hk. unfold predict_fields in Hk. simpl in Hk.
    destruct Hk as [<-|[<-|[<-|[]]]]; compute_done. }
  split; [exact H|].
  apply (predict_ignores_other_keys Sample.float_of_str (Sample.solver Sample.c1) Sample.dot
           (Sample.query (PInt 100) (PInt 10) (PInt 3)) Sample.e1 Sample.db3 H).
Defined.

Lemma predict_reads_columns_only_witness :
  map columns (fetch_entries Sample.db2) = map columns (fetch_entries Sample.db2_moved)
  /\ predict Sample.float_of_str Sample.failing_solver Sample.dot Sample.q1 Sample.db2
     = predict Sample.float_of_str Sample.failing_solver Sample.dot Sample.q1 Sample.db2_moved.
Proof.
  assert (H : map columns (fetch_entries Sample.db2)
              = map columns (fetch_entries Sample.db2_moved))
    by (vm_compute; reflexivity).
  split; [exact H|].
  apply (predict_reads_columns_only Sample.float_of_str Sample.failing_solver Sample.dot
           Sample.q1 Sample.db2 Sample.db2_moved H).
Defined.

Lemma predict_response_shape_witness :
  exists body,
    predict Sample.float_of_str Sample.failing_solver Sample.dot Sample.q_neg Sample.db3
    = Ret (body, 400)
    /\ exists errors parsed,
         validate_predict Sample.float_of_str Sample.q_neg = Ret (errors, parsed)
         /\ errors <> ∅
         /\ body = PDict [("errors", str_dict errors)].
Proof.
  assert (H : exists body,
             predict Sample.float_of_str Sample.failing_solver Sample.dot Sample.q_neg
               Sample.db3 = Ret (body, 400))
    by (eexists; vm_compute; reflexivity).
  destruct H as [body H]. exists body. split; [exact H|].
  destruct (predict_response_shape Sample.float_of_str Sample.failing_solver Sample.dot
              Sample.q_neg Sample.db3 body 400 H) as [[_ Hshape]|[Hcode _]];
    [exact Hshape|discriminate Hcode].
Defined.

Lemma fresh_store_roundtrip_witness :
  exists body,
    add_entry Sample.float_of_str Sample.stamp Sample.e1 empty_db
    = (Ret (body, 201), Sample.db1)
    /\ get_entries Sample.db1 = (PDict [("entries", PList [body])], 200)
    /\ py_path ["id"] body = Some (PInt 1).
Proof.
  assert (H : exists body,
             add_entry Sample.float_of_str Sample.stamp Sample.e1 empty_db
             = (Ret (body, 201), Sample.db1))
    by (eexists; vm_compute; reflexivity).
  destruct H as [body H]. exists body. split; [exact H|].
  destruct (fresh_store_roundtrip Sample.float_of_str Sample.stamp Sample.e1
              body Sample.db1 H) as (Hget & Hid & _).
  split; [exact Hget|exact Hid].
Defined.

Lemma validate_entry_extends_predict_witness :
  validate_entry Sample.float_of_str Sample.bad_entry
  = Ret (Sample.bad_entry_errors, Sample.bad_entry_parsed)
  /\ validate_predict Sample.float_of_str Sample.bad_entry
     = Ret (delete "score" Sample.bad_entry_errors,
            delete "score" Sample.bad_entry_parsed).
Proof.
  assert (H : validate_entry Sample.float_of_str Sample.bad_entry
              = Ret (Sample.bad_entry_errors, Sample.bad_entry_parsed))
    by compute_done.
  split; [exact H|].
  apply (validate_entry_extends_predict Sample.float_of_str Sample.bad_entry
           Sample.bad_entry_errors Sample.bad_entry_parsed H).
Defined.
